(** * Placement portal: applicant scoring, ranking and round progression

    A shallow embedding of the scoring function of
    [backend/utils/score_resume.py] and of the application routes of
    [backend/server.py] ([get_drive_applications], [select_for_round],
    [reject_applications]), together with the properties the portal's
    specification states about them.

    Numbers.  Python's [float] values are modelled by exact rationals [Q];
    equalities between scores are therefore stated with [==] ([Qeq]).
    Library code that is not part of the repository (scikit-learn's TF-IDF
    vectoriser and cosine similarity, [str.lower], [datetime.now], the SMTP
    client) enters the development as section variables, so every theorem
    holds whatever those collaborators return. *)

From Stdlib Require Import Ascii String QArith Qround Qabs Lia Lqa.
From stdpp Require Import base gmap strings list pretty sorting.

Local Open Scope string_scope.
Local Open Scope nat_scope.

(* ===================================================================== *)
(** * Python arithmetic on rationals *)
(* ===================================================================== *)

Module Py.

(** [a < b] as a boolean. *)
Definition Qlt_bool (a b : Q) : bool := negb (Qle_bool b a).

(** Built-in [max(a, b)]: the first argument is kept unless the second is
    strictly larger. *)
Definition max (a b : Q) : Q := if Qlt_bool a b then b else a.

(** Built-in [min(a, b)]: the first argument is kept unless the second is
    strictly smaller. *)
Definition min (a b : Q) : Q := if Qlt_bool b a then b else a.

(** Rounding to the nearest integer, ties to even. *)
Definition round_half_even (q : Q) : Z :=
  let f := Qfloor q in
  match (q - inject_Z f ?= 1 # 2)%Q with
  | Lt => f
  | Gt => (f + 1)%Z
  | Eq => if Z.even f then f else (f + 1)%Z
  end.

(** Built-in [round(x, 2)]. *)
Definition round2 (x : Q) : Q :=
  (inject_Z (round_half_even (x * 100)) / 100)%Q.

(** Truthiness of a string and of a list. *)
Definition truthy_str (s : string) : bool :=
  match s with EmptyString => false | _ => true end.

Definition truthy_list {A} (l : list A) : bool :=
  match l with [] => false | _ => true end.

(** [len(x)] as a float operand. *)
Definition of_len (n : nat) : Q := inject_Z (Z.of_nat n).

(** [str.lower] restricted to ASCII letters. *)
Definition ascii_lower (c : ascii) : ascii :=
  let n := nat_of_ascii c in
  if (65 <=? n) && (n <=? 90) then ascii_of_nat (n + 32) else c.

Fixpoint lower_ascii (s : string) : string :=
  match s with
  | EmptyString => EmptyString
  | String c r => String (ascii_lower c) (lower_ascii r)
  end.

End Py.

(* ===================================================================== *)
(** * utils/score_resume.py *)
(* ===================================================================== *)

Section ScoreResume.

(** [TfidfVectorizer().fit_transform] followed by [cosine_similarity]:
    [None] stands for a raised exception (for instance an empty
    vocabulary). *)
Variable tfidf_cosine : string -> string -> option Q.

(** [str.lower]. *)
Variable lower : string -> string.

(** Text similarity score (60% weight). *)
Definition text_score (resume_text job_description : string) : Q :=
  if Py.truthy_str resume_text && Py.truthy_str job_description then
    match tfidf_cosine resume_text job_description with
    | Some similarity => (similarity * 60)%Q
    | None => 0%Q
    end
  else 0%Q.

(** [set([s.lower() for s in student_skills]) &
     set([s.lower() for s in required_skills])]. *)
Definition matched_skills (student_skills required_skills : list string)
  : gset string :=
  list_to_set (lower <$> student_skills) ∩
  list_to_set (lower <$> required_skills).

(** Skills match score (30% weight). *)
Definition skills_score (student_skills required_skills : list string) : Q :=
  if Py.truthy_list required_skills && Py.truthy_list student_skills then
    if 0 <? length required_skills then
      (Py.of_len (size (matched_skills student_skills required_skills))
         / Py.of_len (length required_skills) * 30)%Q
    else 0%Q
  else 0%Q.

(** CGPA score (10% weight). *)
Definition cgpa_score (student_cgpa min_cgpa : Q) : Q :=
  if Qle_bool min_cgpa student_cgpa then
    let cgpa_normalized := (student_cgpa / 10 * 10)%Q in
    cgpa_normalized
  else
    if Py.Qlt_bool 0 min_cgpa then (student_cgpa / min_cgpa * 5)%Q else 0%Q.

Definition total_score (resume_text : string) (student_skills : list string)
    (student_cgpa : Q) (job_description : string)
    (required_skills : list string) (min_cgpa : Q) : Q :=
  (text_score resume_text job_description
   + skills_score student_skills required_skills
   + cgpa_score student_cgpa min_cgpa)%Q.

Definition score_resume (resume_text : string) (student_skills : list string)
    (student_cgpa : Q) (job_description : string)
    (required_skills : list string) (min_cgpa : Q) : Q :=
  Py.round2
    (Py.min 100
       (Py.max 0
          (total_score resume_text student_skills student_cgpa
             job_description required_skills min_cgpa))).

(** The composite as the specification words it: the total of the three
    sub-scores, rounded to two decimal places, then clamped to
    [[lo, hi]]. *)
Definition clamp (x lo hi : Q) : Q :=
  if Py.Qlt_bool x lo then lo else if Py.Qlt_bool hi x then hi else x.

(** [r] is [x] rounded to two decimal places: a whole number of hundredths
    at distance at most half a hundredth from [x]. *)
Definition rounded_to_2_places (x r : Q) : Prop :=
  (exists n : Z, r == inject_Z n * (1 # 100))%Q
  /\ (Qabs (x - r) <= 1 # 200)%Q.

(** [total = score_text + score_skills + score_cgpa]; the final result is
    [clamp(round(total, 2 decimal places), 0, 100)]. *)
Definition spec_score (score_text score_skills score_cgpa result : Q)
  : Prop :=
  exists rounded : Q,
    rounded_to_2_places (score_text + score_skills + score_cgpa) rounded
    /\ (result == clamp rounded 0 100)%Q.


End ScoreResume.

(* ===================================================================== *)
(** * server.py: documents, storage and the request monad *)
(* ===================================================================== *)

(** One entry of [round_history]: [{"round": ..., "selected_at": ...}]. *)
Record RoundUpdate := {
  round : string;
  selected_at : string
}.

Module User.
Record t := {
  id : string;
  email : string;
  name : string;
  role : string;
  department : option string;
  is_approved : bool
}.
End User.

Module StudentProfile.
Record t := {
  user_id : string;
  roll_number : string;
  cgpa : Q;
  skills : list string;
  resume_text : option string
}.
End StudentProfile.

Module Drive.
Record t := {
  id : string;
  company_name : string;
  role : string;
  description : string;
  min_cgpa : Q;
  required_skills : list string
}.
End Drive.

Module Application.
(** A stored application document.  [ai_score = None] stands for a
    document without an ["ai_score"] key; when the key is present it holds
    a number ([apply_to_drive] stores the result of [score_resume], the
    seed script a rounded random number). *)
Record t := {
  id : string;
  drive_id : string;
  student_id : string;
  status : string;
  ai_score : option Q;
  current_round : string;
  round_history : list RoundUpdate;
  applied_at : string
}.

(** Model defaults of [class Application(BaseModel)]: a freshly created
    application. *)
Definition new (id drive_id student_id : string) (ai_score : Q)
    (applied_at : string) : t :=
  {| id := id; drive_id := drive_id; student_id := student_id;
     status := "Applied"; ai_score := Some ai_score;
     current_round := "Applied"; round_history := [];
     applied_at := applied_at |}.

(** [{"$set": {"current_round": r}}]. *)
Definition set_current_round (r : string) (a : t) : t :=
  {| id := id a; drive_id := drive_id a; student_id := student_id a;
     status := status a; ai_score := ai_score a;
     current_round := r; round_history := round_history a;
     applied_at := applied_at a |}.

(** [{"$push": {"round_history": u}}]. *)
Definition push_round_history (u : RoundUpdate) (a : t) : t :=
  {| id := id a; drive_id := drive_id a; student_id := student_id a;
     status := status a; ai_score := ai_score a;
     current_round := current_round a;
     round_history := round_history a ++ [u];
     applied_at := applied_at a |}.
End Application.

(** An application as returned by [get_drive_applications], with the
    ["student"] and ["profile"] keys added. *)
Record EnrichedApplication := {
  app : Application.t;
  student : option User.t;
  profile : option StudentProfile.t
}.

Record Email := {
  to_email : string;
  subject : string;
  body : string
}.

Record HTTPException := {
  status_code : nat;
  detail : string
}.

(** The collections the routes touch, the number of clock readings made so
    far, the mails handed to the SMTP server and the error log. *)
Record World := {
  applications : list Application.t;
  users : list User.t;
  drives : list Drive.t;
  profiles : list StudentProfile.t;
  clock : nat;
  outbox : list Email;
  error_log : list string
}.

Definition with_applications (l : list Application.t) (w : World) : World :=
  {| applications := l; users := users w; drives := drives w;
     profiles := profiles w; clock := clock w; outbox := outbox w;
     error_log := error_log w |}.

Inductive Result (A : Type) : Type :=
| Ok (a : A)
| Raised (e : HTTPException).
Arguments Ok {A} a.
Arguments Raised {A} e.

(** Request handlers: state passing over [World], with [HTTPException]. *)
Definition M (A : Type) : Type := World -> Result A * World.

Definition ret {A} (a : A) : M A := fun w => (Ok a, w).

Definition raise {A} (status_code : nat) (detail : string) : M A :=
  fun w => (Raised {| status_code := status_code; detail := detail |}, w).

Definition bind {A B} (c : M A) (k : A -> M B) : M B :=
  fun w =>
    match c w with
    | (Ok a, w') => k a w'
    | (Raised e, w') => (Raised e, w')
    end.

Notation "'let*' x ':=' c 'in' k" := (bind c (fun x => k))
  (at level 10, x pattern, c at level 100, k at level 200).

(** ** The storage collaborator *)

(** [find_one]: the first document matching the filter. *)
Fixpoint find_one {A} (p : A -> bool) (l : list A) : option A :=
  match l with
  | [] => None
  | x :: r => if p x then Some x else find_one p r
  end.

(** [find(...).to_list(n)]: the first [n] matching documents, in storage
    order. *)
Definition find_to_list {A} (p : A -> bool) (n : nat) (l : list A) : list A :=
  take n (List.filter p l).

(** [update_one]: the update applied to the first matching document; no
    document matching is not an error. *)
Fixpoint update_one {A} (p : A -> bool) (f : A -> A) (l : list A) : list A :=
  match l with
  | [] => []
  | x :: r => if p x then f x :: r else x :: update_one p f r
  end.

Definition application_has_id (i : string) (a : Application.t) : bool :=
  String.eqb (Application.id a) i.

Definition user_has_id (i : string) (u : User.t) : bool :=
  String.eqb (User.id u) i.

Definition drive_has_id (i : string) (d : Drive.t) : bool :=
  String.eqb (Drive.id d) i.

Definition db_applications_find_one (i : string) : M (option Application.t) :=
  fun w => (Ok (find_one (application_has_id i) (applications w)), w).

Definition db_applications_update_one (i : string)
    (f : Application.t -> Application.t) : M unit :=
  fun w =>
    (Ok tt,
     with_applications (update_one (application_has_id i) f (applications w)) w).

Definition db_users_find_one (i : string) : M (option User.t) :=
  fun w => (Ok (find_one (user_has_id i) (users w)), w).

Definition db_profiles_find_one (i : string) : M (option StudentProfile.t) :=
  fun w =>
    (Ok (find_one (fun p => String.eqb (StudentProfile.user_id p) i)
           (profiles w)), w).

Definition db_drives_find_one (i : string) : M (option Drive.t) :=
  fun w => (Ok (find_one (drive_has_id i) (drives w)), w).

(* ===================================================================== *)
(** * server.py: the application and placement-office routes *)
(* ===================================================================== *)

(** [list.sort(key=..., reverse=True)]: the built-in sort is stable, also
    with [reverse=True]; its result is the one of this insertion sort. *)
Section Sort.
Context {A : Type} (key : A -> Q).

Fixpoint insert_desc (x : A) (l : list A) : list A :=
  match l with
  | [] => [x]
  | y :: r =>
      if Py.Qlt_bool (key x) (key y) then y :: insert_desc x r
      else x :: y :: r
  end.

Definition sort_reverse (l : list A) : list A :=
  foldr insert_desc [] l.
End Sort.

Definition nl : string := String (ascii_of_nat 10) "".

(** Responses of the two placement-office routes. *)
Record SelectResponse := {
  message : string;
  emails_sent : nat
}.

Record RejectResponse := {
  reject_message : string
}.

Section Server.

(** [datetime.now(timezone.utc).isoformat()] at the [k]-th reading of the
    clock. *)
Variable utcnow_iso : nat -> string.

(** [send_email]: [None] when the mail was delivered, [Some e] when the
    call raised an exception printing as [e]. *)
Variable send_email : Email -> option string.

Definition now_isoformat : M string :=
  fun w =>
    (Ok (utcnow_iso (clock w)),
     {| applications := applications w; users := users w;
        drives := drives w; profiles := profiles w;
        clock := S (clock w); outbox := outbox w;
        error_log := error_log w |}).

(** [try: await send_email(...) except Exception as e: logging.error(...)]. *)
Definition try_send_email (m : Email) : M unit :=
  fun w =>
    (Ok tt,
     {| applications := applications w; users := users w;
        drives := drives w; profiles := profiles w;
        clock := clock w;
        outbox :=
          match send_email m with
          | None => outbox w ++ [m]
          | Some _ => outbox w
          end;
        error_log :=
          match send_email m with
          | None => error_log w
          | Some e =>
              error_log w ++
              ["Error sending email to " ++ to_email m ++ ": " ++ e]
          end |}).

(** The lambda [x.get('ai_score', 0)]. *)
Definition sort_key (x : EnrichedApplication) : Q :=
  default 0%Q (Application.ai_score (app x)).

(** The enrichment loop of [get_drive_applications]. *)
Fixpoint enrich (applications : list Application.t)
  : M (list EnrichedApplication) :=
  match applications with
  | [] => ret []
  | a :: rest =>
      let* user := db_users_find_one (Application.student_id a) in
      let* profile := db_profiles_find_one (Application.student_id a) in
      let* rest' := enrich rest in
      ret ({| app := a; student := user; profile := profile |} :: rest')
  end.

Definition get_drive_applications (drive_id : string) (current_user : User.t)
  : M (list EnrichedApplication) :=
  if negb (String.eqb (User.role current_user) "tpo"
           || String.eqb (User.role current_user) "hod") then
    raise 403 "Only TPO/HOD can view applications"
  else
    let* applications :=
      (fun w =>
         (Ok (find_to_list
                (fun a => String.eqb (Application.drive_id a) drive_id)
                1000 (applications w)), w)) in
    let* applications := enrich applications in
    ret (sort_reverse sort_key applications).

(** The first loop of [select_for_round]. *)
Fixpoint select_loop (application_ids : list string) (next_round : string)
    (selected_emails : list (string * string))
  : M (list (string * string)) :=
  match application_ids with
  | [] => ret selected_emails
  | app_id :: rest =>
      let* application := db_applications_find_one app_id in
      match application with
      | Some application =>
          let* ts := now_isoformat in
          let round_update := {| round := next_round; selected_at := ts |} in
          let* _ :=
            db_applications_update_one app_id
              (fun a =>
                 Application.push_round_history round_update
                   (Application.set_current_round next_round a)) in
          let* student :=
            db_users_find_one (Application.student_id application) in
          match student with
          | Some student =>
              select_loop rest next_round
                (selected_emails ++ [(User.email student, User.name student)])
          | None => select_loop rest next_round selected_emails
          end
      | None => select_loop rest next_round selected_emails
      end
  end.

Definition selection_mail (drive : Drive.t) (next_round : string)
    (student : string * string) : Email :=
  let '(student_email, student_name) := student in
  if String.eqb next_round "Selected" then
    {| to_email := student_email;
       subject := "Congratulations! Selected for " ++ Drive.role drive
                  ++ " at " ++ Drive.company_name drive;
       body := "Dear " ++ student_name ++ "," ++ nl ++ nl
               ++ "Congratulations! You have been selected for the role of "
               ++ Drive.role drive ++ " at " ++ Drive.company_name drive
               ++ "." ++ nl ++ nl
               ++ "Please contact the Training & Placement Office for further details."
               ++ nl ++ nl ++ "Best Regards," ++ nl
               ++ "Training & Placement Officer" |}
  else
    {| to_email := student_email;
       subject := "Selected for " ++ next_round ++ " Round - "
                  ++ Drive.company_name drive;
       body := "Dear " ++ student_name ++ "," ++ nl ++ nl
               ++ "Congratulations! You have been shortlisted for the "
               ++ next_round ++ " round for the role of "
               ++ Drive.role drive ++ " at " ++ Drive.company_name drive
               ++ "." ++ nl ++ nl
               ++ "Please check your dashboard for further details and schedule."
               ++ nl ++ nl ++ "Best Regards," ++ nl
               ++ "Training & Placement Officer" |}.

(** The second loop of [select_for_round]. *)
Fixpoint send_loop (drive : Drive.t) (next_round : string)
    (selected_emails : list (string * string)) : M unit :=
  match selected_emails with
  | [] => ret tt
  | student :: rest =>
      let* _ := try_send_email (selection_mail drive next_round student) in
      send_loop drive next_round rest
  end.

Definition select_for_round (application_ids : list string)
    (next_round drive_id : string) (current_user : User.t)
  : M SelectResponse :=
  if negb (String.eqb (User.role current_user) "tpo") then
    raise 403 "Only TPO can select students"
  else
    let* drive := db_drives_find_one drive_id in
    match drive with
    | None => raise 404 "Drive not found"
    | Some drive =>
        let* selected_emails := select_loop application_ids next_round [] in
        let* _ := send_loop drive next_round selected_emails in
        ret {| message := "Selected " ++ pretty (length application_ids)
                          ++ " students for " ++ next_round;
               emails_sent := length selected_emails |}
    end.

(** The loop of [reject_applications]. *)
Fixpoint reject_loop (application_ids : list string) : M unit :=
  match application_ids with
  | [] => ret tt
  | app_id :: rest =>
      let* _ :=
        db_applications_update_one app_id
          (Application.set_current_round "Rejected") in
      reject_loop rest
  end.

Definition reject_applications (application_ids : list string)
    (current_user : User.t) : M RejectResponse :=
  if negb (String.eqb (User.role current_user) "tpo") then
    raise 403 "Only TPO can reject students"
  else
    let* _ := reject_loop application_ids in
    ret {| reject_message := "Rejected " ++ pretty (length application_ids)
                             ++ " applications" |}.

End Server.

(* ===================================================================== *)
(** * Predicates and sample data used by the statements *)
(* ===================================================================== *)

(** [f] tends to [L] as its argument tends to [a] from below. *)
Definition left_limit (f : Q -> Q) (a L : Q) : Prop :=
  forall eps : Q, (0 < eps)%Q ->
    exists delta : Q, (0 < delta)%Q /\
      forall s : Q, (a - delta < s)%Q -> (s < a)%Q ->
        (Qabs (f s - L) < eps)%Q.

Definition continuous_at (f : Q -> Q) (a : Q) : Prop :=
  forall eps : Q, (0 < eps)%Q ->
    exists delta : Q, (0 < delta)%Q /\
      forall s : Q, (Qabs (s - a) < delta)%Q ->
        (Qabs (f s - f a) < eps)%Q.

(** The CGPA score as a function of the student's CGPA, for a fixed
    threshold, has a jump at the threshold: its limit from below is 5
    while its value there is not. *)
Definition jump_at_threshold (min_cgpa : Q) : Prop :=
  left_limit (fun s => cgpa_score s min_cgpa) min_cgpa 5
  /\ ~ (cgpa_score min_cgpa min_cgpa == 5)%Q
  /\ ~ continuous_at (fun s => cgpa_score s min_cgpa) min_cgpa.

(** The update [select_for_round] applies to one stored application:
    [$set] of [current_round] together with [$push] onto
    [round_history]. *)
Definition advance (next_round ts : string) (a : Application.t)
  : Application.t :=
  Application.push_round_history
    {| round := next_round; selected_at := ts |}
    (Application.set_current_round next_round a).

(** The update [reject_applications] applies to one stored application. *)
Definition reject (a : Application.t) : Application.t :=
  Application.set_current_round "Rejected" a.

(** The row [get_drive_applications] builds for one application. *)
Definition enriched (w : World) (a : Application.t) : EnrichedApplication :=
  {| app := a;
     student := find_one (user_has_id (Application.student_id a)) (users w);
     profile :=
       find_one
         (fun p => String.eqb (StudentProfile.user_id p)
                     (Application.student_id a))
         (profiles w) |}.

(** The applications [get_drive_applications] fetches for a drive. *)
Definition fetched (drive_id : string) (w : World) : list Application.t :=
  find_to_list (fun a => String.eqb (Application.drive_id a) drive_id)
    1000 (applications w).

(** All the stored applications of a drive, in storage order. *)
Definition drive_applications (drive_id : string) (w : World)
  : list Application.t :=
  List.filter (fun a => String.eqb (Application.drive_id a) drive_id)
    (applications w).

(** The score an application is ranked by. *)
Definition rank_score (a : Application.t) : Q :=
  default 0%Q (Application.ai_score a).

(** The store after one iteration of the first loop of [select_for_round]
    that found its application: the clock was read once and the
    application with identifier [i] was advanced. *)
Definition advanced_world (utcnow_iso : nat -> string) (i next_round : string)
    (w : World) : World :=
  {| applications :=
       update_one (application_has_id i)
         (advance next_round (utcnow_iso (clock w))) (applications w);
     users := users w; drives := drives w; profiles := profiles w;
     clock := S (clock w); outbox := outbox w; error_log := error_log w |}.

(** An application advanced at each of the clock readings [ks] in turn. *)
Definition advance_at (utcnow_iso : nat -> string) (next_round : string)
    (ks : list nat) (a : Application.t) : Application.t :=
  foldl (fun a k => advance next_round (utcnow_iso k) a) a ks.

(** Number of occurrences of an identifier in a batch. *)
Definition occurrences (i : string) (ids : list string) : nat :=
  length (List.filter (String.eqb i) ids).

(** Descending order of a key. *)
Definition desc_by {A : Type} (key : A -> Q) (x y : A) : Prop :=
  (key y <= key x)%Q.

Module Sample.

Definition tpo : User.t :=
  {| User.id := "u-tpo"; User.email := "tpo@college.edu";
     User.name := "Placement Officer"; User.role := "tpo";
     User.department := None; User.is_approved := true |}.

Definition student_user (i : string) : User.t :=
  {| User.id := i; User.email := i ++ "@college.edu";
     User.name := "Student " ++ i; User.role := "student";
     User.department := Some "CSE"; User.is_approved := true |}.

Definition drive (i : string) : Drive.t :=
  {| Drive.id := i; Drive.company_name := "Acme";
     Drive.role := "Java developer";
     Drive.description := "Java developer role";
     Drive.min_cgpa := 7; Drive.required_skills := ["java"; "python"] |}.

Definition a1 : Application.t :=
  Application.new "a1" "d1" "s1" (725 # 10) "2026-01-05T10:00:00+00:00".
Definition a2 : Application.t :=
  Application.new "a2" "d1" "s2" 91 "2026-01-05T10:05:00+00:00".
Definition a3 : Application.t :=
  Application.new "a3" "d1" "s3" 91 "2026-01-05T10:10:00+00:00".

(** An application that was advanced once and then rejected. *)
Definition a4 : Application.t :=
  {| Application.id := "a4"; Application.drive_id := "d1";
     Application.student_id := "s4"; Application.status := "Applied";
     Application.ai_score := Some 40%Q;
     Application.current_round := "Rejected";
     Application.round_history :=
       [{| round := "Aptitude";
           selected_at := "2026-01-06T09:00:00+00:00" |}];
     Application.applied_at := "2026-01-05T10:15:00+00:00" |}.

(** A stored document without an [ai_score] key. *)
Definition a5 : Application.t :=
  {| Application.id := "a5"; Application.drive_id := "d2";
     Application.student_id := "s1"; Application.status := "Applied";
     Application.ai_score := None;
     Application.current_round := "Applied";
     Application.round_history := [];
     Application.applied_at := "2026-01-07T10:00:00+00:00" |}.

Definition a6 : Application.t :=
  Application.new "a6" "d2" "s2" (125 # 10) "2026-01-07T10:05:00+00:00".

Definition world : World :=
  {| applications := [a1; a2; a3; a4; a5; a6];
     users := [tpo; student_user "s1"; student_user "s2";
               student_user "s3"; student_user "s4"];
     drives := [drive "d1"; drive "d2"];
     profiles := [];
     clock := 0;
     outbox := [];
     error_log := [] |}.

Definition utcnow_iso (k : nat) : string :=
  "2026-02-01T00:00:0" ++ pretty k ++ "+00:00".

Definition send_email (m : Email) : option string := None.

End Sample.

(** A drive with 1001 stored applications: a thousand early applicants
    with score 40, then a late applicant with score 91. *)
Module Crowded.

Definition early (n : nat) : Application.t :=
  Application.new ("e" ++ pretty n) "d1" ("s" ++ pretty n) 40
    "2026-01-05T10:00:00+00:00".

Definition late : Application.t :=
  Application.new "late" "d1" "s-late" 91 "2026-01-06T10:00:00+00:00".

Definition world : World :=
  {| applications := (early <$> seq 0 1000) ++ [late];
     users := [Sample.tpo];
     drives := [Sample.drive "d1"];
     profiles := [];
     clock := 0;
     outbox := [];
     error_log := [] |}.

End Crowded.

(* ===================================================================== *)
(** * Further predicates on stored applications *)
(* ===================================================================== *)

(** [a'] is a later state of the stored application [a]: the same
    identifying and scoring fields, and a history that extends the one of
    [a]. *)
Definition evolves (a a' : Application.t) : Prop :=
  Application.id a' = Application.id a
  /\ Application.drive_id a' = Application.drive_id a
  /\ Application.student_id a' = Application.student_id a
  /\ Application.status a' = Application.status a
  /\ Application.ai_score a' = Application.ai_score a
  /\ Application.applied_at a' = Application.applied_at a
  /\ Application.round_history a `prefix_of` Application.round_history a'.

(** The entry [select_for_round] adds to [selected_emails] for the
    identifier [i]: the e-mail address and name of the owner of the stored
    application, when both the application and the user are found. *)
Definition notified_student (w : World) (i : string)
  : option (string * string) :=
  match find_one (application_has_id i) (applications w) with
  | Some a =>
      match find_one (user_has_id (Application.student_id a)) (users w) with
      | Some s => Some (User.email s, User.name s)
      | None => None
      end
  | None => None
  end.

(** The mails among [ms] that [send_email] delivers. *)
Definition delivered (send_email : Email -> option string) (ms : list Email)
  : list Email :=
  List.filter
    (fun m => match send_email m with None => true | Some _ => false end) ms.

(** The log lines for the mails among [ms] on which [send_email] raises. *)
Definition failures (send_email : Email -> option string) (ms : list Email)
  : list string :=
  omap
    (fun m =>
       match send_email m with
       | None => None
       | Some e => Some ("Error sending email to " ++ to_email m ++ ": " ++ e)
       end) ms.

(** Whether an application with identifier [i] is stored. *)
Definition stored (w : World) (i : string) : bool :=
  match find_one (application_has_id i) (applications w) with
  | Some _ => true
  | None => false
  end.

(* ===================================================================== *)
(** * server.py: the student and head-of-department routes *)
(* ===================================================================== *)

Definition with_users (l : list User.t) (w : World) : World :=
  {| applications := applications w; users := l; drives := drives w;
     profiles := profiles w; clock := clock w; outbox := outbox w;
     error_log := error_log w |}.

Definition with_profiles (l : list StudentProfile.t) (w : World) : World :=
  {| applications := applications w; users := users w; drives := drives w;
     profiles := l; clock := clock w; outbox := outbox w;
     error_log := error_log w |}.

(** [insert_one]: the document is added after the stored ones. *)
Definition db_applications_insert_one (a : Application.t) : M unit :=
  fun w => (Ok tt, with_applications (applications w ++ [a]) w).

Definition db_profiles_insert_one (p : StudentProfile.t) : M unit :=
  fun w => (Ok tt, with_profiles (profiles w ++ [p]) w).

(** The filter [{"drive_id": ..., "student_id": ...}]. *)
Definition application_of (drive_id student_id : string)
    (a : Application.t) : bool :=
  String.eqb (Application.drive_id a) drive_id
  && String.eqb (Application.student_id a) student_id.

(** The body of [POST /students/profile]: the keys [roll_number] and
    [cgpa] are required, [skills] is optional. *)
Record ProfileData := {
  pd_roll_number : string;
  pd_cgpa : Q;
  pd_skills : option (list string)
}.

(** An application as returned by [get_my_applications], with the
    ["drive"] key added. *)
Record MyApplication := {
  my_app : Application.t;
  my_drive : option Drive.t
}.

(** The filter of [get_pending_approvals]:
    [{"role": "student", "department": d, "is_approved": False}]. *)
Definition pending_in (department : option string) (u : User.t) : bool :=
  String.eqb (User.role u) "student"
  && bool_decide (User.department u = department)
  && negb (User.is_approved u).

(** The filter of [approve_student]: [{"id": i, "department": d}]. *)
Definition user_in_department (i : string) (department : option string)
    (u : User.t) : bool :=
  String.eqb (User.id u) i && bool_decide (User.department u = department).

(** [{"$set": {"is_approved": True}}]. *)
Definition set_approved (u : User.t) : User.t :=
  {| User.id := User.id u; User.email := User.email u;
     User.name := User.name u; User.role := User.role u;
     User.department := User.department u; User.is_approved := true |}.

Section StudentRoutes.

Variable tfidf_cosine : string -> string -> option Q.
Variable lower : string -> string.
Variable utcnow_iso : nat -> string.

(** The call of [score_resume] in [apply_to_drive].  A profile whose
    [resume_text] is [None] and one whose [resume_text] is the empty string
    are both falsy in the scorer's test, so [None] is passed as [""]. *)
Definition application_score (profile : StudentProfile.t) (drive : Drive.t)
  : Q :=
  score_resume tfidf_cosine lower
    (default "" (StudentProfile.resume_text profile))
    (StudentProfile.skills profile)
    (StudentProfile.cgpa profile)
    (Drive.description drive)
    (Drive.required_skills drive)
    (Drive.min_cgpa drive).

(** [apply_to_drive]; [new_id] is the identifier [uuid4] generates for the
    new application. *)
Definition apply_to_drive (new_id drive_id : string) (current_user : User.t)
  : M Application.t :=
  if negb (String.eqb (User.role current_user) "student") then
    raise 403 "Only students can apply"
  else
    let* existing :=
      (fun w =>
         (Ok (find_one (application_of drive_id (User.id current_user))
                (applications w)), w)) in
    match existing with
    | Some _ => raise 400 "Already applied to this drive"
    | None =>
        let* profile := db_profiles_find_one (User.id current_user) in
        let* drive := db_drives_find_one drive_id in
        match profile with
        | None => raise 400 "Please complete your profile first"
        | Some profile =>
            match drive with
            | None => raise 404 "Drive not found"
            | Some drive =>
                let ai_score := application_score profile drive in
                let* applied_at := now_isoformat utcnow_iso in
                let application :=
                  Application.new new_id drive_id (User.id current_user)
                    ai_score applied_at in
                let* _ := db_applications_insert_one application in
                ret application
            end
        end
    end.

(** The enrichment loop of [get_my_applications]. *)
Fixpoint attach_drives (applications : list Application.t)
  : M (list MyApplication) :=
  match applications with
  | [] => ret []
  | a :: rest =>
      let* drive := db_drives_find_one (Application.drive_id a) in
      let* rest' := attach_drives rest in
      ret ({| my_app := a; my_drive := drive |} :: rest')
  end.

Definition get_my_applications (current_user : User.t)
  : M (list MyApplication) :=
  if negb (String.eqb (User.role current_user) "student") then
    raise 403 "Only students can view their applications"
  else
    let* applications :=
      (fun w =>
         (Ok (find_to_list
                (fun a => String.eqb (Application.student_id a)
                            (User.id current_user))
                1000 (applications w)), w)) in
    attach_drives applications.

Definition create_profile (profile_data : ProfileData)
    (current_user : User.t) : M StudentProfile.t :=
  if negb (String.eqb (User.role current_user) "student") then
    raise 403 "Only students can create profiles"
  else
    let profile :=
      {| StudentProfile.user_id := User.id current_user;
         StudentProfile.roll_number := pd_roll_number profile_data;
         StudentProfile.cgpa := pd_cgpa profile_data;
         StudentProfile.skills := default [] (pd_skills profile_data);
         StudentProfile.resume_text := None |} in
    let* _ := db_profiles_insert_one profile in
    ret profile.

Definition get_profile (current_user : User.t)
  : M (option StudentProfile.t) :=
  if negb (String.eqb (User.role current_user) "student") then
    raise 403 "Only students can view their profile"
  else
    db_profiles_find_one (User.id current_user).

Definition get_pending_approvals (current_user : User.t) : M (list User.t) :=
  if negb (String.eqb (User.role current_user) "hod") then
    raise 403 "Only HOD can view approvals"
  else
    fun w =>
      (Ok (find_to_list (pending_in (User.department current_user)) 1000
             (users w)), w).

Definition approve_student (student_id : string) (current_user : User.t)
  : M string :=
  if negb (String.eqb (User.role current_user) "hod") then
    raise 403 "Only HOD can approve students"
  else
    let* _ :=
      (fun w =>
         (Ok tt,
          with_users
            (update_one
               (user_in_department student_id (User.department current_user))
               set_approved (users w)) w)) in
    ret "Student approved successfully".

End StudentRoutes.

(** Whether the stored applications hold at most one application per
    (drive, student) pair. *)
Definition one_application_per_pair (l : list Application.t) : Prop :=
  NoDup ((fun a => (Application.drive_id a, Application.student_id a)) <$> l).

(** The row [get_my_applications] builds for one application. *)
Definition with_drive (w : World) (a : Application.t) : MyApplication :=
  {| my_app := a;
     my_drive := find_one (drive_has_id (Application.drive_id a)) (drives w) |}.

(** Sample data with profiles, a head of department and a student who
    awaits approval. *)
Module Campus.

Definition hod : User.t :=
  {| User.id := "u-hod"; User.email := "hod.cse@college.edu";
     User.name := "Head of CSE"; User.role := "hod";
     User.department := Some "CSE"; User.is_approved := true |}.

Definition pending_student (i department : string) : User.t :=
  {| User.id := i; User.email := i ++ "@college.edu";
     User.name := "Student " ++ i; User.role := "student";
     User.department := Some department; User.is_approved := false |}.

Definition profile (i roll : string) (cgpa : Q) (skills : list string)
  : StudentProfile.t :=
  {| StudentProfile.user_id := i; StudentProfile.roll_number := roll;
     StudentProfile.cgpa := cgpa; StudentProfile.skills := skills;
     StudentProfile.resume_text := None |}.

Definition world : World :=
  {| applications := applications Sample.world;
     users := users Sample.world
              ++ [hod; pending_student "s8" "CSE"; pending_student "s9" "ECE"];
     drives := drives Sample.world;
     profiles := [profile "s1" "CS001" (85 # 10) ["java"; "sql"];
                  profile "s3" "CS003" (62 # 10) ["Python"; "Java"]];
     clock := 0;
     outbox := [];
     error_log := [] |}.

Definition tfidf_cosine (resume_text job_description : string) : option Q :=
  Some (1 # 4)%Q.

(** The same campus after the applications a1 and a3 reached the round
    "Selected". *)
Definition placed_world : World :=
  with_applications
    (update_one (application_has_id "a3")
       (Application.set_current_round "Selected")
       (update_one (application_has_id "a1")
          (Application.set_current_round "Selected")
          (applications world)))
    world.

End Campus.

(* ===================================================================== *)
(** * server.py: statistics and analytics *)
(* ===================================================================== *)

(** One entry of [placed_students_data] in [get_2025_statistics]. *)
Module PlacedStudent.
Record t := {
  student_id : string;
  name : string;
  email : string;
  roll_number : string;
  cgpa : Q;
  company : string;
  role : string;
  ai_score : Q;
  applied_at : string;
  skills : list string
}.
End PlacedStudent.

(** The response of [get_2025_statistics]. *)
Module Statistics2025.
Record t := {
  year : nat;
  department : option string;
  total_students : nat;
  placed_students : nat;
  placement_percentage : Q;
  avg_cgpa_placed : Q;
  placed_students_details : list PlacedStudent.t;
  company_distribution : list (string * nat);
  cgpa_distribution : list (string * nat)
}.
End Statistics2025.

(** One entry of [dept_stats] in [get_analytics]. *)
Module DeptStat.
Record t := {
  department : string;
  total : nat;
  placed : nat;
  percentage : Q
}.
End DeptStat.

(** The response of [get_analytics]. *)
Module Analytics.
Record t := {
  total_drives : nat;
  total_applications : nat;
  total_students : nat;
  placed_students : nat;
  placement_rate : Q;
  department_stats : list DeptStat.t
}.
End Analytics.

(** A [dict] from strings to counters, in insertion order.
    [dict_increment k d] is [d[k] += 1] when [k] is a key of [d], and
    [d[k] = 1] otherwise. *)
Fixpoint dict_increment (k : string) (d : list (string * nat))
  : list (string * nat) :=
  match d with
  | [] => [(k, 1)]
  | (k', v) :: r =>
      if String.eqb k' k then (k', S v) :: r
      else (k', v) :: dict_increment k r
  end.

(** The [if]/[elif] chain over the CGPA of a placed student. *)
Definition cgpa_range (cgpa : Q) : string :=
  if Qle_bool 9 cgpa then "9.0-10.0"
  else if Qle_bool 8 cgpa then "8.0-8.9"
  else if Qle_bool 7 cgpa then "7.0-7.9"
  else if Qle_bool 6 cgpa then "6.0-6.9"
  else "Below 6.0".

Definition cgpa_ranges_init : list (string * nat) :=
  [("9.0-10.0", 0); ("8.0-8.9", 0); ("7.0-7.9", 0); ("6.0-6.9", 0);
   ("Below 6.0", 0)].

(** [count_documents] and the filters the statistics use. *)
Definition approved_student (u : User.t) : bool :=
  String.eqb (User.role u) "student" && User.is_approved u.

Definition approved_student_in (department : option string) (u : User.t)
  : bool :=
  String.eqb (User.role u) "student"
  && bool_decide (User.department u = department)
  && User.is_approved u.

Definition is_selected (a : Application.t) : bool :=
  String.eqb (Application.current_round a) "Selected".

(** [(placed / total * 100) if total > 0 else 0]. *)
Definition percentage_of (placed total : nat) : Q :=
  if 0 <? total then (Py.of_len placed / Py.of_len total * 100)%Q else 0%Q.

(** [sum(s['cgpa'] for s in data if s['cgpa'])]. *)
Definition sum_truthy_cgpa (data : list PlacedStudent.t) : Q :=
  foldl Qplus 0%Q
    (List.filter (fun c => negb (Qeq_bool c 0))
       (PlacedStudent.cgpa <$> data)).

Definition departments : list string :=
  ["CSE"; "ECE"; "EEE"; "MECH"; "CIVIL"].

Section Statistics.

(** The loop of [get_2025_statistics] that filters the selected
    applications by department and collects the details. *)
Fixpoint placed_rows (department : option string)
    (placed_apps : list Application.t) : M (list PlacedStudent.t) :=
  match placed_apps with
  | [] => ret []
  | a :: rest =>
      let* student := db_users_find_one (Application.student_id a) in
      match student with
      | Some student =>
          if bool_decide (User.department student = department) then
            let* profile := db_profiles_find_one (Application.student_id a) in
            let* drive := db_drives_find_one (Application.drive_id a) in
            let* rest' := placed_rows department rest in
            ret ({| PlacedStudent.student_id := User.id student;
                    PlacedStudent.name := User.name student;
                    PlacedStudent.email := User.email student;
                    PlacedStudent.roll_number :=
                      match profile with
                      | Some p => StudentProfile.roll_number p
                      | None => "N/A"
                      end;
                    PlacedStudent.cgpa :=
                      match profile with
                      | Some p => StudentProfile.cgpa p
                      | None => 0%Q
                      end;
                    PlacedStudent.company :=
                      match drive with
                      | Some d => Drive.company_name d
                      | None => "N/A"
                      end;
                    PlacedStudent.role :=
                      match drive with
                      | Some d => Drive.role d
                      | None => "N/A"
                      end;
                    PlacedStudent.ai_score :=
                      default 0%Q (Application.ai_score a);
                    PlacedStudent.applied_at := Application.applied_at a;
                    PlacedStudent.skills :=
                      match profile with
                      | Some p => StudentProfile.skills p
                      | None => []
                      end |} :: rest')
          else placed_rows department rest
      | None => placed_rows department rest
      end
  end.

Definition get_2025_statistics (current_user : User.t)
  : M Statistics2025.t :=
  if negb (String.eqb (User.role current_user) "hod") then
    raise 403 "Only HOD can view statistics"
  else
    let current_year := 2025 in
    let* total_students :=
      (fun w =>
         (Ok (length
                (List.filter
                   (approved_student_in (User.department current_user))
                   (users w))), w)) in
    let* placed_apps :=
      (fun w => (Ok (find_to_list is_selected 1000 (applications w)), w)) in
    let* placed_students_data :=
      placed_rows (User.department current_user) placed_apps in
    let placement_percentage :=
      percentage_of (length placed_students_data) total_students in
    let avg_cgpa_placed :=
      match placed_students_data with
      | [] => 0%Q
      | _ => (sum_truthy_cgpa placed_students_data
              / Py.of_len (length placed_students_data))%Q
      end in
    let company_distribution :=
      foldl (fun d s => dict_increment (PlacedStudent.company s) d) []
        placed_students_data in
    let company_stats :=
      sort_reverse (fun x => Py.of_len (snd x)) company_distribution in
    let cgpa_ranges :=
      foldl (fun d s => dict_increment (cgpa_range (PlacedStudent.cgpa s)) d)
        cgpa_ranges_init placed_students_data in
    ret {| Statistics2025.year := current_year;
           Statistics2025.department := User.department current_user;
           Statistics2025.total_students := total_students;
           Statistics2025.placed_students := length placed_students_data;
           Statistics2025.placement_percentage :=
             Py.round2 placement_percentage;
           Statistics2025.avg_cgpa_placed := Py.round2 avg_cgpa_placed;
           Statistics2025.placed_students_details := placed_students_data;
           Statistics2025.company_distribution := company_stats;
           Statistics2025.cgpa_distribution := cgpa_ranges |}.

(** The inner loop of [get_analytics]: the selected applications whose
    student is in department [dept]. *)
Fixpoint count_dept_placed (dept : string) (all_placed : list Application.t)
    (dept_placed : nat) : M nat :=
  match all_placed with
  | [] => ret dept_placed
  | a :: rest =>
      let* student := db_users_find_one (Application.student_id a) in
      match student with
      | Some student =>
          if bool_decide (User.department student = Some dept) then
            count_dept_placed dept rest (dept_placed + 1)
          else count_dept_placed dept rest dept_placed
      | None => count_dept_placed dept rest dept_placed
      end
  end.

(** The loop of [get_analytics] over the departments. *)
Fixpoint dept_stats_loop (departments : list string)
    (dept_stats : list DeptStat.t) : M (list DeptStat.t) :=
  match departments with
  | [] => ret dept_stats
  | dept :: rest =>
      let* dept_students :=
        (fun w =>
           (Ok (length (List.filter (approved_student_in (Some dept))
                          (users w))), w)) in
      let* all_placed :=
        (fun w => (Ok (find_to_list is_selected 1000 (applications w)), w)) in
      let* dept_placed := count_dept_placed dept all_placed 0 in
      dept_stats_loop rest
        (dept_stats
         ++ [{| DeptStat.department := dept;
                DeptStat.total := dept_students;
                DeptStat.placed := dept_placed;
                DeptStat.percentage :=
                  Py.round2 (percentage_of dept_placed dept_students) |}])
  end.

Definition get_analytics (current_user : User.t) : M Analytics.t :=
  if negb (String.eqb (User.role current_user) "tpo") then
    raise 403 "Only TPO can view analytics"
  else
    let* total_drives := (fun w => (Ok (length (drives w)), w)) in
    let* total_applications := (fun w => (Ok (length (applications w)), w)) in
    let* selected_count :=
      (fun w => (Ok (length (List.filter is_selected (applications w))), w)) in
    let* total_students :=
      (fun w => (Ok (length (List.filter approved_student (users w))), w)) in
    let placement_rate := percentage_of selected_count total_students in
    let* dept_stats := dept_stats_loop departments [] in
    ret {| Analytics.total_drives := total_drives;
           Analytics.total_applications := total_applications;
           Analytics.total_students := total_students;
           Analytics.placed_students := selected_count;
           Analytics.placement_rate := Py.round2 placement_rate;
           Analytics.department_stats := dept_stats |}.

End Statistics.

(** The department of the student who owns an application, when the
    student has a user record. *)
Definition owner_department (w : World) (a : Application.t)
  : option (option string) :=
  User.department
    <$> find_one (user_has_id (Application.student_id a)) (users w).

(** Sum of the counters of a [dict]. *)
Definition dict_total (d : list (string * nat)) : nat :=
  foldr (fun kv n => snd kv + n) 0 d.

(** [d.get(k, 0)]. *)
Definition dict_get (k : string) (d : list (string * nat)) : nat :=
  match find_one (fun kv => String.eqb (fst kv) k) d with
  | Some kv => snd kv
  | None => 0
  end.

(** The row [get_analytics] builds for one department. *)
Definition dept_stat (w : World) (dept : string) : DeptStat.t :=
  let dept_students :=
    length (List.filter (approved_student_in (Some dept)) (users w)) in
  let dept_placed :=
    length
      (List.filter
         (fun a => bool_decide (owner_department w a = Some (Some dept)))
         (find_to_list is_selected 1000 (applications w))) in
  {| DeptStat.department := dept;
     DeptStat.total := dept_students;
     DeptStat.placed := dept_placed;
     DeptStat.percentage :=
       Py.round2 (percentage_of dept_placed dept_students) |}.

(* ===================================================================== *)
(** * utils/parse_resume.py *)
(* ===================================================================== *)

(** Python [str] methods with ASCII arguments.  A Python string is
    modelled by its sequence of characters (bytes of its UTF-8 form);
    splitting at, testing for and removing an ASCII pattern act the same on
    both. *)
Module Str.

(** [s.split(sep)] for a one-character separator: the pieces between the
    separators, empty pieces included. *)
Fixpoint split (sep : ascii) (s : string) : list string :=
  match s with
  | EmptyString => [EmptyString]
  | String c r =>
      if Ascii.eqb c sep then EmptyString :: split sep r
      else
        match split sep r with
        | piece :: pieces => String c piece :: pieces
        | [] => [String c EmptyString]
        end
  end.

(** [s.startswith(p)]. *)
Definition startswith (p s : string) : bool := String.prefix p s.

(** [s.replace(old, '')] for a non-empty [old]: the occurrences of [old]
    are removed from left to right, without overlap.  [skip] counts the
    characters of the occurrence being removed that are still ahead. *)
Fixpoint remove_from (old : string) (s : string) (skip : nat) : string :=
  match s with
  | EmptyString => EmptyString
  | String c r =>
      match skip with
      | S k => remove_from old r k
      | O =>
          if String.prefix old s then
            remove_from old r (String.length old - 1)
          else String c (remove_from old r 0)
      end
  end.

Definition remove (old s : string) : string := remove_from old s 0.

(** [sub in s]. *)
Fixpoint contains (sub s : string) : bool :=
  String.prefix sub s
  || match s with
     | EmptyString => false
     | String _ r => contains sub r
     end.

End Str.

(** The dictionary [parse_resume_with_ai] returns. *)
Module ResumeData.
Record t := {
  text : string;
  skills : list string;
  education : string;
  experience : string;
  summary : string
}.
End ResumeData.

Definition common_skills : list string :=
  ["Python"; "Java"; "JavaScript"; "C++"; "React"; "Angular"; "Vue";
   "Node.js"; "Django"; "Flask"; "FastAPI"; "SQL"; "MongoDB"; "PostgreSQL";
   "AWS"; "Azure"; "Docker"; "Kubernetes"; "Git"; "Machine Learning";
   "Data Science"; "HTML"; "CSS"; "TypeScript"; "Communication";
   "Leadership"].

Section ParseResume.

(** [str.strip] and [str.lower]. *)
Variable strip : string -> string.
Variable lower : string -> string.

(** The four variables the loop over the lines of the response sets. *)
Record Parsed := {
  p_skills : list string;
  p_education : string;
  p_experience : string;
  p_summary : string
}.

Definition parsed_init : Parsed :=
  {| p_skills := []; p_education := ""; p_experience := "";
     p_summary := "" |}.

(** [[s.strip() for s in skills_text.split(',') if s.strip()]]. *)
Definition parse_skills (line : string) : list string :=
  let skills_text := strip (Str.remove "SKILLS:" line) in
  List.filter Py.truthy_str (strip <$> Str.split "," skills_text).

(** The body of the loop: the [if]/[elif] chain on one line. *)
Definition parse_line (st : Parsed) (line : string) : Parsed :=
  if Str.startswith "SKILLS:" line then
    {| p_skills := parse_skills line; p_education := p_education st;
       p_experience := p_experience st; p_summary := p_summary st |}
  else if Str.startswith "EDUCATION:" line then
    {| p_skills := p_skills st;
       p_education := strip (Str.remove "EDUCATION:" line);
       p_experience := p_experience st; p_summary := p_summary st |}
  else if Str.startswith "EXPERIENCE:" line then
    {| p_skills := p_skills st; p_education := p_education st;
       p_experience := strip (Str.remove "EXPERIENCE:" line);
       p_summary := p_summary st |}
  else if Str.startswith "SUMMARY:" line then
    {| p_skills := p_skills st; p_education := p_education st;
       p_experience := p_experience st;
       p_summary := strip (Str.remove "SUMMARY:" line) |}
  else st.

Definition parse_response (response : string) : Parsed :=
  foldl parse_line parsed_init (Str.split (ascii_of_nat 10) response).

(** [parse_resume_with_ai], after the text extraction: [text] is the text
    extracted from the file, [response] the answer of the language model,
    [None] when anything in the [try] block raised. *)
Definition parse_resume_with_ai (text : string) (response : option string)
  : ResumeData.t :=
  match response with
  | Some response =>
      let parsed := parse_response response in
      {| ResumeData.text := text;
         ResumeData.skills := p_skills parsed;
         ResumeData.education := p_education parsed;
         ResumeData.experience := p_experience parsed;
         ResumeData.summary := p_summary parsed |}
  | None =>
      let found_skills :=
        List.filter (fun skill => Str.contains (lower skill) (lower text))
          common_skills in
      {| ResumeData.text := text;
         ResumeData.skills := found_skills;
         ResumeData.education := "Not extracted";
         ResumeData.experience := "Not extracted";
         ResumeData.summary :=
           if 200 <? String.length text then String.substring 0 200 text
           else text |}
  end.

End ParseResume.

(** Whether some line of a response starts with [key]. *)
Definition has_line (key response : string) : bool :=
  existsb (Str.startswith key) (Str.split (ascii_of_nat 10) response).

(** [str.strip] restricted to ASCII white space. *)
Definition ascii_space (c : ascii) : bool :=
  let n := nat_of_ascii c in
  ((9 <=? n) && (n <=? 13)) || ((28 <=? n) && (n <=? 32)).

Fixpoint lstrip_ascii (s : string) : string :=
  match s with
  | EmptyString => EmptyString
  | String c r => if ascii_space c then lstrip_ascii r else s
  end.

Fixpoint rstrip_ascii (s : string) : string :=
  match s with
  | EmptyString => EmptyString
  | String c r =>
      match rstrip_ascii r with
      | EmptyString => if ascii_space c then EmptyString
                       else String c EmptyString
      | r' => String c r'
      end
  end.

Definition strip_ascii (s : string) : string :=
  rstrip_ascii (lstrip_ascii s).

(** * Arithmetic facts *)

Section PyFacts.
Local Open Scope Q_scope.

Lemma Qlt_bool_iff (a b : Q) : Py.Qlt_bool a b = true <-> a < b.
Proof.
  unfold Py.Qlt_bool. rewrite negb_true_iff. split.
  - intros H. apply Qnot_le_lt. intros Hle.
    apply Qle_bool_iff in Hle. congruence.
  - intros H. destruct (Qle_bool b a) eqn:E; [|reflexivity].
    apply Qle_bool_iff in E. exfalso. exact (Qlt_not_le _ _ H E).
Qed.

Lemma Qlt_bool_false_iff (a b : Q) : Py.Qlt_bool a b = false <-> b <= a.
Proof.
  unfold Py.Qlt_bool. rewrite negb_false_iff. apply Qle_bool_iff.
Qed.

Lemma round_half_even_floor (q : Q) :
  (Qfloor q <= Py.round_half_even q <= Qfloor q + 1)%Z.
Proof.
  unfold Py.round_half_even.
  destruct (q - inject_Z (Qfloor q) ?= 1 # 2); [destruct (Z.even _)| |]; lia.
Qed.

Lemma round_half_even_ge (n : Z) (q : Q) :
  inject_Z n <= q -> (n <= Py.round_half_even q)%Z.
Proof.
  intros H. apply Qfloor_resp_le in H. rewrite Qfloor_Z in H.
  pose proof (round_half_even_floor q). lia.
Qed.

Lemma round_half_even_le (n : Z) (q : Q) :
  q <= inject_Z n -> (Py.round_half_even q <= n)%Z.
Proof.
  intros H. pose proof (Qfloor_resp_le _ _ H) as Hf. rewrite Qfloor_Z in Hf.
  destruct (Z.eq_dec (Qfloor q) n) as [E|E].
  - unfold Py.round_half_even. rewrite E.
    destruct (q - inject_Z n ?= 1 # 2) eqn:C; [|lia|].
    + apply Qeq_alt in C. lra.
    + apply Qgt_alt in C. lra.
  - pose proof (round_half_even_floor q). lia.
Qed.

Lemma round2_nonneg (x : Q) : 0 <= x -> 0 <= Py.round2 x.
Proof.
  intros H. unfold Py.round2.
  assert (Hz : (0 <= Py.round_half_even (x * 100))%Z)
    by (apply round_half_even_ge; change (inject_Z 0) with 0; lra).
  apply (Qle_shift_div_l _ _ _); [reflexivity|].
  rewrite Qmult_0_l. change 0 with (inject_Z 0). rewrite <- Zle_Qle. exact Hz.
Qed.

Lemma round2_nonpos (x : Q) : x <= 0 -> Py.round2 x <= 0.
Proof.
  intros H. unfold Py.round2.
  assert (Hz : (Py.round_half_even (x * 100) <= 0)%Z)
    by (apply round_half_even_le; change (inject_Z 0) with 0; lra).
  apply Qle_shift_div_r; [reflexivity|].
  rewrite Qmult_0_l. change 0 with (inject_Z 0). rewrite <- Zle_Qle. exact Hz.
Qed.

Lemma round2_le_100 (x : Q) : x <= 100 -> Py.round2 x <= 100.
Proof.
  intros H. unfold Py.round2.
  assert (Hz : (Py.round_half_even (x * 100) <= 10000)%Z)
    by (apply round_half_even_le; change (inject_Z 10000) with 10000; lra).
  apply Qle_shift_div_r; [reflexivity|].
  change (100 * 100) with (inject_Z 10000). rewrite <- Zle_Qle. exact Hz.
Qed.

Lemma round2_ge_100 (x : Q) : 100 <= x -> 100 <= Py.round2 x.
Proof.
  intros H. unfold Py.round2.
  assert (Hz : (10000 <= Py.round_half_even (x * 100))%Z)
    by (apply round_half_even_ge; change (inject_Z 10000) with 10000; lra).
  apply Qle_shift_div_l; [reflexivity|].
  change (100 * 100) with (inject_Z 10000). rewrite <- Zle_Qle. exact Hz.
Qed.

(** Rounding commutes with clamping to [[0, 100]]. *)
Lemma round2_clamp (t : Q) :
  Py.round2 (Py.min 100 (Py.max 0 t)) == clamp (Py.round2 t) 0 100
  /\ 0 <= Py.round2 (Py.min 100 (Py.max 0 t)) <= 100.
Proof.
  unfold Py.max, Py.min, clamp.
  destruct (Py.Qlt_bool 0 t) eqn:E0.
  - apply Qlt_bool_iff in E0.
    destruct (Py.Qlt_bool t 100) eqn:E1.
    + apply Qlt_bool_iff in E1.
      pose proof (round2_nonneg t ltac:(lra)) as H0.
      pose proof (round2_le_100 t ltac:(lra)) as H1.
      apply Qlt_bool_false_iff in H0. apply Qlt_bool_false_iff in H1.
      rewrite H0, H1. apply Qlt_bool_false_iff in H0, H1.
      split; [reflexivity | split; assumption].
    + apply Qlt_bool_false_iff in E1.
      pose proof (round2_ge_100 t E1) as H1.
      assert (H0 : Py.Qlt_bool (Py.round2 t) 0 = false)
        by (apply Qlt_bool_false_iff; lra).
      rewrite H0.
      assert (R : Py.round2 100 == 100) by reflexivity.
      destruct (Py.Qlt_bool 100 (Py.round2 t)) eqn:E2.
      * rewrite R. split; [reflexivity | lra].
      * apply Qlt_bool_false_iff in E2. rewrite R. split; lra.
  - apply Qlt_bool_false_iff in E0.
    assert (E1 : Py.Qlt_bool 0 100 = true) by reflexivity.
    rewrite E1.
    assert (R : Py.round2 0 == 0) by reflexivity.
    pose proof (round2_nonpos t E0) as H0.
    destruct (Py.Qlt_bool (Py.round2 t) 0) eqn:E2.
    + rewrite R. split; [reflexivity | lra].
    + apply Qlt_bool_false_iff in E2.
      assert (E3 : Py.Qlt_bool 100 (Py.round2 t) = false)
        by (apply Qlt_bool_false_iff; lra).
      rewrite E3, R. split; lra.
Qed.

Lemma round_half_even_near (q : Q) :
  Qabs (q - inject_Z (Py.round_half_even q)) <= 1 # 2.
Proof.
  apply Qabs_Qle_condition.
  pose proof (Qfloor_le q) as Hlo. pose proof (Qlt_floor q) as Hhi.
  rewrite inject_Z_plus in Hhi. change (inject_Z 1) with 1 in Hhi.
  unfold Py.round_half_even.
  destruct (q - inject_Z (Qfloor q) ?= 1 # 2) eqn:C.
  - apply Qeq_alt in C.
    destruct (Z.even (Qfloor q));
      [|rewrite inject_Z_plus; change (inject_Z 1) with 1]; split; lra.
  - apply Qlt_alt in C. split; lra.
  - apply Qgt_alt in C. rewrite inject_Z_plus. change (inject_Z 1) with 1.
    split; lra.
Qed.

Lemma round2_rounds (x : Q) : rounded_to_2_places x (Py.round2 x).
Proof.
  assert (E : Py.round2 x
              == inject_Z (Py.round_half_even (x * 100)) * (1 # 100))
    by reflexivity.
  split; [eexists; exact E|].
  pose proof (round_half_even_near (x * 100)) as H.
  apply Qabs_Qle_condition in H. apply Qabs_Qle_condition.
  rewrite E. split; lra.
Qed.

End PyFacts.

(* ===================================================================== *)
(** * The composite score *)
(* ===================================================================== *)

(** C1: for every input, [score_resume] returns the total of its three
    sub-scores, the text score, the skills score and the CGPA score,
    rounded to two decimal places (by the rounding of the built-in
    [round]) and clamped to [[0, 100]]; the result therefore lies in
    [[0, 100]].  No input makes the scorer fail (the model is a total
    function, divisions are guarded as in the source): an empty resume
    text or job description gives a text score of 0, an empty skill list a
    skills score of 0, a CGPA of 0 a CGPA score of 0, and all three
    together a result of 0. *)
Theorem C1_score_resume_is_clamped_rounded_total
    (tfidf_cosine : string -> string -> option Q) (lower : string -> string)
    (resume_text : string) (student_skills : list string) (student_cgpa : Q)
    (job_description : string) (required_skills : list string) (min_cgpa : Q) :
  let score_text := text_score tfidf_cosine resume_text job_description in
  let score_skills := skills_score lower student_skills required_skills in
  let score_cgpa := cgpa_score student_cgpa min_cgpa in
  let result :=
    score_resume tfidf_cosine lower resume_text student_skills student_cgpa
      job_description required_skills min_cgpa in
  spec_score score_text score_skills score_cgpa result
  /\ (result
      == clamp (Py.round2 (score_text + score_skills + score_cgpa)) 0 100)%Q
  /\ (0 <= result <= 100)%Q
  /\ text_score tfidf_cosine "" job_description = 0%Q
  /\ text_score tfidf_cosine resume_text "" = 0%Q
  /\ skills_score lower [] required_skills = 0%Q
  /\ skills_score lower student_skills [] = 0%Q
  /\ (cgpa_score 0 min_cgpa == 0)%Q
  /\ (score_resume tfidf_cosine lower "" [] 0 job_description
        required_skills min_cgpa == 0)%Q.
Proof.
  intros score_text score_skills score_cgpa result.
  assert (Hzero : (cgpa_score 0 min_cgpa == 0)%Q).
  { unfold cgpa_score.
    destruct (Qle_bool min_cgpa 0); [reflexivity|].
    destruct (Py.Qlt_bool 0 min_cgpa); [|reflexivity].
    unfold Qdiv. rewrite Qmult_0_l. reflexivity. }
  assert (Heq : (result
                 == clamp (Py.round2 (score_text + score_skills + score_cgpa))
                      0 100)%Q)
    by apply round2_clamp.
  assert (Hskills : skills_score lower [] required_skills = 0%Q)
    by (unfold skills_score; destruct (Py.truthy_list required_skills);
        reflexivity).
  split; [|split; [exact Heq|split; [apply round2_clamp|]]].
  - exists (Py.round2 (score_text + score_skills + score_cgpa)).
    split; [apply round2_rounds | exact Heq].
  - split; [reflexivity|].
    split; [unfold text_score; destruct (Py.truthy_str resume_text);
            reflexivity|].
    split; [exact Hskills|].
    split; [reflexivity|].
    split; [exact Hzero|].
    unfold score_resume, total_score. rewrite Hskills.
    change (text_score tfidf_cosine "" job_description) with 0%Q.
    assert (Hc : (Py.min 100 (Py.max 0 (0 + 0 + cgpa_score 0 min_cgpa))
                  == 0)%Q).
    { unfold Py.max, Py.min.
      destruct (Py.Qlt_bool 0 (0 + 0 + cgpa_score 0 min_cgpa)) eqn:E.
      - apply Qlt_bool_iff in E. lra.
      - reflexivity. }
    apply Qle_antisym; [apply round2_nonpos | apply round2_nonneg]; lra.
Qed.

(** A resume that resembles the job description with cosine 1/7, two
    skills of which one is required, and a CGPA of 8.5 against a minimum
    of 7: the three parts are 60/7, 15 and 8.5, and the total 32.0714...
    is returned as 32.07.  A cosine of 3, outside the range of the real
    vectoriser, is clamped to 100. *)
Lemma C1_witness :
  (text_score (fun _ _ => Some (1 # 7)) "python developer" "python role"
   == 60 # 7)%Q
  /\ (skills_score Py.lower_ascii ["Java"; "SQL"] ["java"; "python"] == 15)%Q
  /\ (cgpa_score (85 # 10) 7 == 85 # 10)%Q
  /\ (score_resume (fun _ _ => Some (1 # 7)) Py.lower_ascii
        "python developer" ["Java"; "SQL"] (85 # 10) "python role"
        ["java"; "python"] 7 == 3207 # 100)%Q
  /\ (score_resume (fun _ _ => Some 3%Q) Py.lower_ascii
        "python developer" ["Java"; "SQL"] (85 # 10) "python role"
        ["java"; "python"] 7 == 100)%Q.
Proof.
  split; [reflexivity|]. split; [vm_compute; reflexivity|].
  split; [reflexivity|]. split.
  - destruct (C1_score_resume_is_clamped_rounded_total
                (fun _ _ => Some (1 # 7)) Py.lower_ascii
                "python developer" ["Java"; "SQL"] (85 # 10) "python role"
                ["java"; "python"] 7) as (_ & H & _).
    rewrite H. vm_compute. reflexivity.
  - destruct (C1_score_resume_is_clamped_rounded_total
                (fun _ _ => Some 3%Q) Py.lower_ascii
                "python developer" ["Java"; "SQL"] (85 # 10) "python role"
                ["java"; "python"] 7) as (_ & H & _).
    rewrite H. vm_compute. reflexivity.
Defined.

(** C6: the end-to-end scenario.  Empty resume text scores 0 against
    "Java developer role"; skills java, sql against java, python score 15;
    CGPA 8.5 against minimum 7.0 scores 8.5; the composite is 23.5. *)
Theorem C6_end_to_end_scenario
    (tfidf_cosine : string -> string -> option Q) :
  text_score tfidf_cosine "" "Java developer role" = 0%Q
  /\ (skills_score Py.lower_ascii ["java"; "sql"] ["java"; "python"] == 15)%Q
  /\ (cgpa_score (85 # 10) 7 == 85 # 10)%Q
  /\ (score_resume tfidf_cosine Py.lower_ascii "" ["java"; "sql"] (85 # 10)
        "Java developer role" ["java"; "python"] 7 == 235 # 10)%Q.
Proof.
  repeat split; vm_compute; reflexivity.
Qed.

(* ===================================================================== *)
(** * The skills sub-score *)
(* ===================================================================== *)

Section SkillsFacts.
Local Open Scope Q_scope.

Lemma of_len_pos (n : nat) : (0 < n)%nat -> 0 < Py.of_len n.
Proof.
  intros H. unfold Py.of_len. change 0 with (inject_Z 0).
  rewrite <- Zlt_Qlt. lia.
Qed.

Lemma of_len_le (m n : nat) : (m <= n)%nat -> Py.of_len m <= Py.of_len n.
Proof. intros H. unfold Py.of_len. rewrite <- Zle_Qle. lia. Qed.


Lemma fraction_bounds (m n : nat) :
  (m <= n)%nat -> (0 < n)%nat ->
  0 <= Py.of_len m / Py.of_len n * 30 <= 30.
Proof.
  intros Hmn Hn.
  pose proof (of_len_pos n Hn) as Hpos.
  pose proof (of_len_le m n Hmn) as Hle.
  pose proof (of_len_le 0 m ltac:(lia)) as Hm0.
  change (Py.of_len 0) with 0 in Hm0.
  assert (H0 : 0 <= Py.of_len m / Py.of_len n).
  { apply Qle_shift_div_l; [exact Hpos | lra]. }
  assert (H1 : Py.of_len m / Py.of_len n <= 1).
  { apply Qle_shift_div_r; [exact Hpos | lra]. }
  split; lra.
Qed.



Lemma size_list_to_set_le (l : list string) :
  (size (list_to_set (C := gset string) l) <= length l)%nat.
Proof.
  induction l as [|x l IH].
  - rewrite list_to_set_nil, size_empty. simpl. lia.
  - rewrite list_to_set_cons, size_union_alt, size_singleton.
    assert (Hsub : list_to_set (C := gset string) l ∖ {[x]}
                   ⊆ list_to_set l) by (apply subseteq_difference_l; done).
    apply subseteq_size in Hsub. simpl. lia.
Qed.

Lemma size_matched_le (lower : string -> string)
    (student_skills required_skills : list string) :
  (size (matched_skills lower student_skills required_skills)
   <= size (list_to_set (C := gset string) (lower <$> required_skills)))%nat.
Proof. apply subseteq_size, intersection_subseteq_r. Qed.

Lemma skills_score_nonempty (lower : string -> string)
    (student_skills required_skills : list string) :
  student_skills <> [] -> required_skills <> [] ->
  skills_score lower student_skills required_skills
  = Py.of_len (size (matched_skills lower student_skills required_skills))
      / Py.of_len (length required_skills) * 30.
Proof.
  intros Hs Hr. unfold skills_score.
  destruct required_skills as [|r rs]; [congruence|].
  destruct student_skills as [|s ss]; [congruence|].
  reflexivity.
Qed.

End SkillsFacts.



(* ===================================================================== *)
(** * The CGPA sub-score around the threshold *)
(* ===================================================================== *)

Section CgpaFacts.
Local Open Scope Q_scope.

Lemma cgpa_score_below (s m : Q) :
  s < m -> 0 < m -> cgpa_score s m = s / m * 5.
Proof.
  intros Hs Hm. unfold cgpa_score.
  assert (E : Qle_bool m s = false).
  { destruct (Qle_bool m s) eqn:E; [|reflexivity].
    apply Qle_bool_iff in E. lra. }
  rewrite E. apply Qlt_bool_iff in Hm. rewrite Hm. reflexivity.
Qed.

Lemma cgpa_score_eligible (s m : Q) :
  m <= s -> cgpa_score s m == s.
Proof.
  intros H. unfold cgpa_score. apply Qle_bool_iff in H. rewrite H. field.
Qed.

Lemma cgpa_score_no_threshold (s m : Q) :
  s < m -> m <= 0 -> cgpa_score s m = 0.
Proof.
  intros Hs Hm. unfold cgpa_score.
  assert (E : Qle_bool m s = false).
  { destruct (Qle_bool m s) eqn:E; [|reflexivity].
    apply Qle_bool_iff in E. lra. }
  rewrite E. apply Qlt_bool_false_iff in Hm. rewrite Hm. reflexivity.
Qed.

(** Distance of the penalty branch from 5. *)
Lemma penalty_gap (s m : Q) :
  0 < m -> s / m * 5 - 5 == (s - m) * (5 / m).
Proof. intros Hm. field. lra. Qed.

Lemma cgpa_score_left_limit (m : Q) :
  0 < m -> left_limit (fun s => cgpa_score s m) m 5.
Proof.
  intros Hm eps Heps. exists (eps * m / 5). split.
  - apply Qlt_shift_div_l; [reflexivity|]. rewrite Qmult_0_l.
    apply Qmult_lt_0_compat; assumption.
  - intros s Hlo Hhi. rewrite (cgpa_score_below s m Hhi Hm).
    apply Qabs_Qlt_condition. rewrite (penalty_gap s m Hm).
    assert (Hc : 0 < 5 / m)
      by (apply Qlt_shift_div_l; [exact Hm | lra]).
    assert (Hd : - (eps * m / 5) * (5 / m) == - eps) by (field; lra).
    split.
    + rewrite <- Hd.
      apply Qmult_lt_compat_r; [exact Hc | lra].
    + apply Qlt_trans with (0 * (5 / m)).
      * apply Qmult_lt_compat_r; [exact Hc | lra].
      * lra.
Qed.

Lemma cgpa_score_jump (m : Q) :
  0 < m -> ~ m == 5 -> ~ continuous_at (fun s => cgpa_score s m) m.
Proof.
  intros Hm Hne Hcont.
  pose proof (cgpa_score_eligible m m (Qle_refl m)) as Hat.
  assert (Hgap : exists eps, 0 < eps /\ (m - 5 == 2 * eps \/ 5 - m == 2 * eps)).
  { destruct (Qlt_le_dec m 5) as [Hlt|Hge].
    - exists ((5 - m) * (1 # 2)). split; [lra | right; ring].
    - exists ((m - 5) * (1 # 2)). split; [|left; ring].
      assert (5 < m) by (apply Qle_lteq in Hge as [H|H]; [exact H|];
                         exfalso; apply Hne; symmetry; exact H).
      lra. }
  destruct Hgap as (eps & Heps & Hgap).
  destruct (Hcont eps Heps) as (d1 & Hd1 & Hc1).
  destruct (cgpa_score_left_limit m Hm eps Heps) as (d2 & Hd2 & Hc2).
  cbv beta in Hc1, Hc2.
  assert (Hpick : exists s, Qabs (s - m) < d1 /\ m - d2 < s /\ s < m).
  { destruct (Qlt_le_dec d1 d2) as [Hlt|Hge].
    - exists (m - d1 * (1 # 2)). split; [|split; lra].
      apply Qabs_Qlt_condition. split; lra.
    - exists (m - d2 * (1 # 2)). split; [|split; lra].
      apply Qabs_Qlt_condition. split; lra. }
  destruct Hpick as (s & Hs1 & Hs2 & Hs3).
  specialize (Hc1 s Hs1). specialize (Hc2 s Hs2 Hs3).
  apply Qabs_Qlt_condition in Hc1, Hc2.
  destruct Hgap; lra.
Qed.

Lemma cgpa_score_threshold_five (s : Q) : cgpa_score s 5 == s.
Proof.
  unfold cgpa_score. destruct (Qle_bool 5 s); [field|].
  change (Py.Qlt_bool 0 5) with true. cbv iota. field.
Qed.

Lemma cgpa_score_continuous_at_five :
  continuous_at (fun s => cgpa_score s 5) 5.
Proof.
  intros eps Heps. exists eps. split; [exact Heps|].
  intros s Hs. rewrite !cgpa_score_threshold_five. exact Hs.
Qed.

End CgpaFacts.

(** C7, as stated, fails for the threshold 5: there the limit from below
    and the value at the threshold are both 5, and the score is continuous
    at the threshold. *)
Lemma C7_no_jump_at_threshold_five :
  (0 < 5)%Q
  /\ left_limit (fun s => cgpa_score s 5) 5 5
  /\ (cgpa_score 5 5 == 5)%Q
  /\ continuous_at (fun s => cgpa_score s 5) 5
  /\ ~ jump_at_threshold 5.
Proof.
  split; [reflexivity|].
  split; [apply cgpa_score_left_limit; reflexivity|].
  split; [apply cgpa_score_threshold_five|].
  split; [apply cgpa_score_continuous_at_five|].
  intros (_ & Hne & _). apply Hne, cgpa_score_threshold_five.
Qed.

(** C7, amended: for a positive threshold the penalty branch returns
    [(student_cgpa / min_cgpa) * 5] below the threshold and tends to 5
    from below, the value at the threshold is [min_cgpa], and the score
    jumps there whenever [min_cgpa] differs from 5; for a threshold that is
    zero or negative the penalty branch returns 0. *)
Theorem C7_cgpa_score_at_threshold (min_cgpa : Q) :
  ((0 < min_cgpa)%Q ->
     (forall s : Q, (s < min_cgpa)%Q ->
        (cgpa_score s min_cgpa == s / min_cgpa * 5)%Q)
     /\ left_limit (fun s => cgpa_score s min_cgpa) min_cgpa 5
     /\ (cgpa_score min_cgpa min_cgpa == min_cgpa / 10 * 10)%Q
     /\ (cgpa_score min_cgpa min_cgpa == min_cgpa)%Q
     /\ (~ (min_cgpa == 5)%Q -> jump_at_threshold min_cgpa))
  /\ ((min_cgpa <= 0)%Q ->
      forall s : Q, (s < min_cgpa)%Q -> (cgpa_score s min_cgpa == 0)%Q).
Proof.
  split.
  - intros Hm.
    pose proof (cgpa_score_eligible min_cgpa min_cgpa (Qle_refl _)) as Hat.
    split; [intros s Hs; rewrite (cgpa_score_below s _ Hs Hm); reflexivity|].
    split; [apply cgpa_score_left_limit; exact Hm|].
    split; [rewrite Hat; field|].
    split; [exact Hat|].
    intros Hne. split; [apply cgpa_score_left_limit; exact Hm|].
    split; [rewrite Hat; exact Hne|].
    apply cgpa_score_jump; assumption.
  - intros Hm s Hs. rewrite (cgpa_score_no_threshold s _ Hs Hm). reflexivity.
Qed.

(** Thresholds 7 and 0. *)
Lemma C7_witness :
  ((0 < 7)%Q /\ jump_at_threshold 7 /\ (cgpa_score 7 7 == 7)%Q)
  /\ ((0 <= 0)%Q /\ (cgpa_score (-1) 0 == 0)%Q).
Proof.
  assert (H7 : (0 < 7)%Q) by reflexivity.
  assert (H0 : (0 <= 0)%Q) by apply Qle_refl.
  split.
  - destruct (proj1 (C7_cgpa_score_at_threshold 7) H7)
      as (_ & _ & _ & Hat & Hjump).
    split; [exact H7|]. split; [|exact Hat].
    apply Hjump. intros E. discriminate E.
  - split; [exact H0|].
    apply (proj2 (C7_cgpa_score_at_threshold 0) H0 (-1)%Q). reflexivity.
Defined.

(* ===================================================================== *)
(** * Ranking *)
(* ===================================================================== *)

Section SortFacts.
Context {A : Type} (key : A -> Q).

Lemma insert_desc_perm (x : A) (l : list A) :
  insert_desc key x l ≡ₚ x :: l.
Proof.
  induction l as [|y r IH]; simpl; [reflexivity|].
  destruct (Py.Qlt_bool (key x) (key y)); [|reflexivity].
  rewrite IH. apply Permutation_swap.
Qed.

Lemma sort_reverse_perm (l : list A) : sort_reverse key l ≡ₚ l.
Proof.
  induction l as [|x l IH]; simpl; [reflexivity|].
  rewrite insert_desc_perm, IH. reflexivity.
Qed.

Lemma insert_desc_sorted (x : A) (l : list A) :
  StronglySorted (desc_by key) l -> StronglySorted (desc_by key) (insert_desc key x l).
Proof.
  induction l as [|y r IH]; intros Hs; simpl.
  - repeat constructor.
  - apply StronglySorted_cons in Hs as [Hy Hr].
    destruct (Py.Qlt_bool (key x) (key y)) eqn:E.
    + apply Qlt_bool_iff in E. apply StronglySorted_cons. split.
      * rewrite insert_desc_perm. constructor; [|exact Hy].
        unfold desc_by. apply Qlt_le_weak, E.
      * apply IH, Hr.
    + apply Qlt_bool_false_iff in E. apply StronglySorted_cons. split.
      * constructor; [exact E|].
        eapply Forall_impl; [exact Hy|].
        intros z Hz. unfold desc_by in *. eapply Qle_trans; eassumption.
      * apply StronglySorted_cons. split; assumption.
Qed.

Lemma sort_reverse_sorted (l : list A) :
  StronglySorted (desc_by key) (sort_reverse key l).
Proof.
  induction l as [|x l IH]; simpl; [constructor|].
  apply insert_desc_sorted, IH.
Qed.

(** Stability: the elements of any one score keep their order. *)
Lemma insert_desc_filter (q : Q) (x : A) (l : list A) :
  List.filter (fun y => Qeq_bool (key y) q) (insert_desc key x l)
  = List.filter (fun y => Qeq_bool (key y) q) (x :: l).
Proof.
  induction l as [|y r IH]; [reflexivity|].
  simpl insert_desc.
  destruct (Py.Qlt_bool (key x) (key y)) eqn:E; [|reflexivity].
  apply Qlt_bool_iff in E.
  change (List.filter ?f (y :: ?t))
    with (if f y then y :: List.filter f t else List.filter f t).
  rewrite IH. simpl.
  destruct (Qeq_bool (key x) q) eqn:Ex; [|reflexivity].
  destruct (Qeq_bool (key y) q) eqn:Ey; [|reflexivity].
  apply Qeq_bool_iff in Ex, Ey. exfalso.
  rewrite Ex, Ey in E. exact (Qlt_irrefl _ E).
Qed.

Lemma sort_reverse_stable (q : Q) (l : list A) :
  List.filter (fun y => Qeq_bool (key y) q) (sort_reverse key l)
  = List.filter (fun y => Qeq_bool (key y) q) l.
Proof.
  induction l as [|x l IH]; [reflexivity|].
  simpl sort_reverse. rewrite insert_desc_filter. simpl. rewrite IH.
  reflexivity.
Qed.

Lemma sorted_lookup_order (l : list A) (i j : nat) (x y : A) :
  StronglySorted (desc_by key) l -> l !! i = Some x -> l !! j = Some y ->
  (key x < key y)%Q -> j < i.
Proof.
  intros Hs Hi Hj Hlt.
  destruct (decide (j < i)) as [|Hge]; [assumption|exfalso].
  destruct (decide (i = j)) as [->|Hne].
  - rewrite Hi in Hj. injection Hj as ->. exact (Qlt_irrefl _ Hlt).
  - assert (Hij : i < j) by lia.
    rewrite <- (take_drop j l) in Hs, Hi, Hj.
    apply StronglySorted_app in Hs as (Hcross & _ & _).
    assert (Hlen : j <= length l)
      by (apply lookup_lt_Some in Hj; rewrite take_drop in Hj; lia).
    rewrite lookup_app_l in Hi by (rewrite length_take; lia).
    rewrite lookup_app_r in Hj by (rewrite length_take; lia).
    apply list_elem_of_lookup_2 in Hi, Hj.
    specialize (Hcross x y Hi Hj). unfold desc_by in Hcross.
    exact (Qlt_not_le _ _ Hlt Hcross).
Qed.

End SortFacts.

Section RankingFacts.

Lemma enrich_eq (l : list Application.t) (w : World) :
  enrich l w = (Ok (enriched w <$> l), w).
Proof.
  induction l as [|a l IH]; [reflexivity|].
  simpl. unfold bind, db_users_find_one, db_profiles_find_one, ret.
  rewrite IH. reflexivity.
Qed.

Lemma get_drive_applications_eq (drive_id : string) (current_user : User.t)
    (w : World) :
  User.role current_user = "tpo" \/ User.role current_user = "hod" ->
  get_drive_applications drive_id current_user w
  = (Ok (sort_reverse sort_key (enriched w <$> fetched drive_id w)), w).
Proof.
  intros Hrole. unfold get_drive_applications.
  assert (E : negb (String.eqb (User.role current_user) "tpo"
                    || String.eqb (User.role current_user) "hod") = false)
    by (destruct Hrole as [-> | ->]; reflexivity).
  rewrite E. unfold bind. rewrite enrich_eq. reflexivity.
Qed.

Lemma app_enriched (w : World) (l : list Application.t) :
  app <$> (enriched w <$> l) = l.
Proof.
  induction l as [|a l IH]; [reflexivity|].
  rewrite !fmap_cons, IH. reflexivity.
Qed.

Lemma app_filter (q : Q) (l : list EnrichedApplication) :
  app <$> List.filter (fun x => Qeq_bool (sort_key x) q) l
  = List.filter (fun a => Qeq_bool (rank_score a) q) (app <$> l).
Proof.
  induction l as [|x l IH]; [reflexivity|].
  rewrite fmap_cons. simpl List.filter.
  change (sort_key x) with (rank_score (app x)).
  destruct (Qeq_bool (rank_score (app x)) q);
    [rewrite fmap_cons|]; rewrite IH; reflexivity.
Qed.

End RankingFacts.

Section CapFacts.

Lemma fetched_take (drive_id : string) (w : World) :
  fetched drive_id w = take 1000 (drive_applications drive_id w).
Proof. reflexivity. Qed.

Lemma fetched_all (drive_id : string) (w : World) :
  length (drive_applications drive_id w) <= 1000 ->
  fetched drive_id w = drive_applications drive_id w.
Proof. intros H. rewrite fetched_take. apply take_ge, H. Qed.

Lemma crowded_drive_applications :
  drive_applications "d1" Crowded.world
  = ((Crowded.early <$> seq 0 1000) ++ [Crowded.late])%list.
Proof.
  unfold drive_applications. cbn [applications Crowded.world].
  rewrite List.filter_app.
  rewrite (forallb_filter_id _ (Crowded.early <$> seq 0 1000));
    [reflexivity|].
  apply forallb_forall. intros a Ha.
  apply in_map_iff in Ha as (n & <- & _). reflexivity.
Qed.

Lemma crowded_fetched :
  fetched "d1" Crowded.world = Crowded.early <$> seq 0 1000.
Proof.
  rewrite fetched_take, crowded_drive_applications.
  apply take_app_length'. rewrite length_fmap, length_seq. reflexivity.
Qed.

Lemma late_not_early : Crowded.late ∉ (Crowded.early <$> seq 0 1000).
Proof.
  intros H. apply list_elem_of_fmap in H as (n & E & _).
  unfold Crowded.late, Crowded.early, Application.new in E.
  injection E as E _. discriminate E.
Qed.

End CapFacts.

(** C8, as stated, fails: the route reads at most 1000 applications of a
    drive.  With 1001 stored applications of one drive, the last of them
    holding the highest score, the ranking has 1000 entries, the best
    applicant is not among them, and the answer is not a reordering of
    the drive's applications. *)
Lemma C8_ranking_omits_the_1001st_application :
  length (drive_applications "d1" Crowded.world) = 1001
  /\ Crowded.late ∈ drive_applications "d1" Crowded.world
  /\ Forall (fun a => (rank_score a <= rank_score Crowded.late)%Q)
       (drive_applications "d1" Crowded.world)
  /\ exists out : list EnrichedApplication,
       get_drive_applications "d1" Sample.tpo Crowded.world
       = (Ok out, Crowded.world)
       /\ length out = 1000
       /\ (Crowded.late ∉ app <$> out)
       /\ ~ (app <$> out ≡ₚ drive_applications "d1" Crowded.world).
Proof.
  assert (Hperm : app <$> sort_reverse sort_key
                            (enriched Crowded.world
                               <$> fetched "d1" Crowded.world)
                  ≡ₚ (Crowded.early <$> seq 0 1000))
    by (rewrite sort_reverse_perm, app_enriched, crowded_fetched;
        reflexivity).
  assert (Hlen : length (sort_reverse sort_key
                           (enriched Crowded.world
                              <$> fetched "d1" Crowded.world)) = 1000).
  { rewrite <- (length_fmap app), Hperm, length_fmap, length_seq.
    reflexivity. }
  rewrite crowded_drive_applications.
  split; [rewrite length_app, length_fmap, length_seq; reflexivity|].
  split; [apply elem_of_app; right; apply list_elem_of_singleton;
          reflexivity|].
  split.
  { apply Forall_app. split.
    - apply Forall_fmap, Forall_forall. intros n _. cbn. discriminate.
    - constructor; [apply Qle_refl | constructor]. }
  eexists. split; [apply get_drive_applications_eq; left; reflexivity|].
  split; [exact Hlen|]. split.
  - rewrite Hperm. apply late_not_early.
  - intros H. apply Permutation_length in H.
    rewrite length_fmap, Hlen, length_app, length_fmap, length_seq in H.
    discriminate H.
Qed.

(** C8, amended: for a placement officer or head of department, the
    ranking of a drive returns the first 1000 stored applications of that
    drive, ordered by [ai_score] descending, and applications of equal
    score keep their stored order; when the drive has at most 1000 stored
    applications, these are all its applications.  Stored scores 72.5,
    91.0, 91.0, 40.0 come out as 91.0, 91.0, 72.5, 40.0 with the two 91.0
    applications in their stored order. *)
Theorem C8_ranking_is_a_stable_descending_sort_up_to_1000 :
  (forall (drive_id : string) (current_user : User.t) (w : World),
     User.role current_user = "tpo" \/ User.role current_user = "hod" ->
     exists out : list EnrichedApplication,
       get_drive_applications drive_id current_user w = (Ok out, w)
       /\ app <$> out ≡ₚ take 1000 (drive_applications drive_id w)
       /\ length out = Nat.min 1000 (length (drive_applications drive_id w))
       /\ StronglySorted (desc_by sort_key) out
       /\ (forall q : Q,
             List.filter (fun a => Qeq_bool (rank_score a) q) (app <$> out)
             = List.filter (fun a => Qeq_bool (rank_score a) q)
                 (take 1000 (drive_applications drive_id w)))
       /\ (length (drive_applications drive_id w) <= 1000 ->
           app <$> out ≡ₚ drive_applications drive_id w
           /\ forall q : Q,
                List.filter (fun a => Qeq_bool (rank_score a) q) (app <$> out)
                = List.filter (fun a => Qeq_bool (rank_score a) q)
                    (drive_applications drive_id w)))
  /\ (rank_score <$> drive_applications "d1" Sample.world
      = [(725 # 10)%Q; 91%Q; 91%Q; 40%Q]
      /\ exists out : list EnrichedApplication,
           get_drive_applications "d1" Sample.tpo Sample.world
           = (Ok out, Sample.world)
           /\ sort_key <$> out = [91%Q; 91%Q; (725 # 10)%Q; 40%Q]
           /\ app <$> out = [Sample.a2; Sample.a3; Sample.a1; Sample.a4]).
Proof.
  split.
  - intros drive_id current_user w Hrole.
    exists (sort_reverse sort_key (enriched w <$> fetched drive_id w)).
    assert (Hperm : app <$> sort_reverse sort_key
                              (enriched w <$> fetched drive_id w)
                    ≡ₚ take 1000 (drive_applications drive_id w))
      by (rewrite sort_reverse_perm, app_enriched, fetched_take;
          reflexivity).
    assert (Hstable : forall q : Q,
              List.filter (fun a => Qeq_bool (rank_score a) q)
                (app <$> sort_reverse sort_key
                           (enriched w <$> fetched drive_id w))
              = List.filter (fun a => Qeq_bool (rank_score a) q)
                  (take 1000 (drive_applications drive_id w))).
    { intros q. rewrite <- app_filter, sort_reverse_stable, app_filter.
      rewrite app_enriched, fetched_take. reflexivity. }
    split; [apply get_drive_applications_eq, Hrole|].
    split; [exact Hperm|].
    split; [rewrite <- (length_fmap app), Hperm, length_take; reflexivity|].
    split; [apply sort_reverse_sorted|].
    split; [exact Hstable|].
    intros Hfew. split.
    + rewrite Hperm, take_ge by exact Hfew. reflexivity.
    + intros q. rewrite Hstable, take_ge by exact Hfew. reflexivity.
  - split; [reflexivity|].
    eexists. split; [apply get_drive_applications_eq; left; reflexivity|].
    split; reflexivity.
Qed.

(** The first drive of the sample data, with four stored applications,
    seen by the placement officer. *)
Lemma C8_witness :
  (User.role Sample.tpo = "tpo" \/ User.role Sample.tpo = "hod")
  /\ length (drive_applications "d1" Sample.world) <= 1000
  /\ exists out : list EnrichedApplication,
       get_drive_applications "d1" Sample.tpo Sample.world
       = (Ok out, Sample.world)
       /\ length out = 4
       /\ StronglySorted (desc_by sort_key) out
       /\ app <$> out ≡ₚ drive_applications "d1" Sample.world
       /\ forall q : Q,
            List.filter (fun a => Qeq_bool (rank_score a) q) (app <$> out)
            = List.filter (fun a => Qeq_bool (rank_score a) q)
                (drive_applications "d1" Sample.world).
Proof.
  assert (Hrole : User.role Sample.tpo = "tpo" \/ User.role Sample.tpo = "hod")
    by (left; reflexivity).
  assert (Hfew : length (drive_applications "d1" Sample.world) <= 1000)
    by (vm_compute; lia).
  split; [exact Hrole|]. split; [exact Hfew|].
  destruct (proj1 C8_ranking_is_a_stable_descending_sort_up_to_1000
              "d1" Sample.tpo Sample.world Hrole)
    as (out & Hrun & _ & Hlen & Hsorted & _ & Hall).
  destruct (Hall Hfew) as [Hperm Hstable].
  exists out. split; [exact Hrun|]. split; [exact Hlen|].
  split; [exact Hsorted|]. split; [exact Hperm | exact Hstable].
Defined.

(** C10: an application without an [ai_score] key is ranked with score 0:
    the ranking succeeds, and every application with a positive score
    comes before it. *)
Theorem C10_missing_score_ranks_as_zero
    (drive_id : string) (current_user : User.t) (w : World) :
  User.role current_user = "tpo" \/ User.role current_user = "hod" ->
  exists out : list EnrichedApplication,
    get_drive_applications drive_id current_user w = (Ok out, w)
    /\ (forall x : EnrichedApplication,
          Application.ai_score (app x) = None -> sort_key x = 0%Q)
    /\ forall (i j : nat) (x y : EnrichedApplication) (q : Q),
         out !! i = Some x -> out !! j = Some y ->
         Application.ai_score (app x) = None ->
         Application.ai_score (app y) = Some q -> (0 < q)%Q ->
         j < i.
Proof.
  intros Hrole.
  exists (sort_reverse sort_key (enriched w <$> fetched drive_id w)).
  split; [apply get_drive_applications_eq, Hrole|].
  split; [intros x Hx; unfold sort_key; rewrite Hx; reflexivity|].
  intros i j x y q Hi Hj Hx Hy Hq.
  eapply (sorted_lookup_order sort_key); [apply sort_reverse_sorted|exact Hi|exact Hj|].
  unfold sort_key. rewrite Hx, Hy. exact Hq.
Qed.

(** The second drive of the sample data: the application stored first has
    no score and is returned last. *)
Lemma C10_witness :
  (User.role Sample.tpo = "tpo" \/ User.role Sample.tpo = "hod")
  /\ fetched "d2" Sample.world = [Sample.a5; Sample.a6]
  /\ exists out : list EnrichedApplication,
       get_drive_applications "d2" Sample.tpo Sample.world
       = (Ok out, Sample.world)
       /\ app <$> out = [Sample.a6; Sample.a5]
       /\ forall (i j : nat) (x y : EnrichedApplication) (q : Q),
            out !! i = Some x -> out !! j = Some y ->
            Application.ai_score (app x) = None ->
            Application.ai_score (app y) = Some q -> (0 < q)%Q ->
            j < i.
Proof.
  assert (Hrole : User.role Sample.tpo = "tpo" \/ User.role Sample.tpo = "hod")
    by (left; reflexivity).
  split; [exact Hrole|]. split; [reflexivity|].
  destruct (C10_missing_score_ranks_as_zero "d2" Sample.tpo Sample.world Hrole)
    as (out & Hout & _ & Horder).
  exists out. split; [exact Hout|]. split; [|exact Horder].
  rewrite get_drive_applications_eq in Hout by exact Hrole.
  injection Hout as <-. reflexivity.
Defined.

(* ===================================================================== *)
(** * Round progression *)
(* ===================================================================== *)

Section StoreFacts.

Lemma find_one_update_one (i j : string)
    (f : Application.t -> Application.t) (l : list Application.t) :
  (forall a, Application.id (f a) = Application.id a) ->
  find_one (application_has_id j) (update_one (application_has_id i) f l)
  = if String.eqb i j then f <$> find_one (application_has_id j) l
    else find_one (application_has_id j) l.
Proof.
  intros Hid. induction l as [|x r IH].
  - simpl. destruct (String.eqb i j); reflexivity.
  - cbn [update_one find_one].
    destruct (application_has_id i x) eqn:Ex.
    + cbn [find_one]. unfold application_has_id in *.
      apply String.eqb_eq in Ex. rewrite Hid, Ex.
      destruct (String.eqb i j); reflexivity.
    + cbn [find_one]. destruct (application_has_id j x) eqn:Ej.
      * unfold application_has_id in Ex, Ej.
        apply String.eqb_eq in Ej. subst j.
        rewrite String.eqb_sym, Ex. reflexivity.
      * exact IH.
Qed.

Lemma update_one_round_history (p : Application.t -> bool)
    (f : Application.t -> Application.t) (l : list Application.t) :
  (forall a, Application.round_history (f a) = Application.round_history a) ->
  Application.round_history <$> update_one p f l
  = Application.round_history <$> l.
Proof.
  intros Hf. induction l as [|x r IH]; [reflexivity|]. simpl.
  destruct (p x); rewrite !fmap_cons; [rewrite Hf | rewrite IH]; reflexivity.
Qed.

Lemma reject_rejected (a : Application.t) :
  Application.current_round a = "Rejected" -> reject a = a.
Proof. destruct a; simpl; intros ->; reflexivity. Qed.

Lemma occurrences_cons (j i : string) (ids : list string) :
  occurrences j (i :: ids)
  = if String.eqb i j then S (occurrences j ids) else occurrences j ids.
Proof.
  unfold occurrences. simpl. rewrite (String.eqb_sym j i).
  destruct (String.eqb i j); reflexivity.
Qed.

Lemma occurrences_pos (j : string) (ids : list string) :
  j ∈ ids <-> 0 < occurrences j ids.
Proof.
  induction ids as [|i ids IH].
  - split; [intros H; inversion H | unfold occurrences; simpl; lia].
  - rewrite occurrences_cons, elem_of_cons.
    destruct (String.eqb i j) eqn:E.
    + apply String.eqb_eq in E. split; [lia | left; congruence].
    + apply String.eqb_neq in E. rewrite <- IH.
      split; [intros [->|H]; [congruence | exact H] | right; assumption].
Qed.

End StoreFacts.

Section RejectFacts.

Lemma reject_loop_eq (ids : list string) (w : World) :
  exists apps' : list Application.t,
    reject_loop ids w = (Ok tt, with_applications apps' w)
    /\ (forall j, j ∈ ids ->
          find_one (application_has_id j) apps'
          = reject <$> find_one (application_has_id j) (applications w))
    /\ (forall j, j ∉ ids ->
          find_one (application_has_id j) apps'
          = find_one (application_has_id j) (applications w))
    /\ Application.round_history <$> apps'
       = Application.round_history <$> applications w.
Proof.
  revert w. induction ids as [|i rest IH]; intros w.
  - exists (applications w). split; [destruct w; reflexivity|].
    split; [intros j H; inversion H|]. split; reflexivity.
  - destruct (IH (with_applications
                    (update_one (application_has_id i) reject
                       (applications w)) w))
      as (apps' & Hrun & Hin & Hout & Hhist).
    exists apps'. split; [exact Hrun|]. simpl in Hin, Hout, Hhist.
    split; [|split].
    + intros j Hj.
      destruct (decide (j ∈ rest)) as [Hr|Hr].
      * rewrite (Hin j Hr), find_one_update_one by reflexivity.
        destruct (String.eqb i j); [|reflexivity].
        destruct (find_one _ _); reflexivity.
      * rewrite (Hout j Hr), find_one_update_one by reflexivity.
        apply elem_of_cons in Hj as [->|Hj]; [|contradiction].
        rewrite String.eqb_refl. reflexivity.
    + intros j Hj. apply not_elem_of_cons in Hj as [Hne Hr].
      rewrite (Hout j Hr), find_one_update_one by reflexivity.
      destruct (String.eqb i j) eqn:E; [|reflexivity].
      apply String.eqb_eq in E. congruence.
    + rewrite Hhist. apply update_one_round_history. reflexivity.
Qed.

Lemma reject_applications_eq (ids : list string) (current_user : User.t)
    (w : World) :
  User.role current_user = "tpo" ->
  exists apps' : list Application.t,
    reject_applications ids current_user w
    = (Ok {| reject_message := "Rejected " ++ pretty (length ids)
                               ++ " applications" |},
       with_applications apps' w)
    /\ (forall j, j ∈ ids ->
          find_one (application_has_id j) apps'
          = reject <$> find_one (application_has_id j) (applications w))
    /\ (forall j, j ∉ ids ->
          find_one (application_has_id j) apps'
          = find_one (application_has_id j) (applications w))
    /\ Application.round_history <$> apps'
       = Application.round_history <$> applications w.
Proof.
  intros Hrole.
  destruct (reject_loop_eq ids w) as (apps' & Hrun & Hrest).
  exists apps'. split; [|exact Hrest].
  unfold reject_applications. rewrite Hrole.
  change (negb (String.eqb "tpo" "tpo")) with false. cbv iota.
  unfold bind. rewrite Hrun. reflexivity.
Qed.

End RejectFacts.

(** C4: a reject request by the placement officer sets [current_round] of
    every stored application named in the batch to "Rejected" and leaves
    its [round_history] as it was; the histories of all stored
    applications are the same list of lists before and after the call. *)
Theorem C4_reject_keeps_round_history
    (application_ids : list string) (current_user : User.t) (w : World) :
  User.role current_user = "tpo" ->
  exists (resp : RejectResponse) (w' : World),
    reject_applications application_ids current_user w = (Ok resp, w')
    /\ (forall (i : string) (a : Application.t),
          i ∈ application_ids ->
          find_one (application_has_id i) (applications w) = Some a ->
          exists a' : Application.t,
            find_one (application_has_id i) (applications w') = Some a'
            /\ a' = Application.set_current_round "Rejected" a
            /\ Application.current_round a' = "Rejected"
            /\ Application.round_history a' = Application.round_history a
            /\ length (Application.round_history a')
               = length (Application.round_history a))
    /\ Application.round_history <$> applications w'
       = Application.round_history <$> applications w.
Proof.
  intros Hrole.
  destruct (reject_applications_eq application_ids current_user w Hrole)
    as (apps' & Hrun & Hin & _ & Hhist).
  eexists _, _. split; [exact Hrun|]. split; [|exact Hhist].
  intros i a Hi Ha. exists (reject a). simpl.
  rewrite (Hin i Hi), Ha. repeat split; reflexivity.
Qed.

(** Rejecting the second sample application. *)
Lemma C4_witness :
  User.role Sample.tpo = "tpo"
  /\ exists (resp : RejectResponse) (w' : World),
       reject_applications ["a2"] Sample.tpo Sample.world = (Ok resp, w')
       /\ find_one (application_has_id "a2") (applications w')
          = Some (Application.set_current_round "Rejected" Sample.a2)
       /\ Application.round_history <$> applications w'
          = Application.round_history <$> applications Sample.world.
Proof.
  split; [reflexivity|].
  destruct (C4_reject_keeps_round_history ["a2"] Sample.tpo Sample.world
              eq_refl) as (resp & w' & Hrun & Hone & Hall).
  exists resp, w'. split; [exact Hrun|]. split; [|exact Hall].
  destruct (Hone "a2" Sample.a2) as (a' & Hfind & -> & _);
    [apply list_elem_of_here | reflexivity | exact Hfind].
Defined.

Section SelectFacts.
Variable utcnow_iso : nat -> string.
Variable send_email : Email -> option string.

Lemma advance_id (next_round ts : string) (a : Application.t) :
  Application.id (advance next_round ts a) = Application.id a.
Proof. reflexivity. Qed.

(** One iteration of the first loop. *)
Lemma select_loop_cons (i : string) (rest : list string)
    (next_round : string) (acc : list (string * string)) (w : World) :
  select_loop utcnow_iso (i :: rest) next_round acc w
  = match find_one (application_has_id i) (applications w) with
    | None => select_loop utcnow_iso rest next_round acc w
    | Some b =>
        select_loop utcnow_iso rest next_round
          (match find_one (user_has_id (Application.student_id b))
                   (users w) with
           | Some s => acc ++ [(User.email s, User.name s)]
           | None => acc
           end)
          (advanced_world utcnow_iso i next_round w)
    end.
Proof.
  cbn [select_loop]. unfold bind at 1. unfold db_applications_find_one.
  destruct (find_one (application_has_id i) (applications w)) as [b|];
    [|destruct w; reflexivity].
  unfold bind, now_isoformat, db_applications_update_one,
    db_users_find_one, with_applications. cbn [applications users clock].
  destruct (find_one (user_has_id (Application.student_id b)) (users w));
    reflexivity.
Qed.

Lemma select_loop_spec (next_round : string) (ids : list string) :
  forall (w : World) (acc : list (string * string)),
  exists (acc' : list (string * string)) (w' : World),
    select_loop utcnow_iso ids next_round acc w = (Ok acc', w')
    /\ users w' = users w /\ drives w' = drives w
    /\ outbox w' = outbox w /\ error_log w' = error_log w
    /\ clock w <= clock w'
    /\ (forall j,
          find_one (application_has_id j) (applications w) = None ->
          find_one (application_has_id j) (applications w') = None)
    /\ (forall j a,
          find_one (application_has_id j) (applications w) = Some a ->
          exists ks : list nat,
            length ks = occurrences j ids
            /\ Forall (fun k => clock w <= k < clock w') ks
            /\ find_one (application_has_id j) (applications w')
               = Some (advance_at utcnow_iso next_round ks a)).
Proof.
  induction ids as [|i rest IH]; intros w acc.
  - exists acc, w. repeat split; try reflexivity; try lia; [auto|].
    intros j a Ha. exists []. repeat split; [constructor | exact Ha].
  - rewrite select_loop_cons.
    destruct (find_one (application_has_id i) (applications w)) as [b|] eqn:Ei.
    + set (acc1 := match find_one _ (users w) with
                   | Some s => _ | None => _ end).
      destruct (IH (advanced_world utcnow_iso i next_round w) acc1)
        as (acc' & w' & Hrun & Hu & Hd & Ho & He & Hc & Hnone & Hsome).
      cbn [advanced_world users drives outbox error_log clock applications]
        in Hu, Hd, Ho, He, Hc, Hnone, Hsome.
      exists acc', w'. split; [exact Hrun|].
      split; [exact Hu|]. split; [exact Hd|]. split; [exact Ho|].
      split; [exact He|]. split; [lia|]. split.
      * intros j Hj. apply Hnone.
        rewrite find_one_update_one by apply advance_id.
        rewrite Hj. destruct (String.eqb i j); reflexivity.
      * intros j a Ha. rewrite occurrences_cons.
        destruct (String.eqb i j) eqn:Eij.
        -- destruct (Hsome j (advance next_round (utcnow_iso (clock w)) a))
             as (ks & Hlen & Hrange & Hfind).
           { rewrite find_one_update_one by apply advance_id.
             rewrite Eij, Ha. reflexivity. }
           exists (clock w :: ks). split; [simpl; lia|].
           split; [|exact Hfind].
           constructor; [lia|].
           eapply Forall_impl; [exact Hrange|]. simpl. intros; lia.
        -- destruct (Hsome j a) as (ks & Hlen & Hrange & Hfind).
           { rewrite find_one_update_one by apply advance_id.
             rewrite Eij. exact Ha. }
           exists ks. split; [exact Hlen|]. split; [|exact Hfind].
           eapply Forall_impl; [exact Hrange|]. simpl. intros; lia.
    + destruct (IH w acc)
        as (acc' & w' & Hrun & Hu & Hd & Ho & He & Hc & Hnone & Hsome).
      exists acc', w'. split; [exact Hrun|].
      split; [exact Hu|]. split; [exact Hd|]. split; [exact Ho|].
      split; [exact He|]. split; [exact Hc|]. split; [exact Hnone|].
      intros j a Ha. rewrite occurrences_cons.
      destruct (String.eqb i j) eqn:Eij.
      * apply String.eqb_eq in Eij. subst j. congruence.
      * apply Hsome, Ha.
Qed.

Lemma send_loop_spec (drive : Drive.t) (next_round : string)
    (selected_emails : list (string * string)) :
  forall w : World,
  exists w' : World,
    send_loop send_email drive next_round selected_emails w = (Ok tt, w')
    /\ applications w' = applications w /\ clock w' = clock w.
Proof.
  induction selected_emails as [|s rest IH]; intros w.
  - exists w. repeat split.
  - cbn [send_loop]. unfold bind at 1. unfold try_send_email.
    match goal with
    | |- context [send_loop _ _ _ rest ?w1] =>
        destruct (IH w1) as (w' & Hrun & Ha & Hc)
    end.
    exists w'. split; [exact Hrun|]. split; [exact Ha | exact Hc].
Qed.

(** A request of the placement officer for an existing drive runs both
    loops and answers; the stored applications are those the first loop
    left. *)
Lemma select_for_round_spec (application_ids : list string)
    (next_round drive_id : string) (current_user : User.t) (w : World)
    (drive : Drive.t) :
  User.role current_user = "tpo" ->
  find_one (drive_has_id drive_id) (drives w) = Some drive ->
  exists (selected_emails : list (string * string)) (w1 w' : World),
    select_loop utcnow_iso application_ids next_round [] w
    = (Ok selected_emails, w1)
    /\ select_for_round utcnow_iso send_email application_ids next_round
         drive_id current_user w
       = (Ok {| message := "Selected " ++ pretty (length application_ids)
                           ++ " students for " ++ next_round;
                emails_sent := length selected_emails |}, w')
    /\ applications w' = applications w1 /\ clock w' = clock w1.
Proof.
  intros Hrole Hdrive.
  destruct (select_loop_spec next_round application_ids w [])
    as (acc & w1 & Hrun & _).
  destruct (send_loop_spec drive next_round acc w1) as (w' & Hsend & Ha & Hc).
  exists acc, w1, w'. split; [exact Hrun|]. split; [|split; assumption].
  unfold select_for_round. rewrite Hrole.
  change (negb (String.eqb "tpo" "tpo")) with false. cbv iota.
  unfold bind at 1. unfold db_drives_find_one. rewrite Hdrive.
  unfold bind. rewrite Hrun, Hsend. reflexivity.
Qed.

(** Repeated identifiers: one record per occurrence, in the order of the
    clock readings. *)
Lemma advance_at_round_history (next_round : string) (ks : list nat)
    (a : Application.t) :
  Application.round_history (advance_at utcnow_iso next_round ks a)
  = (Application.round_history a
     ++ ((fun k => {| round := next_round; selected_at := utcnow_iso k |})
           <$> ks))%list.
Proof.
  revert a. induction ks as [|k ks IH]; intros a.
  - simpl. rewrite app_nil_r. reflexivity.
  - unfold advance_at in *. cbn [foldl]. rewrite IH. simpl.
    rewrite <- app_assoc. reflexivity.
Qed.

Lemma advance_at_current_round (next_round : string) (ks : list nat)
    (a : Application.t) :
  ks <> [] ->
  Application.current_round (advance_at utcnow_iso next_round ks a)
  = next_round.
Proof.
  revert a. induction ks as [|k ks IH]; intros a Hne; [congruence|].
  unfold advance_at in *. cbn [foldl].
  destruct ks as [|k' ks']; [reflexivity|]. apply IH. discriminate.
Qed.

Lemma select_for_round_per_occurrence (application_ids : list string)
    (next_round drive_id : string) (current_user : User.t) (w : World)
    (drive : Drive.t) (i : string) (a : Application.t) :
  User.role current_user = "tpo" ->
  find_one (drive_has_id drive_id) (drives w) = Some drive ->
  find_one (application_has_id i) (applications w) = Some a ->
  exists (resp : SelectResponse) (w' : World) (ks : list nat)
         (a' : Application.t),
    select_for_round utcnow_iso send_email application_ids next_round
      drive_id current_user w = (Ok resp, w')
    /\ length ks = occurrences i application_ids
    /\ find_one (application_has_id i) (applications w') = Some a'
    /\ Application.round_history a'
       = (Application.round_history a
          ++ ((fun k => {| round := next_round; selected_at := utcnow_iso k |})
                <$> ks))%list
    /\ (i ∈ application_ids -> Application.current_round a' = next_round)
    /\ (i ∉ application_ids -> a' = a).
Proof.
  intros Hrole Hdrive Ha.
  destruct (select_for_round_spec application_ids next_round drive_id
              current_user w drive Hrole Hdrive)
    as (acc & w1 & w' & Hloop & Hrun & Happs & _).
  destruct (select_loop_spec next_round application_ids w [])
    as (acc2 & w2 & Hloop2 & _ & _ & _ & _ & _ & _ & Hsome).
  rewrite Hloop in Hloop2. injection Hloop2 as <- <-.
  destruct (Hsome i a Ha) as (ks & Hlen & _ & Hfind).
  eexists _, w', ks, _. split; [exact Hrun|]. split; [exact Hlen|].
  rewrite Happs. split; [exact Hfind|].
  split; [apply advance_at_round_history|]. split.
  - intros Hi. apply advance_at_current_round.
    apply occurrences_pos in Hi. destruct ks; [simpl in Hlen; lia|discriminate].
  - intros Hi. destruct ks as [|k ks]; [reflexivity|].
    exfalso. apply Hi, occurrences_pos. simpl in Hlen. lia.
Qed.

End SelectFacts.

(** C5: an advance request by the placement officer for an existing drive,
    naming a stored application once, answers without error, sets the
    application's [current_round] to the target round and appends exactly
    one record, holding the target round and the time of the update, to
    its [round_history]; an application with an empty history ends with
    that single record. *)
Theorem C5_advance_appends_one_record
    (utcnow_iso : nat -> string) (send_email : Email -> option string)
    (application_ids : list string) (next_round drive_id : string)
    (current_user : User.t) (w : World) (drive : Drive.t)
    (i : string) (a : Application.t) :
  User.role current_user = "tpo" ->
  find_one (drive_has_id drive_id) (drives w) = Some drive ->
  find_one (application_has_id i) (applications w) = Some a ->
  occurrences i application_ids = 1 ->
  exists (resp : SelectResponse) (w' : World) (k : nat) (a' : Application.t),
    select_for_round utcnow_iso send_email application_ids next_round
      drive_id current_user w = (Ok resp, w')
    /\ clock w <= k < clock w'
    /\ find_one (application_has_id i) (applications w') = Some a'
    /\ Application.current_round a' = next_round
    /\ Application.round_history a'
       = (Application.round_history a
          ++ [{| round := next_round; selected_at := utcnow_iso k |}])%list
    /\ length (Application.round_history a')
       = S (length (Application.round_history a))
    /\ (Application.round_history a = [] ->
        Application.round_history a'
        = [{| round := next_round; selected_at := utcnow_iso k |}]).
Proof.
  intros Hrole Hdrive Ha Hocc.
  destruct (select_for_round_spec utcnow_iso send_email application_ids
              next_round drive_id current_user w drive Hrole Hdrive)
    as (acc & w1 & w' & Hloop & Hrun & Happs & Hclock).
  destruct (select_loop_spec utcnow_iso next_round application_ids w [])
    as (acc2 & w2 & Hloop2 & _ & _ & _ & _ & _ & _ & Hsome).
  rewrite Hloop in Hloop2. injection Hloop2 as <- <-.
  destruct (Hsome i a Ha) as (ks & Hlen & Hrange & Hfind).
  rewrite Hocc in Hlen.
  destruct ks as [|k [|? ?]]; try discriminate Hlen.
  apply Forall_cons in Hrange as [Hk _].
  eexists _, w', k, (advance next_round (utcnow_iso k) a).
  split; [exact Hrun|]. rewrite Happs, Hclock.
  split; [exact Hk|]. split; [exact Hfind|].
  split; [reflexivity|]. split; [reflexivity|].
  split; [simpl; rewrite length_app; simpl; lia|].
  intros Hnil. simpl. rewrite Hnil. reflexivity.
Qed.

(** A freshly created application, advanced to the coding round. *)
Lemma C5_witness :
  User.role Sample.tpo = "tpo"
  /\ find_one (drive_has_id "d1") (drives Sample.world)
     = Some (Sample.drive "d1")
  /\ find_one (application_has_id "a1") (applications Sample.world)
     = Some Sample.a1
  /\ Application.current_round Sample.a1 = "Applied"
  /\ Application.round_history Sample.a1 = []
  /\ occurrences "a1" ["a1"] = 1
  /\ exists (resp : SelectResponse) (w' : World) (k : nat)
            (a' : Application.t),
       select_for_round Sample.utcnow_iso Sample.send_email ["a1"] "Coding"
         "d1" Sample.tpo Sample.world = (Ok resp, w')
       /\ find_one (application_has_id "a1") (applications w') = Some a'
       /\ Application.current_round a' = "Coding"
       /\ Application.round_history a'
          = [{| round := "Coding"; selected_at := Sample.utcnow_iso k |}].
Proof.
  do 6 (split; [reflexivity|]).
  destruct (C5_advance_appends_one_record Sample.utcnow_iso Sample.send_email
              ["a1"] "Coding" "d1" Sample.tpo Sample.world (Sample.drive "d1")
              "a1" Sample.a1 eq_refl eq_refl eq_refl eq_refl)
    as (resp & w' & k & a' & Hrun & _ & Hfind & Hround & _ & _ & Hfresh).
  exists resp, w', k, a'.
  split; [exact Hrun|]. split; [exact Hfind|]. split; [exact Hround|].
  apply Hfresh. reflexivity.
Defined.

(** C3, as stated, fails: the sample application [a4] is Rejected, and an
    advance request moves it to the coding round and extends its
    history. *)
Lemma C3_rejected_application_is_advanced :
  find_one (application_has_id "a4") (applications Sample.world)
  = Some Sample.a4
  /\ Application.current_round Sample.a4 = "Rejected"
  /\ exists (resp : SelectResponse) (w' : World) (a' : Application.t),
       select_for_round Sample.utcnow_iso Sample.send_email ["a4"] "Coding"
         "d1" Sample.tpo Sample.world = (Ok resp, w')
       /\ find_one (application_has_id "a4") (applications w') = Some a'
       /\ Application.current_round a' = "Coding"
       /\ Application.current_round a' <> "Rejected"
       /\ Application.round_history a'
          = (Application.round_history Sample.a4
             ++ [{| round := "Coding";
                    selected_at := "2026-02-01T00:00:00+00:00" |}])%list
       /\ Application.round_history a' <> Application.round_history Sample.a4.
Proof.
  split; [reflexivity|]. split; [reflexivity|].
  eexists _, _, _. split; [vm_compute; reflexivity|].
  split; [vm_compute; reflexivity|].
  split; [reflexivity|]. split; [discriminate|].
  split; [reflexivity|]. discriminate.
Qed.

(** C3, amended: for an application whose [current_round] is "Rejected",
    a further reject request leaves the stored application exactly as it
    was, so it stays Rejected with the same history; an advance request
    naming it once is accepted like any other: [current_round] becomes the
    target round and one record is appended to [round_history]. *)
Theorem C3_rejected_stays_rejected_only_under_reject
    (utcnow_iso : nat -> string) (send_email : Email -> option string)
    (w : World) (i : string) (a : Application.t) :
  find_one (application_has_id i) (applications w) = Some a ->
  Application.current_round a = "Rejected" ->
  (forall (application_ids : list string) (current_user : User.t),
     User.role current_user = "tpo" ->
     exists (resp : RejectResponse) (w' : World),
       reject_applications application_ids current_user w = (Ok resp, w')
       /\ find_one (application_has_id i) (applications w') = Some a)
  /\ (forall (application_ids : list string) (next_round drive_id : string)
             (current_user : User.t) (drive : Drive.t),
        User.role current_user = "tpo" ->
        find_one (drive_has_id drive_id) (drives w) = Some drive ->
        occurrences i application_ids = 1 ->
        exists (resp : SelectResponse) (w' : World) (k : nat)
               (a' : Application.t),
          select_for_round utcnow_iso send_email application_ids next_round
            drive_id current_user w = (Ok resp, w')
          /\ find_one (application_has_id i) (applications w') = Some a'
          /\ Application.current_round a' = next_round
          /\ Application.round_history a'
             = (Application.round_history a
                ++ [{| round := next_round;
                       selected_at := utcnow_iso k |}])%list).
Proof.
  intros Ha Hrej. split.
  - intros application_ids current_user Hrole.
    destruct (reject_applications_eq application_ids current_user w Hrole)
      as (apps' & Hrun & Hin & Hout & _).
    eexists _, _. split; [exact Hrun|]. simpl.
    destruct (decide (i ∈ application_ids)) as [Hi|Hi].
    + rewrite (Hin i Hi), Ha. simpl. rewrite (reject_rejected a Hrej).
      reflexivity.
    + rewrite (Hout i Hi). exact Ha.
  - intros application_ids next_round drive_id current_user drive
      Hrole Hdrive Hocc.
    destruct (select_for_round_spec utcnow_iso send_email application_ids
                next_round drive_id current_user w drive Hrole Hdrive)
      as (acc & w1 & w' & Hloop & Hrun & Happs & Hclock).
    destruct (select_loop_spec utcnow_iso next_round application_ids w [])
      as (acc2 & w2 & Hloop2 & _ & _ & _ & _ & _ & _ & Hsome).
    rewrite Hloop in Hloop2. injection Hloop2 as <- <-.
    destruct (Hsome i a Ha) as (ks & Hlen & _ & Hfind).
    rewrite Hocc in Hlen.
    destruct ks as [|k [|? ?]]; try discriminate Hlen.
    eexists _, w', k, (advance next_round (utcnow_iso k) a).
    split; [exact Hrun|]. rewrite Happs.
    split; [exact Hfind|]. split; reflexivity.
Qed.

(** The rejected sample application: rejected again, then advanced. *)
Lemma C3_witness :
  find_one (application_has_id "a4") (applications Sample.world)
  = Some Sample.a4
  /\ Application.current_round Sample.a4 = "Rejected"
  /\ (exists (resp : RejectResponse) (w' : World),
        reject_applications ["a4"] Sample.tpo Sample.world = (Ok resp, w')
        /\ find_one (application_has_id "a4") (applications w')
           = Some Sample.a4)
  /\ (exists (resp : SelectResponse) (w' : World) (k : nat)
             (a' : Application.t),
        select_for_round Sample.utcnow_iso Sample.send_email ["a4"] "HR"
          "d1" Sample.tpo Sample.world = (Ok resp, w')
        /\ find_one (application_has_id "a4") (applications w') = Some a'
        /\ Application.current_round a' = "HR"
        /\ Application.round_history a'
           = (Application.round_history Sample.a4
              ++ [{| round := "HR";
                     selected_at := Sample.utcnow_iso k |}])%list).
Proof.
  split; [reflexivity|]. split; [reflexivity|].
  destruct (C3_rejected_stays_rejected_only_under_reject
              Sample.utcnow_iso Sample.send_email Sample.world "a4" Sample.a4
              eq_refl eq_refl) as [Hreject Hadvance].
  split.
  - exact (Hreject ["a4"] Sample.tpo eq_refl).
  - exact (Hadvance ["a4"] "HR" "d1" Sample.tpo (Sample.drive "d1")
             eq_refl eq_refl eq_refl).
Defined.

(** C2, evaluated on a batch of four identifiers of which ["missing"]
    matches no stored application: both routes answer without error and
    update the three matching applications, and the count in the answer's
    message is 4, the length of the input list. *)
Theorem C2_batch_message_counts_input_list
    (utcnow_iso : nat -> string) (send_email : Email -> option string) :
  find_one (application_has_id "missing") (applications Sample.world) = None
  /\ Application.current_round <$> applications Sample.world
     = ["Applied"; "Applied"; "Applied"; "Rejected"; "Applied"; "Applied"]
  /\ (exists w' : World,
        reject_applications ["a1"; "missing"; "a2"; "a3"] Sample.tpo
          Sample.world
        = (Ok {| reject_message := "Rejected 4 applications" |}, w')
        /\ Application.current_round <$> applications w'
           = ["Rejected"; "Rejected"; "Rejected"; "Rejected";
              "Applied"; "Applied"])
  /\ (exists w' : World,
        select_for_round utcnow_iso send_email
          ["a1"; "missing"; "a2"; "a3"] "Coding" "d1" Sample.tpo Sample.world
        = (Ok {| message := "Selected 4 students for Coding";
                 emails_sent := 3 |}, w')
        /\ Application.current_round <$> applications w'
           = ["Coding"; "Coding"; "Coding"; "Rejected"; "Applied"; "Applied"]
        /\ length <$> (Application.round_history <$> applications w')
           = [1; 1; 1; 1; 0; 0]).
Proof.
  split; [reflexivity|]. split; [reflexivity|]. split.
  - eexists. split; [vm_compute; reflexivity | reflexivity].
  - eexists. split; [vm_compute; reflexivity|]. split; reflexivity.
Qed.

(* ===================================================================== *)
(** * Further properties of the scorer *)
(* ===================================================================== *)

Section ScoreOrder.
Local Open Scope Q_scope.

Lemma round_half_even_mono (x y : Q) :
  x <= y -> (Py.round_half_even x <= Py.round_half_even y)%Z.
Proof.
  intros Hxy. pose proof (Qfloor_resp_le _ _ Hxy) as Hf.
  pose proof (round_half_even_floor x) as Hx.
  pose proof (round_half_even_floor y) as Hy.
  destruct (Z.eq_dec (Qfloor x) (Qfloor y)) as [E|E]; [|lia].
  unfold Py.round_half_even in *. rewrite <- E in *.
  destruct (x - inject_Z (Qfloor x) ?= 1 # 2) eqn:Cx;
    destruct (y - inject_Z (Qfloor x) ?= 1 # 2) eqn:Cy;
    try (destruct (Z.even (Qfloor x)); lia); try lia; exfalso.
  - apply Qeq_alt in Cx. apply Qlt_alt in Cy. lra.
  - apply Qgt_alt in Cx. apply Qeq_alt in Cy. lra.
  - apply Qgt_alt in Cx. apply Qlt_alt in Cy. lra.
Qed.

Lemma round2_mono (x y : Q) : x <= y -> Py.round2 x <= Py.round2 y.
Proof.
  intros Hxy. unfold Py.round2.
  assert (Hz : (Py.round_half_even (x * 100)
                <= Py.round_half_even (y * 100))%Z)
    by (apply round_half_even_mono; lra).
  rewrite Zle_Qle in Hz. unfold Qdiv.
  apply Qmult_le_compat_r; [exact Hz | discriminate].
Qed.

Lemma clamp_total_mono (x y : Q) :
  x <= y -> Py.min 100 (Py.max 0 x) <= Py.min 100 (Py.max 0 y).
Proof.
  intros Hxy. unfold Py.min, Py.max.
  destruct (Py.Qlt_bool 0 x) eqn:Ex; destruct (Py.Qlt_bool 0 y) eqn:Ey;
    repeat match goal with
      | |- context [Py.Qlt_bool ?a ?b] =>
          let E := fresh "E" in destruct (Py.Qlt_bool a b) eqn:E
      end;
    repeat match goal with
      | H : Py.Qlt_bool _ _ = true |- _ => apply Qlt_bool_iff in H
      | H : Py.Qlt_bool _ _ = false |- _ => apply Qlt_bool_false_iff in H
      end; lra.
Qed.

Lemma text_score_bounds (tfidf_cosine : string -> string -> option Q)
    (resume_text job_description : string) :
  (forall a b sim, tfidf_cosine a b = Some sim -> 0 <= sim <= 1) ->
  0 <= text_score tfidf_cosine resume_text job_description <= 60.
Proof.
  intros Hsim. unfold text_score.
  destruct (Py.truthy_str resume_text && Py.truthy_str job_description);
    [|lra].
  destruct (tfidf_cosine resume_text job_description) as [sim|] eqn:E; [|lra].
  specialize (Hsim _ _ _ E). lra.
Qed.

Lemma skills_score_bounds (lower : string -> string)
    (student_skills required_skills : list string) :
  0 <= skills_score lower student_skills required_skills <= 30.
Proof.
  destruct required_skills as [|r rs]; [unfold skills_score; simpl; lra|].
  destruct student_skills as [|s ss]; [unfold skills_score; simpl; lra|].
  rewrite skills_score_nonempty by discriminate.
  apply fraction_bounds; [|simpl; lia].
  etransitivity; [apply size_matched_le|].
  etransitivity; [apply size_list_to_set_le|].
  rewrite length_fmap. reflexivity.
Qed.

Lemma cgpa_score_bounds (student_cgpa min_cgpa : Q) :
  0 <= student_cgpa <= 10 -> 0 <= cgpa_score student_cgpa min_cgpa <= 10.
Proof.
  intros [H0 H10].
  destruct (Qlt_le_dec student_cgpa min_cgpa) as [Hlt|Hge].
  - rewrite cgpa_score_below by lra.
    assert (Hm : 0 < min_cgpa) by lra.
    assert (Hq0 : 0 <= student_cgpa / min_cgpa)
      by (apply Qle_shift_div_l; [exact Hm | lra]).
    assert (Hq1 : student_cgpa / min_cgpa <= 1)
      by (apply Qle_shift_div_r; [exact Hm | lra]).
    lra.
  - rewrite (cgpa_score_eligible _ _ Hge). lra.
Qed.

Lemma cgpa_score_penalty_mono (s1 s2 m : Q) :
  0 < m -> s1 <= s2 -> s1 / m * 5 <= s2 / m * 5.
Proof.
  intros Hm Hs.
  assert (H : s1 / m <= s2 / m).
  { unfold Qdiv. apply Qmult_le_compat_r; [exact Hs|].
    apply Qlt_le_weak, Qinv_lt_0_compat, Hm. }
  lra.
Qed.

Lemma skills_score_mono (lower : string -> string)
    (student_skills student_skills' required_skills : list string) :
  student_skills ⊆ student_skills' ->
  skills_score lower student_skills required_skills
  <= skills_score lower student_skills' required_skills.
Proof.
  intros Hsub.
  destruct required_skills as [|r rs]; [apply Qle_refl|].
  destruct student_skills as [|s ss].
  - apply (skills_score_bounds lower student_skills' (r :: rs)).
  - destruct student_skills' as [|s' ss'].
    + exfalso. specialize (Hsub s (list_elem_of_here _ _)). inversion Hsub.
    + rewrite !skills_score_nonempty by discriminate.
      assert (Hle : (size (matched_skills lower (s :: ss) (r :: rs))
                     <= size (matched_skills lower (s' :: ss') (r :: rs)))%nat).
      { apply subseteq_size. unfold matched_skills.
        apply intersection_mono_r. intros x Hx.
        apply elem_of_list_to_set in Hx. apply elem_of_list_to_set.
        apply list_elem_of_fmap in Hx as (y & -> & Hy).
        apply list_elem_of_fmap. exists y. split; [reflexivity | apply Hsub, Hy]. }
      apply of_len_le in Hle.
      assert (Hn : 0 < Py.of_len (length (r :: rs)))
        by (apply of_len_pos; simpl; lia).
      assert (H : Py.of_len (size (matched_skills lower (s :: ss) (r :: rs)))
                    / Py.of_len (length (r :: rs))
                  <= Py.of_len (size (matched_skills lower (s' :: ss') (r :: rs)))
                       / Py.of_len (length (r :: rs))).
      { unfold Qdiv. apply Qmult_le_compat_r; [exact Hle|].
        apply Qlt_le_weak, Qinv_lt_0_compat, Hn. }
      lra.
Qed.

End ScoreOrder.

(** X1: when the similarity the vectoriser reports lies in [[0, 1]] and
    the student's CGPA lies in [[0, 10]], the three sub-scores lie in
    [[0, 60]], [[0, 30]] and [[0, 10]], so the total lies in [[0, 100]] and
    the clamp of [score_resume] is inactive: the result is the rounded
    total. *)
Theorem X1_clamp_inactive_on_nominal_inputs
    (tfidf_cosine : string -> string -> option Q) (lower : string -> string)
    (resume_text : string) (student_skills : list string) (student_cgpa : Q)
    (job_description : string) (required_skills : list string) (min_cgpa : Q) :
  (forall a b sim, tfidf_cosine a b = Some sim -> (0 <= sim <= 1)%Q) ->
  (0 <= student_cgpa <= 10)%Q ->
  (0 <= text_score tfidf_cosine resume_text job_description <= 60)%Q
  /\ (0 <= skills_score lower student_skills required_skills <= 30)%Q
  /\ (0 <= cgpa_score student_cgpa min_cgpa <= 10)%Q
  /\ (0 <= total_score tfidf_cosine lower resume_text student_skills
             student_cgpa job_description required_skills min_cgpa <= 100)%Q
  /\ (score_resume tfidf_cosine lower resume_text student_skills student_cgpa
        job_description required_skills min_cgpa
      == Py.round2
           (total_score tfidf_cosine lower resume_text student_skills
              student_cgpa job_description required_skills min_cgpa))%Q.
Proof.
  intros Hsim Hcgpa.
  pose proof (text_score_bounds tfidf_cosine resume_text job_description Hsim)
    as Ht.
  pose proof (skills_score_bounds lower student_skills required_skills) as Hs.
  pose proof (cgpa_score_bounds student_cgpa min_cgpa Hcgpa) as Hc.
  assert (Htot : (0 <= total_score tfidf_cosine lower resume_text
                         student_skills student_cgpa job_description
                         required_skills min_cgpa <= 100)%Q)
    by (unfold total_score; lra).
  split; [exact Ht|]. split; [exact Hs|]. split; [exact Hc|].
  split; [exact Htot|].
  unfold score_resume.
  set (t := total_score _ _ _ _ _ _ _ _) in *.
  unfold Py.max, Py.min.
  destruct (Py.Qlt_bool 0 t) eqn:E0.
  - destruct (Py.Qlt_bool t 100) eqn:E1; [reflexivity|].
    apply Qlt_bool_false_iff in E1.
    assert (Ht100 : (t == 100)%Q) by lra.
    assert (Hr : (Py.round2 100 <= Py.round2 t)%Q) by (apply round2_mono; lra).
    assert (Hr' : (Py.round2 t <= Py.round2 100)%Q) by (apply round2_mono; lra).
    lra.
  - apply Qlt_bool_false_iff in E0.
    change (Py.Qlt_bool 0 100) with true. cbv iota.
    assert (Hr : (Py.round2 0 <= Py.round2 t)%Q) by (apply round2_mono; lra).
    assert (Hr' : (Py.round2 t <= Py.round2 0)%Q) by (apply round2_mono; lra).
    lra.
Qed.

(** A vectoriser reporting similarity one half, a CGPA of 8. *)
Lemma X1_witness :
  (forall a b sim,
     (fun _ _ : string => Some (1 # 2)%Q) a b = Some sim -> (0 <= sim <= 1)%Q)
  /\ (0 <= 8 <= 10)%Q
  /\ (score_resume (fun _ _ => Some (1 # 2)%Q) Py.lower_ascii
        "java sql" ["java"; "sql"] 8 "Java developer role"
        ["java"; "python"] 7
      == Py.round2
           (total_score (fun _ _ => Some (1 # 2)%Q) Py.lower_ascii
              "java sql" ["java"; "sql"] 8 "Java developer role"
              ["java"; "python"] 7))%Q.
Proof.
  assert (Hsim : forall a b sim,
             (fun _ _ : string => Some (1 # 2)%Q) a b = Some sim ->
             (0 <= sim <= 1)%Q).
  { intros a b sim E. injection E as <-. split; discriminate. }
  assert (Hc : (0 <= 8 <= 10)%Q) by (split; discriminate).
  split; [exact Hsim|]. split; [exact Hc|].
  exact (proj2 (proj2 (proj2 (proj2
    (X1_clamp_inactive_on_nominal_inputs (fun _ _ => Some (1 # 2)%Q)
       Py.lower_ascii "java sql" ["java"; "sql"] 8 "Java developer role"
       ["java"; "python"] 7 Hsim Hc))))).
Defined.

(** X2: a student who lists more skills never gets a lower score: if
    every entry of [student_skills] also occurs in [student_skills'], the
    score with [student_skills'] is at least the score with
    [student_skills], all other inputs being equal. *)
Theorem X2_more_skills_never_lower_the_score
    (tfidf_cosine : string -> string -> option Q) (lower : string -> string)
    (resume_text : string) (student_skills student_skills' : list string)
    (student_cgpa : Q) (job_description : string)
    (required_skills : list string) (min_cgpa : Q) :
  student_skills ⊆ student_skills' ->
  (score_resume tfidf_cosine lower resume_text student_skills student_cgpa
     job_description required_skills min_cgpa
   <= score_resume tfidf_cosine lower resume_text student_skills' student_cgpa
        job_description required_skills min_cgpa)%Q.
Proof.
  intros Hsub. unfold score_resume.
  apply round2_mono, clamp_total_mono. unfold total_score.
  pose proof (skills_score_mono lower _ _ required_skills Hsub). lra.
Qed.

(** Adding python to java, sql. *)
Lemma X2_witness :
  ["java"; "sql"] ⊆ ["java"; "sql"; "python"]
  /\ (score_resume (fun _ _ => None) Py.lower_ascii "" ["java"; "sql"] 8
        "Java developer role" ["java"; "python"] 7
      <= score_resume (fun _ _ => None) Py.lower_ascii ""
           ["java"; "sql"; "python"] 8
           "Java developer role" ["java"; "python"] 7)%Q.
Proof.
  assert (Hsub : ["java"; "sql"] ⊆ ["java"; "sql"; "python"]).
  { intros x Hx.
    apply (proj2 (elem_of_app ["java"; "sql"] ["python"] x)).
    left. exact Hx. }
  split; [exact Hsub|].
  exact (X2_more_skills_never_lower_the_score (fun _ _ => None)
           Py.lower_ascii "" _ _ 8 "Java developer role"
           ["java"; "python"] 7 Hsub).
Defined.

(** X3: the score depends on the student's skill list only through the
    set of its lower-cased entries: two lists with the same such set
    (reordered, repeated or differently cased entries) get the same
    score. *)
Theorem X3_score_depends_on_skill_set_only
    (tfidf_cosine : string -> string -> option Q) (lower : string -> string)
    (resume_text : string) (student_skills student_skills' : list string)
    (student_cgpa : Q) (job_description : string)
    (required_skills : list string) (min_cgpa : Q) :
  list_to_set (C := gset string) (lower <$> student_skills)
  = list_to_set (lower <$> student_skills') ->
  score_resume tfidf_cosine lower resume_text student_skills student_cgpa
    job_description required_skills min_cgpa
  = score_resume tfidf_cosine lower resume_text student_skills' student_cgpa
      job_description required_skills min_cgpa.
Proof.
  intros Hset.
  assert (Hskills : skills_score lower student_skills required_skills
                    = skills_score lower student_skills' required_skills).
  { unfold skills_score, matched_skills. rewrite Hset.
    destruct student_skills as [|s ss]; destruct student_skills' as [|s' ss'];
      try reflexivity; exfalso.
    - rewrite fmap_cons, list_to_set_cons in Hset.
      assert (Hin : lower s' ∈ (∅ : gset string))
        by (change (list_to_set (lower <$> [])) with (∅ : gset string) in Hset;
            rewrite Hset; apply elem_of_union_l, elem_of_singleton; reflexivity).
      exact (not_elem_of_empty _ Hin).
    - rewrite fmap_cons, list_to_set_cons in Hset.
      assert (Hin : lower s ∈ (∅ : gset string))
        by (change (list_to_set (lower <$> [])) with (∅ : gset string) in Hset;
            rewrite <- Hset; apply elem_of_union_l, elem_of_singleton;
            reflexivity).
      exact (not_elem_of_empty _ Hin). }
  unfold score_resume, total_score. rewrite Hskills. reflexivity.
Qed.

(** Reordered, repeated and re-cased entries. *)
Lemma X3_witness :
  list_to_set (C := gset string) (Py.lower_ascii <$> ["Java"; "sql"; "java"])
  = list_to_set (Py.lower_ascii <$> ["SQL"; "JAVA"])
  /\ score_resume (fun _ _ => None) Py.lower_ascii "cv" ["Java"; "sql"; "java"]
       8 "Java developer role" ["java"; "python"] 7
     = score_resume (fun _ _ => None) Py.lower_ascii "cv" ["SQL"; "JAVA"]
         8 "Java developer role" ["java"; "python"] 7.
Proof.
  assert (Hset : list_to_set (C := gset string)
                   (Py.lower_ascii <$> ["Java"; "sql"; "java"])
                 = list_to_set (Py.lower_ascii <$> ["SQL"; "JAVA"]))
    by (vm_compute; reflexivity).
  split; [exact Hset|].
  exact (X3_score_depends_on_skill_set_only (fun _ _ => None) Py.lower_ascii
           "cv" _ _ 8 "Java developer role" ["java"; "python"] 7 Hset).
Defined.

(** X4: for a threshold of at least 5 the CGPA score never decreases
    when the student's CGPA increases. *)
Theorem X4_cgpa_score_monotone_from_threshold_five
    (min_cgpa s1 s2 : Q) :
  (5 <= min_cgpa)%Q -> (s1 <= s2)%Q ->
  (cgpa_score s1 min_cgpa <= cgpa_score s2 min_cgpa)%Q.
Proof.
  intros Hm Hs.
  assert (Hpos : (0 < min_cgpa)%Q) by lra.
  destruct (Qlt_le_dec s2 min_cgpa) as [H2|H2].
  - rewrite !cgpa_score_below by lra.
    apply cgpa_score_penalty_mono; assumption.
  - rewrite (cgpa_score_eligible s2 _ H2).
    destruct (Qlt_le_dec s1 min_cgpa) as [H1|H1].
    + rewrite cgpa_score_below by lra.
      assert (Hq : (s1 / min_cgpa <= 1)%Q)
        by (apply Qle_shift_div_r; [exact Hpos | lra]).
      lra.
    + rewrite (cgpa_score_eligible s1 _ H1). exact Hs.
Qed.

(** Threshold 7, CGPAs 6.9 and 7. *)
Lemma X4_witness :
  (5 <= 7)%Q /\ (69 # 10 <= 7)%Q
  /\ (cgpa_score (69 # 10) 7 <= cgpa_score 7 7)%Q.
Proof.
  assert (Hm : (5 <= 7)%Q) by discriminate.
  assert (Hs : (69 # 10 <= 7)%Q) by discriminate.
  split; [exact Hm|]. split; [exact Hs|].
  exact (X4_cgpa_score_monotone_from_threshold_five 7 (69 # 10) 7 Hm Hs).
Defined.

(** X5: for a positive threshold below 5 the CGPA score is not monotone:
    some student strictly below the threshold scores strictly more than a
    student exactly at the threshold. *)
Theorem X5_cgpa_score_not_monotone_below_threshold_five (min_cgpa : Q) :
  (0 < min_cgpa)%Q -> (min_cgpa < 5)%Q ->
  exists s : Q,
    (s < min_cgpa)%Q
    /\ (cgpa_score min_cgpa min_cgpa < cgpa_score s min_cgpa)%Q.
Proof.
  intros Hpos Hlt.
  exists (min_cgpa * ((min_cgpa + 5) * (1 # 10)))%Q.
  assert (Hs : (min_cgpa * ((min_cgpa + 5) * (1 # 10)) < min_cgpa)%Q).
  { rewrite <- (Qmult_1_r min_cgpa) at 3.
    apply Qmult_lt_l; [exact Hpos | lra]. }
  split; [exact Hs|].
  rewrite (cgpa_score_eligible _ _ (Qle_refl min_cgpa)).
  rewrite cgpa_score_below by assumption.
  assert (E : (min_cgpa * ((min_cgpa + 5) * (1 # 10)) / min_cgpa * 5
               == (min_cgpa + 5) * (1 # 2))%Q) by (field; lra).
  rewrite E. lra.
Qed.

(** Threshold 2: a CGPA of 1.9 scores 4.75, a CGPA of 2 scores 2. *)
Lemma X5_witness :
  (0 < 2)%Q /\ (2 < 5)%Q
  /\ (cgpa_score (19 # 10) 2 == 475 # 100)%Q /\ (cgpa_score 2 2 == 2)%Q
  /\ exists s : Q, (s < 2)%Q /\ (cgpa_score 2 2 < cgpa_score s 2)%Q.
Proof.
  assert (H0 : (0 < 2)%Q) by reflexivity.
  assert (H5 : (2 < 5)%Q) by reflexivity.
  split; [exact H0|]. split; [exact H5|].
  split; [reflexivity|]. split; [reflexivity|].
  exact (X5_cgpa_score_not_monotone_below_threshold_five 2 H0 H5).
Defined.

(* ===================================================================== *)
(** * Further properties of the round-progression routes *)
(* ===================================================================== *)

Section EvolvesFacts.

Lemma evolves_refl (a : Application.t) : evolves a a.
Proof. repeat split; reflexivity. Qed.

Lemma evolves_trans (a b c : Application.t) :
  evolves a b -> evolves b c -> evolves a c.
Proof.
  intros (H1 & H2 & H3 & H4 & H5 & H6 & H7) (K1 & K2 & K3 & K4 & K5 & K6 & K7).
  repeat split; try congruence. etransitivity; eassumption.
Qed.

Lemma evolves_reject (a : Application.t) : evolves a (reject a).
Proof. repeat split; reflexivity. Qed.

Lemma evolves_advance (next_round ts : string) (a : Application.t) :
  evolves a (advance next_round ts a).
Proof.
  repeat split; try reflexivity. simpl. apply prefix_app_r. reflexivity.
Qed.

Lemma Forall2_evolves_refl (l : list Application.t) : Forall2 evolves l l.
Proof. induction l; constructor; [apply evolves_refl | assumption]. Qed.

Lemma Forall2_evolves_trans (l1 l2 l3 : list Application.t) :
  Forall2 evolves l1 l2 -> Forall2 evolves l2 l3 -> Forall2 evolves l1 l3.
Proof.
  intros H12. revert l3. induction H12; intros l3 H23; inversion H23; subst;
    constructor; [eapply evolves_trans; eassumption | auto].
Qed.

Lemma update_one_evolves (p : Application.t -> bool)
    (f : Application.t -> Application.t) (l : list Application.t) :
  (forall a, evolves a (f a)) -> Forall2 evolves l (update_one p f l).
Proof.
  intros Hf. induction l as [|x r IH]; simpl; [constructor|].
  destruct (p x); constructor;
    [apply Hf | apply Forall2_evolves_refl | apply evolves_refl | exact IH].
Qed.

Lemma update_one_absent {A : Type} (p : A -> bool) (f : A -> A) (l : list A) :
  find_one p l = None -> update_one p f l = l.
Proof.
  induction l as [|x r IH]; simpl; [reflexivity|].
  destruct (p x); [discriminate|]. intros H. rewrite IH by exact H.
  reflexivity.
Qed.

Lemma omap_pointwise {A B : Type} (f g : A -> option B) (l : list A) :
  (forall x, f x = g x) -> omap f l = omap g l.
Proof.
  intros H. induction l as [|x r IH]; [reflexivity|].
  cbn [omap list_omap]. rewrite H, IH. reflexivity.
Qed.

End EvolvesFacts.

Section RejectAlgebra.

Lemma update_one_reject_commute (i j : string) (l : list Application.t) :
  update_one (application_has_id i) reject
    (update_one (application_has_id j) reject l)
  = update_one (application_has_id j) reject
      (update_one (application_has_id i) reject l).
Proof.
  destruct (String.eqb i j) eqn:Eij.
  { apply String.eqb_eq in Eij. subst j. reflexivity. }
  induction l as [|x r IH]; [reflexivity|]. cbn [update_one].
  destruct (application_has_id j x) eqn:Ej;
    destruct (application_has_id i x) eqn:Ei; cbn [update_one].
  - unfold application_has_id in Ei, Ej.
    apply String.eqb_eq in Ei, Ej. rewrite <- Ei, <- Ej in Eij.
    rewrite String.eqb_refl in Eij. discriminate.
  - change (application_has_id i (reject x)) with (application_has_id i x).
    rewrite Ei, Ej. reflexivity.
  - change (application_has_id j (reject x)) with (application_has_id j x).
    rewrite Ei, Ej. reflexivity.
  - rewrite Ei, Ej, IH. reflexivity.
Qed.

Lemma update_one_reject_idempotent (i : string) (l : list Application.t) :
  update_one (application_has_id i) reject
    (update_one (application_has_id i) reject l)
  = update_one (application_has_id i) reject l.
Proof.
  induction l as [|x r IH]; [reflexivity|]. cbn [update_one].
  destruct (application_has_id i x) eqn:Ei; cbn [update_one].
  - change (application_has_id i (reject x)) with (application_has_id i x).
    rewrite Ei. reflexivity.
  - rewrite Ei, IH. reflexivity.
Qed.

(** The store [reject_loop] leaves. *)
Lemma reject_loop_foldl (ids : list string) (w : World) :
  reject_loop ids w
  = (Ok tt,
     with_applications
       (foldl (fun l i => update_one (application_has_id i) reject l)
          (applications w) ids) w).
Proof.
  revert w. induction ids as [|i rest IH]; intros w.
  - destruct w; reflexivity.
  - cbn [reject_loop foldl]. unfold bind, db_applications_update_one.
    rewrite IH. reflexivity.
Qed.

Lemma foldl_reject_push (i : string) (ids : list string)
    (l : list Application.t) :
  update_one (application_has_id i) reject
    (foldl (fun l i => update_one (application_has_id i) reject l) l ids)
  = foldl (fun l i => update_one (application_has_id i) reject l)
      (update_one (application_has_id i) reject l) ids.
Proof.
  revert l. induction ids as [|j rest IH]; intros l; [reflexivity|].
  cbn [foldl]. rewrite IH, update_one_reject_commute. reflexivity.
Qed.

Lemma foldl_reject_absorb (i : string) (ids : list string)
    (l : list Application.t) :
  i ∈ ids ->
  update_one (application_has_id i) reject
    (foldl (fun l i => update_one (application_has_id i) reject l) l ids)
  = foldl (fun l i => update_one (application_has_id i) reject l) l ids.
Proof.
  revert l. induction ids as [|j rest IH]; intros l Hi; [inversion Hi|].
  cbn [foldl]. apply elem_of_cons in Hi as [->|Hi].
  - rewrite foldl_reject_push, update_one_reject_idempotent. reflexivity.
  - apply IH, Hi.
Qed.

Lemma foldl_reject_permutation (ids ids' : list string)
    (l : list Application.t) :
  ids ≡ₚ ids' ->
  foldl (fun l i => update_one (application_has_id i) reject l) l ids
  = foldl (fun l i => update_one (application_has_id i) reject l) l ids'.
Proof.
  intros Hp. revert l.
  induction Hp as [|x k k' Hk IH|x y k|k1 k2 k3 H12 IH12 H23 IH23];
    intros apps; cbn [foldl].
  - reflexivity.
  - apply IH.
  - rewrite update_one_reject_commute. reflexivity.
  - rewrite IH12. apply IH23.
Qed.

Lemma foldl_reject_twice (ids : list string) (l : list Application.t) :
  foldl (fun l i => update_one (application_has_id i) reject l)
    (foldl (fun l i => update_one (application_has_id i) reject l) l ids) ids
  = foldl (fun l i => update_one (application_has_id i) reject l) l ids.
Proof.
  assert (H : forall pre, pre ⊆ ids ->
            foldl (fun l i => update_one (application_has_id i) reject l)
              (foldl (fun l i => update_one (application_has_id i) reject l)
                 l ids) pre
            = foldl (fun l i => update_one (application_has_id i) reject l)
                l ids).
  { induction pre as [|i pre IH]; intros Hsub; [reflexivity|].
    cbn [foldl]. rewrite foldl_reject_absorb.
    - apply IH. intros x Hx. apply Hsub. right. exact Hx.
    - apply Hsub. left. }
  apply H. reflexivity.
Qed.

End RejectAlgebra.

Section SelectFrame.
Variable utcnow_iso : nat -> string.
Variable send_email : Email -> option string.

Lemma find_one_advanced_world (i j next_round : string) (w : World) :
  find_one (application_has_id j)
    (applications (advanced_world utcnow_iso i next_round w))
  = if String.eqb i j
    then advance next_round (utcnow_iso (clock w))
           <$> find_one (application_has_id j) (applications w)
    else find_one (application_has_id j) (applications w).
Proof.
  unfold advanced_world. cbn [applications].
  apply find_one_update_one. intros a. reflexivity.
Qed.

Lemma notified_student_advanced_world (i j next_round : string) (w : World) :
  notified_student (advanced_world utcnow_iso i next_round w) j
  = notified_student w j.
Proof.
  unfold notified_student. rewrite find_one_advanced_world.
  change (users (advanced_world utcnow_iso i next_round w)) with (users w).
  destruct (String.eqb i j); [|reflexivity].
  destruct (find_one (application_has_id j) (applications w)); reflexivity.
Qed.

Lemma stored_advanced_world (i j next_round : string) (w : World) :
  stored (advanced_world utcnow_iso i next_round w) j = stored w j.
Proof.
  unfold stored. rewrite find_one_advanced_world.
  destruct (String.eqb i j); [|reflexivity].
  destruct (find_one (application_has_id j) (applications w)); reflexivity.
Qed.

Lemma select_loop_frame (next_round : string) (ids : list string) :
  forall (w : World) (acc : list (string * string)),
  exists w' : World,
    select_loop utcnow_iso ids next_round acc w
    = (Ok (acc ++ omap (notified_student w) ids)%list, w')
    /\ Forall2 evolves (applications w) (applications w')
    /\ users w' = users w /\ drives w' = drives w
    /\ profiles w' = profiles w
    /\ outbox w' = outbox w /\ error_log w' = error_log w
    /\ clock w' = clock w + length (List.filter (stored w) ids)
    /\ (List.filter (stored w) ids = [] -> w' = w).
Proof.
  induction ids as [|i rest IH]; intros w acc.
  - exists w. cbn [select_loop omap]. rewrite app_nil_r.
    repeat split; try reflexivity; [apply Forall2_evolves_refl | simpl; lia].
  - rewrite select_loop_cons. cbn [List.filter].
    change (omap (notified_student w) (i :: rest))
      with (match notified_student w i with
            | Some y => y :: omap (notified_student w) rest
            | None => omap (notified_student w) rest
            end).
    assert (Hn : notified_student w i
                 = match find_one (application_has_id i) (applications w) with
                   | Some a =>
                       match find_one (user_has_id (Application.student_id a))
                               (users w) with
                       | Some s => Some (User.email s, User.name s)
                       | None => None
                       end
                   | None => None
                   end) by reflexivity.
    assert (Hs : stored w i
                 = match find_one (application_has_id i) (applications w) with
                   | Some _ => true
                   | None => false
                   end) by reflexivity.
    rewrite Hn, Hs. clear Hn Hs.
    destruct (find_one (application_has_id i) (applications w)) as [b|] eqn:Ei.
    + set (acc1 := match find_one _ (users w) with
                   | Some s => (acc ++ _)%list | None => acc end).
      destruct (IH (advanced_world utcnow_iso i next_round w) acc1)
        as (w' & Hrun & Hev & Hu & Hd & Hp & Ho & He & Hc & _).
      exists w'. split.
      { rewrite Hrun. f_equal. f_equal.
        rewrite (omap_pointwise _ (notified_student w) rest)
          by (intros; apply notified_student_advanced_world).
        unfold acc1.
        destruct (find_one (user_has_id (Application.student_id b)) (users w));
          [rewrite <- app_assoc|]; reflexivity. }
      split.
      { eapply Forall2_evolves_trans; [|exact Hev].
        unfold advanced_world. cbn [applications].
        apply update_one_evolves. intros a. apply evolves_advance. }
      split; [exact Hu|]. split; [exact Hd|]. split; [exact Hp|].
      split; [exact Ho|]. split; [exact He|]. split; [|discriminate].
      rewrite Hc. cbn [advanced_world clock length].
      rewrite (filter_ext (stored (advanced_world utcnow_iso i next_round w))
                 (stored w)) by (intros; apply stored_advanced_world).
      lia.
    + destruct (IH w acc) as (w' & Hrun & Hrest). exists w'.
      split; [exact Hrun | exact Hrest].
Qed.

(** The second loop: every mail is either handed over or logged. *)
Lemma send_loop_run (drive : Drive.t) (next_round : string)
    (selected_emails : list (string * string)) :
  forall w : World,
    send_loop send_email drive next_round selected_emails w
    = (Ok tt,
       {| applications := applications w; users := users w;
          drives := drives w; profiles := profiles w; clock := clock w;
          outbox :=
            outbox w
            ++ delivered send_email
                 (selection_mail drive next_round <$> selected_emails);
          error_log :=
            error_log w
            ++ failures send_email
                 (selection_mail drive next_round <$> selected_emails) |}).
Proof.
  induction selected_emails as [|s rest IH]; intros w.
  - destruct w. cbn. rewrite !app_nil_r. reflexivity.
  - cbn [send_loop]. unfold bind at 1. unfold try_send_email.
    rewrite IH. cbn [applications users drives profiles clock outbox error_log].
    rewrite fmap_cons. unfold delivered, failures.
    cbn [List.filter]. 
    change (omap ?f (?m :: ?ms))
      with (match f m with Some y => y :: omap f ms | None => omap f ms end).
    cbv beta.
    destruct (send_email (selection_mail drive next_round s));
      rewrite <- ?app_assoc; reflexivity.
Qed.

(** A request of the placement officer for an existing drive, in full. *)
Lemma select_for_round_run (application_ids : list string)
    (next_round drive_id : string) (current_user : User.t) (w : World)
    (drive : Drive.t) :
  User.role current_user = "tpo" ->
  find_one (drive_has_id drive_id) (drives w) = Some drive ->
  exists w' : World,
    select_for_round utcnow_iso send_email application_ids next_round
      drive_id current_user w
    = (Ok {| message := "Selected " ++ pretty (length application_ids)
                        ++ " students for " ++ next_round;
             emails_sent :=
               length (omap (notified_student w) application_ids) |}, w')
    /\ Forall2 evolves (applications w) (applications w')
    /\ users w' = users w /\ drives w' = drives w
    /\ profiles w' = profiles w
    /\ clock w' = clock w + length (List.filter (stored w) application_ids)
    /\ outbox w'
       = (outbox w
          ++ delivered send_email
               (selection_mail drive next_round
                  <$> omap (notified_student w) application_ids))%list
    /\ error_log w'
       = (error_log w
          ++ failures send_email
               (selection_mail drive next_round
                  <$> omap (notified_student w) application_ids))%list
    /\ (List.filter (stored w) application_ids = [] ->
        applications w' = applications w).
Proof.
  intros Hrole Hdrive.
  destruct (select_loop_frame next_round application_ids w [])
    as (w1 & Hrun & Hev & Hu & Hd & Hp & Ho & He & Hc & Hsame).
  rewrite app_nil_l in Hrun.
  eexists. split.
  { unfold select_for_round. rewrite Hrole.
    change (negb (String.eqb "tpo" "tpo")) with false. cbv iota.
    unfold bind at 1. unfold db_drives_find_one. rewrite Hdrive.
    unfold bind. rewrite Hrun, send_loop_run. reflexivity. }
  cbn [applications users drives profiles clock outbox error_log].
  rewrite Ho, He.
  repeat split; try assumption.
  intros Hnone. rewrite (Hsame Hnone). reflexivity.
Qed.

End SelectFrame.

(** X6: the two placement-office routes keep the stored applications in
    place and their histories append-only.  Whatever the request and its
    outcome, the store afterwards holds the same applications in the same
    order, each with the same identifier, drive, student, status, score
    and application date, and with a [round_history] that extends the one
    it had; users, drives and profiles are untouched. *)
Theorem X6_round_history_is_append_only
    (utcnow_iso : nat -> string) (send_email : Email -> option string)
    (application_ids : list string) (next_round drive_id : string)
    (current_user : User.t) (w : World) :
  (Forall2 evolves (applications w)
     (applications
        (snd (select_for_round utcnow_iso send_email application_ids
                next_round drive_id current_user w)))
   /\ users (snd (select_for_round utcnow_iso send_email application_ids
                    next_round drive_id current_user w)) = users w
   /\ drives (snd (select_for_round utcnow_iso send_email application_ids
                     next_round drive_id current_user w)) = drives w
   /\ profiles (snd (select_for_round utcnow_iso send_email application_ids
                       next_round drive_id current_user w)) = profiles w)
  /\ (Forall2 evolves (applications w)
        (applications (snd (reject_applications application_ids
                              current_user w)))
      /\ users (snd (reject_applications application_ids current_user w))
         = users w
      /\ drives (snd (reject_applications application_ids current_user w))
         = drives w
      /\ profiles (snd (reject_applications application_ids current_user w))
         = profiles w).
Proof.
  split.
  - destruct (String.eqb (User.role current_user) "tpo") eqn:Erole.
    + apply String.eqb_eq in Erole.
      destruct (find_one (drive_has_id drive_id) (drives w)) as [d|] eqn:Ed.
      * destruct (select_for_round_run utcnow_iso send_email application_ids
                    next_round drive_id current_user w d Erole Ed)
          as (w' & Hrun & Hev & Hu & Hd & Hp & _).
        rewrite Hrun. cbn [snd]. repeat split; assumption.
      * unfold select_for_round. rewrite Erole.
        change (negb (String.eqb "tpo" "tpo")) with false. cbv iota.
        unfold bind, db_drives_find_one. rewrite Ed. cbn.
        repeat split. apply Forall2_evolves_refl.
    + unfold select_for_round. rewrite Erole. cbn.
      repeat split. apply Forall2_evolves_refl.
  - destruct (String.eqb (User.role current_user) "tpo") eqn:Erole.
    + unfold reject_applications. rewrite Erole. cbn [negb]. cbv iota.
      unfold bind. rewrite reject_loop_foldl. cbn.
      split; [|repeat split].
      generalize (applications w). induction application_ids as [|i rest IH];
        intros l; cbn [foldl]; [apply Forall2_evolves_refl|].
      eapply Forall2_evolves_trans; [|apply IH].
      apply update_one_evolves, evolves_reject.
    + unfold reject_applications. rewrite Erole. cbn.
      repeat split. apply Forall2_evolves_refl.
Qed.

(** X7: a successful advance request notifies, in batch order, exactly
    the owners of the named applications that are stored and whose user
    record exists: [emails_sent] is their number (at most the length of
    the batch), one mail is attempted for each, and every attempted mail
    ends either in the outbox or as one line of the error log, so a failed
    delivery never stops the batch. *)
Theorem X7_every_selected_student_gets_one_mail_attempt
    (utcnow_iso : nat -> string) (send_email : Email -> option string)
    (application_ids : list string) (next_round drive_id : string)
    (current_user : User.t) (w : World) (drive : Drive.t) :
  User.role current_user = "tpo" ->
  find_one (drive_has_id drive_id) (drives w) = Some drive ->
  exists (resp : SelectResponse) (w' : World),
    select_for_round utcnow_iso send_email application_ids next_round
      drive_id current_user w = (Ok resp, w')
    /\ emails_sent resp = length (omap (notified_student w) application_ids)
    /\ emails_sent resp <= length application_ids
    /\ outbox w'
       = (outbox w
          ++ delivered send_email
               (selection_mail drive next_round
                  <$> omap (notified_student w) application_ids))%list
    /\ error_log w'
       = (error_log w
          ++ failures send_email
               (selection_mail drive next_round
                  <$> omap (notified_student w) application_ids))%list
    /\ length (outbox w') + length (error_log w')
       = length (outbox w) + length (error_log w) + emails_sent resp.
Proof.
  intros Hrole Hdrive.
  destruct (select_for_round_run utcnow_iso send_email application_ids
              next_round drive_id current_user w drive Hrole Hdrive)
    as (w' & Hrun & _ & _ & _ & _ & _ & Ho & He & _).
  eexists _, w'. split; [exact Hrun|]. cbn [emails_sent].
  split; [reflexivity|].
  assert (Hle : forall (f : string -> option (string * string)) l,
             length (omap f l) <= length l).
  { intros f l. induction l as [|x r IH]; [simpl; lia|].
    change (omap f (x :: r))
      with (match f x with Some y => y :: omap f r | None => omap f r end).
    destruct (f x); simpl; lia. }
  split; [apply Hle|]. split; [exact Ho|]. split; [exact He|].
  rewrite Ho, He, !length_app.
  assert (Hsplit : forall ms,
             length (delivered send_email ms) + length (failures send_email ms)
             = length ms).
  { intros ms. induction ms as [|m r IH]; [reflexivity|].
    unfold delivered, failures in *. cbn [List.filter].
    change (omap ?f (m :: r))
      with (match f m with Some y => y :: omap f r | None => omap f r end).
    cbv beta. destruct (send_email m); cbn [length]; lia. }
  specialize (Hsplit (selection_mail drive next_round
                        <$> omap (notified_student w) application_ids)).
  rewrite length_fmap in Hsplit. lia.
Qed.

(** The sample batch with one unknown identifier: three mails. *)
Lemma X7_witness :
  User.role Sample.tpo = "tpo"
  /\ find_one (drive_has_id "d1") (drives Sample.world)
     = Some (Sample.drive "d1")
  /\ exists (resp : SelectResponse) (w' : World),
       select_for_round Sample.utcnow_iso Sample.send_email
         ["a1"; "missing"; "a2"; "a3"] "Coding" "d1" Sample.tpo Sample.world
       = (Ok resp, w')
       /\ emails_sent resp = 3
       /\ length (outbox w') + length (error_log w') = 3.
Proof.
  split; [reflexivity|]. split; [reflexivity|].
  destruct (X7_every_selected_student_gets_one_mail_attempt
              Sample.utcnow_iso Sample.send_email
              ["a1"; "missing"; "a2"; "a3"] "Coding" "d1" Sample.tpo
              Sample.world (Sample.drive "d1") eq_refl eq_refl)
    as (resp & w' & Hrun & Hsent & _ & _ & _ & Hcount).
  exists resp, w'. split; [exact Hrun|].
  split; [exact Hsent|]. rewrite Hcount, Hsent. reflexivity.
Defined.

(** X8: the outcome of a reject request does not depend on the order of
    the identifiers in the batch, and repeating the request changes
    nothing further. *)
Theorem X8_reject_is_order_independent_and_idempotent
    (application_ids application_ids' : list string)
    (current_user : User.t) (w : World) :
  application_ids ≡ₚ application_ids' ->
  applications (snd (reject_applications application_ids current_user w))
  = applications (snd (reject_applications application_ids' current_user w))
  /\ applications
       (snd (reject_applications application_ids current_user
               (snd (reject_applications application_ids current_user w))))
     = applications (snd (reject_applications application_ids current_user w)).
Proof.
  intros Hperm. unfold reject_applications.
  destruct (negb (String.eqb (User.role current_user) "tpo"));
    [split; reflexivity|].
  unfold bind. rewrite !reject_loop_foldl. cbn [snd applications with_applications].
  split; [apply foldl_reject_permutation, Hperm | apply foldl_reject_twice].
Qed.

(** Rejecting a2, a1 and a1, a2. *)
Lemma X8_witness :
  ["a2"; "a1"] ≡ₚ ["a1"; "a2"]
  /\ applications (snd (reject_applications ["a2"; "a1"] Sample.tpo
                          Sample.world))
     = applications (snd (reject_applications ["a1"; "a2"] Sample.tpo
                            Sample.world)).
Proof.
  assert (Hp : ["a2"; "a1"] ≡ₚ ["a1"; "a2"]) by apply Permutation_swap.
  split; [exact Hp|].
  exact (proj1 (X8_reject_is_order_independent_and_idempotent
                  ["a2"; "a1"] ["a1"; "a2"] Sample.tpo Sample.world Hp)).
Defined.

(** X9: a batch none of whose identifiers is stored changes no
    application: a reject request leaves the whole store as it was, and an
    advance request reads no clock, sends no mail and answers
    [emails_sent = 0], while still reporting the length of the batch in
    its message. *)
Theorem X9_unknown_identifiers_change_nothing
    (utcnow_iso : nat -> string) (send_email : Email -> option string)
    (application_ids : list string) (next_round drive_id : string)
    (current_user : User.t) (w : World) (drive : Drive.t) :
  User.role current_user = "tpo" ->
  find_one (drive_has_id drive_id) (drives w) = Some drive ->
  (forall i, i ∈ application_ids -> stored w i = false) ->
  reject_applications application_ids current_user w
  = (Ok {| reject_message := "Rejected " ++ pretty (length application_ids)
                             ++ " applications" |}, w)
  /\ select_for_round utcnow_iso send_email application_ids next_round
       drive_id current_user w
     = (Ok {| message := "Selected " ++ pretty (length application_ids)
                         ++ " students for " ++ next_round;
              emails_sent := 0 |}, w).
Proof.
  intros Hrole Hdrive Hnone.
  assert (Hfilter : List.filter (stored w) application_ids = []).
  { induction application_ids as [|i rest IH]; [reflexivity|].
    cbn [List.filter]. rewrite (Hnone i) by left.
    apply IH. intros j Hj. apply Hnone. right. exact Hj. }
  assert (Homap : omap (notified_student w) application_ids = []).
  { clear Hfilter. induction application_ids as [|i rest IH]; [reflexivity|].
    change (omap (notified_student w) (i :: rest))
      with (match notified_student w i with
            | Some y => y :: omap (notified_student w) rest
            | None => omap (notified_student w) rest
            end).
    assert (Hi : notified_student w i = None).
    { specialize (Hnone i ltac:(left)). unfold stored in Hnone.
      unfold notified_student.
      destruct (find_one (application_has_id i) (applications w));
        [discriminate | reflexivity]. }
    rewrite Hi. apply IH. intros j Hj. apply Hnone. right. exact Hj. }
  split.
  - unfold reject_applications. rewrite Hrole.
    change (negb (String.eqb "tpo" "tpo")) with false. cbv iota.
    unfold bind. rewrite reject_loop_foldl.
    assert (Hfold : foldl (fun l i => update_one (application_has_id i) reject l)
                      (applications w) application_ids = applications w).
    { clear Hfilter Homap.
      induction application_ids as [|i rest IH]; [reflexivity|].
      cbn [foldl]. rewrite update_one_absent.
      - apply IH. intros j Hj. apply Hnone. right. exact Hj.
      - specialize (Hnone i ltac:(left)). unfold stored in Hnone.
        destruct (find_one (application_has_id i) (applications w));
          [discriminate | reflexivity]. }
    rewrite Hfold. destruct w; reflexivity.
  - destruct (select_loop_frame utcnow_iso next_round application_ids w [])
      as (w1 & Hrun & _ & _ & _ & _ & _ & _ & _ & Hsame).
    rewrite (Hsame Hfilter), Homap in Hrun.
    unfold select_for_round. rewrite Hrole.
    change (negb (String.eqb "tpo" "tpo")) with false. cbv iota.
    unfold bind at 1. unfold db_drives_find_one. rewrite Hdrive.
    unfold bind. rewrite Hrun. cbn. destruct w; reflexivity.
Qed.

(** Two identifiers that match nothing in the sample store. *)
Lemma X9_witness :
  User.role Sample.tpo = "tpo"
  /\ find_one (drive_has_id "d1") (drives Sample.world)
     = Some (Sample.drive "d1")
  /\ (forall i, i ∈ ["zz"; "missing"] -> stored Sample.world i = false)
  /\ select_for_round Sample.utcnow_iso Sample.send_email ["zz"; "missing"]
       "HR" "d1" Sample.tpo Sample.world
     = (Ok {| message := "Selected 2 students for HR"; emails_sent := 0 |},
        Sample.world).
Proof.
  assert (Hnone : forall i, i ∈ ["zz"; "missing"] ->
                            stored Sample.world i = false).
  { intros i Hi. apply elem_of_cons in Hi as [->|Hi]; [reflexivity|].
    apply elem_of_cons in Hi as [->|Hi]; [reflexivity|]. inversion Hi. }
  split; [reflexivity|]. split; [reflexivity|]. split; [exact Hnone|].
  exact (proj2 (X9_unknown_identifiers_change_nothing Sample.utcnow_iso
                  Sample.send_email ["zz"; "missing"] "HR" "d1" Sample.tpo
                  Sample.world (Sample.drive "d1") eq_refl eq_refl Hnone)).
Defined.

(* ===================================================================== *)
(** * Applying to a drive *)
(* ===================================================================== *)

Section ApplyFacts.
Variable tfidf_cosine : string -> string -> option Q.
Variable lower : string -> string.
Variable utcnow_iso : nat -> string.

Lemma application_score_range (profile : StudentProfile.t) (drive : Drive.t) :
  (0 <= application_score tfidf_cosine lower profile drive <= 100)%Q.
Proof. unfold application_score, score_resume. apply round2_clamp. Qed.

(** The successful run. *)
Lemma apply_to_drive_ok (new_id drive_id : string) (current_user : User.t)
    (w : World) (profile : StudentProfile.t) (drive : Drive.t) :
  User.role current_user = "student" ->
  find_one (application_of drive_id (User.id current_user)) (applications w)
  = None ->
  find_one (fun p => String.eqb (StudentProfile.user_id p)
                       (User.id current_user)) (profiles w) = Some profile ->
  find_one (drive_has_id drive_id) (drives w) = Some drive ->
  apply_to_drive tfidf_cosine lower utcnow_iso new_id drive_id current_user w
  = (Ok (Application.new new_id drive_id (User.id current_user)
           (application_score tfidf_cosine lower profile drive)
           (utcnow_iso (clock w))),
     {| applications :=
          applications w
          ++ [Application.new new_id drive_id (User.id current_user)
                (application_score tfidf_cosine lower profile drive)
                (utcnow_iso (clock w))];
        users := users w; drives := drives w; profiles := profiles w;
        clock := S (clock w); outbox := outbox w;
        error_log := error_log w |}).
Proof.
  intros Hrole Hnone Hprofile Hdrive.
  unfold apply_to_drive. rewrite Hrole.
  change (negb (String.eqb "student" "student")) with false. cbv iota.
  unfold bind at 1. rewrite Hnone.
  unfold bind at 1. unfold db_profiles_find_one. rewrite Hprofile.
  unfold bind at 1. unfold db_drives_find_one. rewrite Hdrive.
  reflexivity.
Qed.

(** Every refusal leaves the whole state as it was. *)
Lemma apply_to_drive_refused (new_id drive_id : string)
    (current_user : User.t) (w : World) :
  User.role current_user <> "student"
  \/ find_one (application_of drive_id (User.id current_user))
       (applications w) <> None
  \/ find_one (fun p => String.eqb (StudentProfile.user_id p)
                          (User.id current_user)) (profiles w) = None
  \/ find_one (drive_has_id drive_id) (drives w) = None ->
  exists e : HTTPException,
    apply_to_drive tfidf_cosine lower utcnow_iso new_id drive_id current_user w
    = (Raised e, w).
Proof.
  intros H. unfold apply_to_drive.
  destruct (String.eqb (User.role current_user) "student") eqn:Erole;
    [|eexists; reflexivity].
  apply String.eqb_eq in Erole. cbn [negb]. cbv iota.
  unfold bind at 1.
  destruct (find_one (application_of drive_id (User.id current_user))
              (applications w)) eqn:Eex; [eexists; reflexivity|].
  unfold bind at 1. unfold db_profiles_find_one.
  unfold bind at 1. unfold db_drives_find_one.
  destruct (find_one _ (profiles w)) eqn:Ep; [|eexists; reflexivity].
  destruct (find_one (drive_has_id drive_id) (drives w)) eqn:Ed;
    [|eexists; reflexivity].
  exfalso. destruct H as [H|[H|[H|H]]]; congruence.
Qed.

Lemma find_one_app_l {A : Type} (p : A -> bool) (l k : list A) (x : A) :
  find_one p l = Some x -> find_one p (l ++ k) = Some x.
Proof.
  induction l as [|y r IH]; [discriminate|]. simpl.
  destruct (p y); [auto | exact IH].
Qed.

Lemma find_one_app_r {A : Type} (p : A -> bool) (l k : list A) :
  find_one p l = None -> find_one p (l ++ k) = find_one p k.
Proof.
  induction l as [|y r IH]; [reflexivity|]. simpl.
  destruct (p y); [discriminate | exact IH].
Qed.

Lemma find_one_none_pair (drive_id student_id : string)
    (l : list Application.t) :
  find_one (application_of drive_id student_id) l = None ->
  (drive_id, student_id)
  ∉ (fun a => (Application.drive_id a, Application.student_id a)) <$> l.
Proof.
  induction l as [|a r IH]; [intros _ H; inversion H|].
  cbn [find_one].
  destruct (application_of drive_id student_id a) eqn:E; [discriminate|].
  intros Hnone Hin. rewrite fmap_cons in Hin.
  apply elem_of_cons in Hin as [Heq|Hin]; [|exact (IH Hnone Hin)].
  injection Heq as Hd Hs. unfold application_of in E.
  rewrite <- Hd, <- Hs, !String.eqb_refl in E. discriminate.
Qed.

End ApplyFacts.

(** X10: [apply_to_drive] succeeds exactly when the caller is a student,
    has no application for the drive yet, has a profile, and the drive
    exists.  It then stores exactly one new application after the existing
    ones: round "Applied", empty history, the score [score_resume] gives
    for the profile and the drive, which lies in [[0, 100]].  In every
    other case the request is refused and nothing at all is changed. *)
Theorem X10_apply_to_drive_outcomes
    (tfidf_cosine : string -> string -> option Q) (lower : string -> string)
    (utcnow_iso : nat -> string) (new_id drive_id : string)
    (current_user : User.t) (w : World) :
  (forall (profile : StudentProfile.t) (drive : Drive.t),
     User.role current_user = "student" ->
     find_one (application_of drive_id (User.id current_user))
       (applications w) = None ->
     find_one (fun p => String.eqb (StudentProfile.user_id p)
                          (User.id current_user)) (profiles w)
     = Some profile ->
     find_one (drive_has_id drive_id) (drives w) = Some drive ->
     exists (a : Application.t) (w' : World),
       apply_to_drive tfidf_cosine lower utcnow_iso new_id drive_id
         current_user w = (Ok a, w')
       /\ applications w' = (applications w ++ [a])%list
       /\ users w' = users w /\ drives w' = drives w
       /\ profiles w' = profiles w
       /\ Application.id a = new_id
       /\ Application.drive_id a = drive_id
       /\ Application.student_id a = User.id current_user
       /\ Application.current_round a = "Applied"
       /\ Application.round_history a = []
       /\ exists score : Q,
            Application.ai_score a = Some score
            /\ score
               = score_resume tfidf_cosine lower
                   (default "" (StudentProfile.resume_text profile))
                   (StudentProfile.skills profile)
                   (StudentProfile.cgpa profile)
                   (Drive.description drive)
                   (Drive.required_skills drive)
                   (Drive.min_cgpa drive)
            /\ (0 <= score <= 100)%Q)
  /\ (User.role current_user <> "student"
      \/ find_one (application_of drive_id (User.id current_user))
           (applications w) <> None
      \/ find_one (fun p => String.eqb (StudentProfile.user_id p)
                              (User.id current_user)) (profiles w) = None
      \/ find_one (drive_has_id drive_id) (drives w) = None ->
      exists e : HTTPException,
        apply_to_drive tfidf_cosine lower utcnow_iso new_id drive_id
          current_user w = (Raised e, w)).
Proof.
  split.
  - intros profile drive Hrole Hnone Hprofile Hdrive.
    eexists _, _. split.
    { apply (apply_to_drive_ok tfidf_cosine lower utcnow_iso new_id drive_id
               current_user w profile drive); assumption. }
    cbn. repeat split; try reflexivity.
    eexists. split; [reflexivity|]. split; [reflexivity|].
    apply application_score_range.
  - apply apply_to_drive_refused.
Qed.

(** Student s3 applies to the second drive; student s1 applies again to
    the first. *)
Lemma X10_witness :
  (exists (a : Application.t) (w' : World),
     apply_to_drive Campus.tfidf_cosine Py.lower_ascii Sample.utcnow_iso
       "a7" "d2" (Sample.student_user "s3") Campus.world = (Ok a, w')
     /\ applications w' = (applications Campus.world ++ [a])%list
     /\ Application.ai_score a = Some (3443 # 100)%Q)
  /\ (exists e : HTTPException,
        apply_to_drive Campus.tfidf_cosine Py.lower_ascii Sample.utcnow_iso
          "a8" "d1" (Sample.student_user "s1") Campus.world
        = (Raised e, Campus.world)).
Proof.
  split.
  - destruct (proj1 (X10_apply_to_drive_outcomes Campus.tfidf_cosine
                       Py.lower_ascii Sample.utcnow_iso "a7" "d2"
                       (Sample.student_user "s3") Campus.world)
                (Campus.profile "s3" "CS003" (62 # 10) ["Python"; "Java"])
                (Sample.drive "d2") eq_refl eq_refl eq_refl eq_refl)
      as (a & w' & Hrun & Happs & _ & _ & _ & _ & _ & _ & _ & _
          & score & Hscore & Heq & _).
    exists a, w'. split; [exact Hrun|]. split; [exact Happs|].
    rewrite Hscore, Heq. vm_compute. reflexivity.
  - apply (proj2 (X10_apply_to_drive_outcomes Campus.tfidf_cosine
                    Py.lower_ascii Sample.utcnow_iso "a8" "d1"
                    (Sample.student_user "s1") Campus.world)).
    right. left. discriminate.
Defined.

(** X11: a second application of the same student to the same drive is
    refused with status 400 "Already applied to this drive", whatever
    identifier the new application would get, and changes nothing. *)
Theorem X11_second_application_is_refused
    (tfidf_cosine : string -> string -> option Q) (lower : string -> string)
    (utcnow_iso : nat -> string) (new_id new_id' drive_id : string)
    (current_user : User.t) (w w' : World) (a : Application.t) :
  apply_to_drive tfidf_cosine lower utcnow_iso new_id drive_id current_user w
  = (Ok a, w') ->
  apply_to_drive tfidf_cosine lower utcnow_iso new_id' drive_id current_user w'
  = (Raised {| status_code := 400;
               detail := "Already applied to this drive" |}, w').
Proof.
  intros Hrun.
  assert (Hrefused : forall P : Prop,
             (User.role current_user <> "student"
              \/ find_one (application_of drive_id (User.id current_user))
                   (applications w) <> None
              \/ find_one (fun p => String.eqb (StudentProfile.user_id p)
                                      (User.id current_user)) (profiles w)
                 = None
              \/ find_one (drive_has_id drive_id) (drives w) = None) -> P).
  { intros P H.
    destruct (apply_to_drive_refused tfidf_cosine lower utcnow_iso new_id
                drive_id current_user w H) as (e & He).
    rewrite He in Hrun. discriminate. }
  destruct (String.eqb (User.role current_user) "student") eqn:Erole;
    [|apply Hrefused; left; intros E; rewrite E in Erole; discriminate].
  destruct (find_one (application_of drive_id (User.id current_user))
              (applications w)) eqn:Eex;
    [apply Hrefused; right; left; discriminate|].
  destruct (find_one (fun p => String.eqb (StudentProfile.user_id p)
                                 (User.id current_user)) (profiles w))
    as [profile|] eqn:Ep;
    [|apply Hrefused; right; right; left; reflexivity].
  destruct (find_one (drive_has_id drive_id) (drives w)) as [drive|] eqn:Ed;
    [|apply Hrefused; right; right; right; reflexivity].
  clear Hrefused.
  apply String.eqb_eq in Erole.
  rewrite (apply_to_drive_ok tfidf_cosine lower utcnow_iso new_id drive_id
             current_user w profile drive Erole Eex Ep Ed) in Hrun.
  injection Hrun as <- <-.
  unfold apply_to_drive. rewrite Erole.
  change (negb (String.eqb "student" "student")) with false. cbv iota.
  unfold bind at 1. cbn [applications].
  rewrite find_one_app_r by exact Eex. cbn [find_one].
  unfold application_of at 1. cbn [Application.new Application.drive_id
                                    Application.student_id].
  rewrite !String.eqb_refl. reflexivity.
Qed.

(** Student s3 applies twice to the second drive. *)
Lemma X11_witness :
  exists (a : Application.t) (w' : World),
    apply_to_drive Campus.tfidf_cosine Py.lower_ascii Sample.utcnow_iso
      "a7" "d2" (Sample.student_user "s3") Campus.world = (Ok a, w')
    /\ apply_to_drive Campus.tfidf_cosine Py.lower_ascii Sample.utcnow_iso
         "a9" "d2" (Sample.student_user "s3") w'
       = (Raised {| status_code := 400;
                    detail := "Already applied to this drive" |}, w').
Proof.
  pose proof (apply_to_drive_ok Campus.tfidf_cosine Py.lower_ascii
                Sample.utcnow_iso "a7" "d2" (Sample.student_user "s3")
                Campus.world
                (Campus.profile "s3" "CS003" (62 # 10) ["Python"; "Java"])
                (Sample.drive "d2") eq_refl eq_refl eq_refl eq_refl) as Hrun.
  eexists _, _. split; [exact Hrun|].
  exact (X11_second_application_is_refused Campus.tfidf_cosine Py.lower_ascii
           Sample.utcnow_iso "a7" "a9" "d2" (Sample.student_user "s3")
           Campus.world _ _ Hrun).
Defined.

(** X12: [apply_to_drive] keeps the store free of double applications: if
    no two stored applications share their (drive, student) pair before
    the request, none do after it, whatever its outcome. *)
Theorem X12_one_application_per_student_and_drive
    (tfidf_cosine : string -> string -> option Q) (lower : string -> string)
    (utcnow_iso : nat -> string) (new_id drive_id : string)
    (current_user : User.t) (w : World) :
  one_application_per_pair (applications w) ->
  one_application_per_pair
    (applications
       (snd (apply_to_drive tfidf_cosine lower utcnow_iso new_id drive_id
               current_user w))).
Proof.
  intros Hinv.
  destruct (String.eqb (User.role current_user) "student") eqn:Erole.
  2: { destruct (apply_to_drive_refused tfidf_cosine lower utcnow_iso new_id
                   drive_id current_user w) as (e & ->); [|exact Hinv].
       left. intros E. rewrite E in Erole. discriminate. }
  apply String.eqb_eq in Erole.
  destruct (find_one (application_of drive_id (User.id current_user))
              (applications w)) eqn:Eex.
  { destruct (apply_to_drive_refused tfidf_cosine lower utcnow_iso new_id
                drive_id current_user w) as (e & ->); [|exact Hinv].
    right. left. congruence. }
  destruct (find_one (fun p => String.eqb (StudentProfile.user_id p)
                                 (User.id current_user)) (profiles w))
    as [profile|] eqn:Ep.
  2: { destruct (apply_to_drive_refused tfidf_cosine lower utcnow_iso new_id
                   drive_id current_user w) as (e & ->); [|exact Hinv].
       right. right. left. exact Ep. }
  destruct (find_one (drive_has_id drive_id) (drives w)) as [drive|] eqn:Ed.
  2: { destruct (apply_to_drive_refused tfidf_cosine lower utcnow_iso new_id
                   drive_id current_user w) as (e & ->); [|exact Hinv].
       right. right. right. exact Ed. }
  rewrite (apply_to_drive_ok tfidf_cosine lower utcnow_iso new_id drive_id
             current_user w profile drive Erole Eex Ep Ed).
  cbn [snd applications]. unfold one_application_per_pair in *.
  rewrite fmap_app. apply NoDup_app. split; [exact Hinv|]. split.
  - intros pair Hin Hnew. cbn in Hnew.
    apply list_elem_of_singleton in Hnew. subst pair.
    exact (find_one_none_pair drive_id (User.id current_user) _ Eex Hin).
  - cbn. apply NoDup_singleton.
Qed.

(** The sample store holds one application per pair, also after s3
    applies to the second drive. *)
Lemma X12_witness :
  one_application_per_pair (applications Campus.world)
  /\ one_application_per_pair
       (applications
          (snd (apply_to_drive Campus.tfidf_cosine Py.lower_ascii
                  Sample.utcnow_iso "a7" "d2" (Sample.student_user "s3")
                  Campus.world))).
Proof.
  assert (Hinv : one_application_per_pair (applications Campus.world)).
  { unfold one_application_per_pair.
    apply (bool_decide_unpack (NoDup _)). vm_compute. reflexivity. }
  split; [exact Hinv|].
  exact (X12_one_application_per_student_and_drive Campus.tfidf_cosine
           Py.lower_ascii Sample.utcnow_iso "a7" "d2"
           (Sample.student_user "s3") Campus.world Hinv).
Defined.

Section MyApplicationsFacts.

Lemma attach_drives_eq (l : list Application.t) (w : World) :
  attach_drives l w = (Ok (with_drive w <$> l), w).
Proof.
  induction l as [|a l IH]; [reflexivity|].
  cbn [attach_drives]. unfold bind, db_drives_find_one, ret.
  rewrite IH. reflexivity.
Qed.

Lemma get_my_applications_eq (current_user : User.t) (w : World) :
  User.role current_user = "student" ->
  get_my_applications current_user w
  = (Ok (with_drive w
           <$> find_to_list
                 (fun a => String.eqb (Application.student_id a)
                             (User.id current_user))
                 1000 (applications w)), w).
Proof.
  intros Hrole. unfold get_my_applications. rewrite Hrole.
  change (negb (String.eqb "student" "student")) with false. cbv iota.
  unfold bind. apply attach_drives_eq.
Qed.

End MyApplicationsFacts.

(** X13: [get_my_applications] never shows another student's data and
    never changes the state: a caller who is not a student is refused with
    status 403; a student gets at most 1000 entries, each one a stored
    application whose [student_id] is the caller's identifier, in storage
    order, together with the drive stored under its [drive_id]. *)
Theorem X13_my_applications_are_the_callers_own
    (current_user : User.t) (w : World) :
  snd (get_my_applications current_user w) = w
  /\ (User.role current_user <> "student" ->
      fst (get_my_applications current_user w)
      = Raised {| status_code := 403;
                  detail := "Only students can view their applications" |})
  /\ (User.role current_user = "student" ->
      exists out : list MyApplication,
        fst (get_my_applications current_user w) = Ok out
        /\ length out <= 1000
        /\ my_app <$> out
             `prefix_of`
             List.filter
               (fun a => String.eqb (Application.student_id a)
                           (User.id current_user)) (applications w)
        /\ Forall
             (fun m =>
                Application.student_id (my_app m) = User.id current_user
                /\ my_app m ∈ applications w
                /\ my_drive m
                   = find_one
                       (drive_has_id (Application.drive_id (my_app m)))
                       (drives w)) out).
Proof.
  destruct (String.eqb (User.role current_user) "student") eqn:Erole.
  - apply String.eqb_eq in Erole.
    rewrite (get_my_applications_eq current_user w Erole). cbn [fst snd].
    split; [reflexivity|]. split; [congruence|]. intros _.
    eexists. split; [reflexivity|].
    unfold find_to_list.
    split; [rewrite length_fmap, length_take; lia|].
    split.
    + rewrite <- list_fmap_compose.
      rewrite (list_fmap_ext _ id (take 1000 _) ) by reflexivity.
      rewrite list_fmap_id. apply prefix_take.
    + apply Forall_fmap. apply Forall_forall. intros a Ha.
      apply elem_of_take in Ha as (k & Ha & _).
      apply list_elem_of_lookup_2 in Ha.
      apply list_elem_of_In, filter_In in Ha as [Hin Hp].
      cbn. split; [apply String.eqb_eq, Hp|].
      split; [apply list_elem_of_In, Hin | reflexivity].
  - assert (Hne : User.role current_user <> "student")
      by (intros E; rewrite E in Erole; discriminate).
    unfold get_my_applications. rewrite Erole. cbn.
    split; [reflexivity|]. split; [reflexivity|]. intros E. contradiction.
Qed.

(** Student s1 in the sample store: two applications, both with their
    drive. *)
Lemma X13_witness :
  User.role (Sample.student_user "s1") = "student"
  /\ exists out : list MyApplication,
       fst (get_my_applications (Sample.student_user "s1") Sample.world)
       = Ok out
       /\ my_app <$> out = [Sample.a1; Sample.a5]
       /\ Forall
            (fun m =>
               Application.student_id (my_app m)
               = User.id (Sample.student_user "s1")
               /\ my_app m ∈ applications Sample.world
               /\ my_drive m
                  = find_one
                      (drive_has_id (Application.drive_id (my_app m)))
                      (drives Sample.world)) out.
Proof.
  split; [reflexivity|].
  destruct (proj2 (proj2 (X13_my_applications_are_the_callers_own
                            (Sample.student_user "s1") Sample.world))
              eq_refl) as (out & Hout & _ & _ & Hall).
  exists out. split; [exact Hout|]. split; [|exact Hall].
  cbn in Hout. injection Hout as <-. reflexivity.
Defined.

(** X14: after a successful [apply_to_drive], the student's own list
    ends with the new application, shown with the drive applied to,
    provided fewer than 1000 of the student's applications were stored
    before; the earlier entries are as they were. *)
Theorem X14_new_application_shows_in_my_applications
    (tfidf_cosine : string -> string -> option Q) (lower : string -> string)
    (utcnow_iso : nat -> string) (new_id drive_id : string)
    (current_user : User.t) (w w' : World) (a : Application.t) :
  apply_to_drive tfidf_cosine lower utcnow_iso new_id drive_id current_user w
  = (Ok a, w') ->
  length (List.filter
            (fun a => String.eqb (Application.student_id a)
                        (User.id current_user)) (applications w)) < 1000 ->
  exists (out : list MyApplication) (drive : Drive.t),
    get_my_applications current_user w = (Ok out, w)
    /\ find_one (drive_has_id drive_id) (drives w) = Some drive
    /\ get_my_applications current_user w'
       = (Ok (out ++ [{| my_app := a; my_drive := Some drive |}])%list, w').
Proof.
  intros Hrun Hfew.
  assert (Hrefused : forall P : Prop,
             (User.role current_user <> "student"
              \/ find_one (application_of drive_id (User.id current_user))
                   (applications w) <> None
              \/ find_one (fun p => String.eqb (StudentProfile.user_id p)
                                      (User.id current_user)) (profiles w)
                 = None
              \/ find_one (drive_has_id drive_id) (drives w) = None) -> P).
  { intros P H.
    destruct (apply_to_drive_refused tfidf_cosine lower utcnow_iso new_id
                drive_id current_user w H) as (e & He).
    rewrite He in Hrun. discriminate. }
  destruct (String.eqb (User.role current_user) "student") eqn:Erole;
    [|apply Hrefused; left; intros E; rewrite E in Erole; discriminate].
  destruct (find_one (application_of drive_id (User.id current_user))
              (applications w)) eqn:Eex;
    [apply Hrefused; right; left; discriminate|].
  destruct (find_one (fun p => String.eqb (StudentProfile.user_id p)
                                 (User.id current_user)) (profiles w))
    as [profile|] eqn:Ep;
    [|apply Hrefused; right; right; left; reflexivity].
  destruct (find_one (drive_has_id drive_id) (drives w)) as [drive|] eqn:Ed;
    [|apply Hrefused; right; right; right; reflexivity].
  clear Hrefused. apply String.eqb_eq in Erole.
  rewrite (apply_to_drive_ok tfidf_cosine lower utcnow_iso new_id drive_id
             current_user w profile drive Erole Eex Ep Ed) in Hrun.
  injection Hrun as <- <-.
  eexists _, drive. split; [apply get_my_applications_eq, Erole|].
  split; [reflexivity|].
  rewrite get_my_applications_eq by exact Erole.
  cbn [applications]. unfold find_to_list.
  rewrite List.filter_app. cbn [List.filter Application.new
                                  Application.student_id].
  rewrite String.eqb_refl.
  rewrite !take_ge by (rewrite ?length_app; cbn [length]; lia).
  rewrite fmap_app. f_equal.
  unfold with_drive at 2. cbn [fmap list_fmap drives Application.new
                                 Application.drive_id my_app].
  rewrite Ed. reflexivity.
Qed.

(** Student s3 applies to the second drive and looks at the list. *)
Lemma X14_witness :
  exists (a : Application.t) (w' : World) (out : list MyApplication),
    apply_to_drive Campus.tfidf_cosine Py.lower_ascii Sample.utcnow_iso
      "a7" "d2" (Sample.student_user "s3") Campus.world = (Ok a, w')
    /\ get_my_applications (Sample.student_user "s3") Campus.world
       = (Ok out, Campus.world)
    /\ my_app <$> out = [Sample.a3]
    /\ get_my_applications (Sample.student_user "s3") w'
       = (Ok (out ++ [{| my_app := a;
                         my_drive := Some (Sample.drive "d2") |}])%list, w').
Proof.
  pose proof (apply_to_drive_ok Campus.tfidf_cosine Py.lower_ascii
                Sample.utcnow_iso "a7" "d2" (Sample.student_user "s3")
                Campus.world
                (Campus.profile "s3" "CS003" (62 # 10) ["Python"; "Java"])
                (Sample.drive "d2") eq_refl eq_refl eq_refl eq_refl) as Hrun.
  assert (Hfew : length (List.filter
                           (fun a => String.eqb (Application.student_id a)
                                       (User.id (Sample.student_user "s3")))
                           (applications Campus.world)) < 1000)
    by (vm_compute; lia).
  destruct (X14_new_application_shows_in_my_applications Campus.tfidf_cosine
              Py.lower_ascii Sample.utcnow_iso "a7" "d2"
              (Sample.student_user "s3") Campus.world _ _ Hrun Hfew)
    as (out & drive & Hbefore & Hdrive & Hafter).
  injection Hdrive as <-.
  eexists _, _, out. split; [exact Hrun|]. split; [exact Hbefore|].
  split; [|exact Hafter].
  rewrite get_my_applications_eq in Hbefore by reflexivity.
  injection Hbefore as <-. reflexivity.
Defined.

(* ===================================================================== *)
(** * Approvals and profiles *)
(* ===================================================================== *)

Section ApprovalFacts.

Lemma update_one_touches {A : Type} (p : A -> bool) (f : A -> A)
    (l : list A) :
  Forall2 (fun x y => y = x \/ (y = f x /\ p x = true)) l (update_one p f l).
Proof.
  induction l as [|x r IH]; simpl; [constructor|].
  destruct (p x) eqn:E; constructor.
  - right. split; [reflexivity | exact E].
  - clear. induction r; constructor; [left; reflexivity | assumption].
  - left. reflexivity.
  - exact IH.
Qed.

Lemma pending_after_approval (student_id : string)
    (department : option string) (l : list User.t) :
  NoDup (User.id <$> l) ->
  List.filter (pending_in department)
    (update_one (user_in_department student_id department) set_approved l)
  = List.filter (fun u => negb (String.eqb (User.id u) student_id))
      (List.filter (pending_in department) l).
Proof.
  induction l as [|u r IH]; intros Hnd; [reflexivity|].
  rewrite fmap_cons in Hnd. apply NoDup_cons in Hnd as [Hfresh Hnd].
  cbn [update_one].
  destruct (user_in_department student_id department u) eqn:Eq.
  - unfold user_in_department in Eq. apply andb_true_iff in Eq as [Eid Edep].
    cbn [List.filter].
    assert (Hp : pending_in department (set_approved u) = false).
    { unfold pending_in. cbn. rewrite andb_false_r. reflexivity. }
    rewrite Hp.
    assert (Hrest : List.filter
                      (fun v => negb (String.eqb (User.id v) student_id))
                      (List.filter (pending_in department) r)
                    = List.filter (pending_in department) r).
    { apply String.eqb_eq in Eid.
      rewrite (filter_ext_in
                 (fun v => negb (String.eqb (User.id v) student_id))
                 (fun _ => true)).
      - clear. induction (List.filter (pending_in department) r) as [|x k IH];
          [reflexivity|]. cbn [List.filter]. rewrite IH. reflexivity.
      - intros v Hv. apply filter_In in Hv as [Hv _].
        destruct (String.eqb (User.id v) student_id) eqn:Ev; [|reflexivity].
        apply String.eqb_eq in Ev. exfalso. apply Hfresh.
        rewrite Eid, <- Ev. apply list_elem_of_fmap.
        exists v. split; [reflexivity | apply list_elem_of_In, Hv]. }
    destruct (pending_in department u); cbn [List.filter];
      [rewrite Eid; cbn [negb]|]; rewrite Hrest; reflexivity.
  - cbn [List.filter].
    destruct (pending_in department u) eqn:Ep; cbn [List.filter].
    + destruct (String.eqb (User.id u) student_id) eqn:Eid.
      * exfalso. unfold user_in_department in Eq. rewrite Eid in Eq.
        unfold pending_in in Ep.
        apply andb_true_iff in Ep as [Ep _].
        apply andb_true_iff in Ep as [_ Ep].
        rewrite Ep in Eq. discriminate.
      * cbn [negb]. rewrite (IH Hnd). reflexivity.
    + apply IH, Hnd.
Qed.

Lemma update_one_split {A : Type} (p : A -> bool) (f : A -> A)
    (l : list A) :
  (Forall (fun x => p x = false) l /\ update_one p f l = l)
  \/ exists (before after : list A) (x : A),
       l = (before ++ x :: after)%list
       /\ Forall (fun y => p y = false) before
       /\ p x = true
       /\ update_one p f l = (before ++ f x :: after)%list.
Proof.
  induction l as [|x r IH]; [left; split; [constructor | reflexivity]|].
  cbn [update_one]. destruct (p x) eqn:E.
  - right. exists [], r, x. repeat split; [constructor | exact E].
  - destruct IH as [[Hnone Hsame] | (before & after & y & Hl & Hb & Hy & Hu)].
    + left. split; [constructor; assumption | rewrite Hsame; reflexivity].
    + right. exists (x :: before), after, y.
      split; [rewrite Hl; reflexivity|].
      split; [constructor; assumption|].
      split; [exact Hy | rewrite Hu; reflexivity].
Qed.

Lemma user_in_department_false (student_id : string)
    (department : option string) (u : User.t) :
  user_in_department student_id department u = false ->
  ~ (User.id u = student_id /\ User.department u = department).
Proof.
  unfold user_in_department. intros H [Hid Hdep].
  rewrite Hid, String.eqb_refl in H.
  rewrite bool_decide_eq_true_2 in H by exact Hdep. discriminate H.
Qed.

End ApprovalFacts.

(** X15: [approve_student] stays inside the caller's department and
    touches nothing but the approval flag.  A caller who is not a head of
    department is refused with status 403 and no user changes.  For a head
    of department the request answers "Student approved successfully";
    when no stored user has the named identifier and the caller's
    department, no user changes; otherwise the stored users are those of
    before with the first such user replaced, in place, by a copy whose
    [is_approved] is true and whose other fields are as they were, every
    other user, also a later one with the same identifier and department,
    being left as it was.  Applications, drives and profiles are
    unchanged. *)
Theorem X15_approval_stays_in_the_department
    (student_id : string) (current_user : User.t) (w : World) :
  applications (snd (approve_student student_id current_user w))
  = applications w
  /\ drives (snd (approve_student student_id current_user w)) = drives w
  /\ profiles (snd (approve_student student_id current_user w)) = profiles w
  /\ Forall2
       (fun u u' =>
          u' = u
          \/ (u' = set_approved u
              /\ User.role current_user = "hod"
              /\ User.id u = student_id
              /\ User.department u = User.department current_user))
       (users w) (users (snd (approve_student student_id current_user w)))
  /\ ((User.role current_user <> "hod"
       /\ fst (approve_student student_id current_user w)
          = Raised {| status_code := 403;
                      detail := "Only HOD can approve students" |}
       /\ users (snd (approve_student student_id current_user w)) = users w)
      \/ (User.role current_user = "hod"
          /\ fst (approve_student student_id current_user w)
             = Ok "Student approved successfully"
          /\ Forall
               (fun u =>
                  ~ (User.id u = student_id
                     /\ User.department u = User.department current_user))
               (users w)
          /\ users (snd (approve_student student_id current_user w))
             = users w)
      \/ (User.role current_user = "hod"
          /\ fst (approve_student student_id current_user w)
             = Ok "Student approved successfully"
          /\ exists (before after : list User.t) (u u' : User.t),
               users w = (before ++ u :: after)%list
               /\ Forall
                    (fun v =>
                       ~ (User.id v = student_id
                          /\ User.department v
                             = User.department current_user))
                    before
               /\ User.id u = student_id
               /\ User.department u = User.department current_user
               /\ users (snd (approve_student student_id current_user w))
                  = (before ++ u' :: after)%list
               /\ User.is_approved u' = true
               /\ User.id u' = User.id u
               /\ User.email u' = User.email u
               /\ User.name u' = User.name u
               /\ User.role u' = User.role u
               /\ User.department u' = User.department u)).
Proof.
  unfold approve_student.
  destruct (String.eqb (User.role current_user) "hod") eqn:Erole; cbn.
  - apply String.eqb_eq in Erole.
    split; [reflexivity|]. split; [reflexivity|]. split; [reflexivity|].
    split.
    { eapply Forall2_impl;
        [apply (update_one_touches
                  (user_in_department student_id
                     (User.department current_user))
                  set_approved)|].
      intros u u' [H|[H Hq]]; [left; exact H|right].
      unfold user_in_department in Hq.
      apply andb_true_iff in Hq as [Hid Hdep].
      apply String.eqb_eq in Hid. apply bool_decide_eq_true in Hdep.
      repeat split; assumption. }
    right.
    destruct (update_one_split
                (user_in_department student_id (User.department current_user))
                set_approved (users w))
      as [[Hnone Hsame] | (before & after & u & Hl & Hb & Hu & Hupd)].
    + left. split; [exact Erole|]. split; [reflexivity|].
      split; [|exact Hsame].
      eapply Forall_impl; [exact Hnone|].
      intros u. apply user_in_department_false.
    + right. split; [exact Erole|]. split; [reflexivity|].
      exists before, after, u, (set_approved u).
      unfold user_in_department in Hu.
      apply andb_true_iff in Hu as [Hid Hdep].
      apply String.eqb_eq in Hid. apply bool_decide_eq_true in Hdep.
      split; [exact Hl|]. split.
      { eapply Forall_impl; [exact Hb|].
        intros v. apply user_in_department_false. }
      split; [exact Hid|]. split; [exact Hdep|]. split; [exact Hupd|].
      repeat split.
  - split; [reflexivity|]. split; [reflexivity|]. split; [reflexivity|].
    split.
    { clear. induction (users w); constructor;
        [left; reflexivity | assumption]. }
    left. split; [|split; reflexivity].
    intros H. rewrite H in Erole. discriminate Erole.
Qed.

(** Two stored users carry the identifier s8 in the department CSE, and
    the head of that department approves s8: the request is answered, the
    first of the two is replaced by an approved copy, and the users before
    and after it, the second s8 among them, are as they were. *)
Lemma X15_witness :
  exists (before after : list User.t) (u u' : User.t),
    (users Campus.world ++ [Campus.pending_student "s8" "CSE"])%list
    = (before ++ u :: after)%list
    /\ Forall (fun v => ~ (User.id v = "s8"
                           /\ User.department v = Some "CSE")) before
    /\ User.id u = "s8"
    /\ users (snd (approve_student "s8" Campus.hod
                     (with_users
                        (users Campus.world
                         ++ [Campus.pending_student "s8" "CSE"])%list
                        Campus.world)))
       = (before ++ u' :: after)%list
    /\ User.is_approved u' = true
    /\ User.name u' = User.name u.
Proof.
  destruct (X15_approval_stays_in_the_department "s8" Campus.hod
              (with_users
                 (users Campus.world
                  ++ [Campus.pending_student "s8" "CSE"])%list
                 Campus.world))
    as (_ & _ & _ & _ & [(Hrole & _) | [(_ & _ & Hnone & _) | (_ & _ & H)]]).
  - exfalso. apply Hrole. reflexivity.
  - exfalso.
    apply (proj1 (Forall_forall _ _)) with
      (x := Campus.pending_student "s8" "CSE") in Hnone.
    + apply Hnone. split; reflexivity.
    + apply list_elem_of_In. vm_compute. tauto.
  - destruct H as (before & after & u & u' & Hl & Hb & Hid & _ & Hupd
                   & Happroved & _ & _ & Hname & _).
    exists before, after, u, u'.
    split; [exact Hl|]. split; [exact Hb|]. split; [exact Hid|].
    split; [exact Hupd|]. split; [exact Happroved | exact Hname].
Defined.

(** X16: with unique user identifiers and at most 1000 pending students
    in the department, approving a student removes exactly that student
    from the head of department's pending list: the list after the
    approval is the list before it without the entries carrying the
    approved identifier, in the same order. *)
Theorem X16_approved_student_leaves_the_pending_list
    (student_id : string) (current_user : User.t) (w : World) :
  User.role current_user = "hod" ->
  NoDup (User.id <$> users w) ->
  length (List.filter (pending_in (User.department current_user)) (users w))
  <= 1000 ->
  exists pending : list User.t,
    get_pending_approvals current_user w = (Ok pending, w)
    /\ fst (get_pending_approvals current_user
              (snd (approve_student student_id current_user w)))
       = Ok (List.filter
               (fun u => negb (String.eqb (User.id u) student_id)) pending).
Proof.
  intros Hrole Hnd Hfew.
  unfold get_pending_approvals, approve_student. rewrite Hrole.
  change (negb (String.eqb "hod" "hod")) with false. cbv iota.
  eexists. split; [reflexivity|]. cbn [fst snd bind ret].
  unfold bind. cbn [fst snd users with_users]. f_equal.
  unfold find_to_list.
  rewrite pending_after_approval by exact Hnd.
  rewrite (take_ge (List.filter (pending_in _) (users w))) by exact Hfew.
  apply take_ge.
  etransitivity; [|exact Hfew].
  clear. induction (List.filter (pending_in _) (users w)) as [|x k IH];
    [reflexivity|].
  cbn [List.filter]. destruct (negb _); cbn [length]; lia.
Qed.

(** The head of CSE approves the pending student s8. *)
Lemma X16_witness :
  User.role Campus.hod = "hod"
  /\ NoDup (User.id <$> users Campus.world)
  /\ User.id <$> List.filter (pending_in (User.department Campus.hod))
                   (users Campus.world) = ["s8"]
  /\ exists pending : list User.t,
       get_pending_approvals Campus.hod Campus.world
       = (Ok pending, Campus.world)
       /\ fst (get_pending_approvals Campus.hod
                 (snd (approve_student "s8" Campus.hod Campus.world)))
          = Ok (List.filter
                  (fun u => negb (String.eqb (User.id u) "s8")) pending).
Proof.
  assert (Hnd : NoDup (User.id <$> users Campus.world))
    by (apply (bool_decide_unpack (NoDup _)); vm_compute; reflexivity).
  assert (Hfew : length (List.filter
                           (pending_in (User.department Campus.hod))
                           (users Campus.world)) <= 1000)
    by (vm_compute; lia).
  split; [reflexivity|]. split; [exact Hnd|]. split; [reflexivity|].
  exact (X16_approved_student_leaves_the_pending_list "s8" Campus.hod
           Campus.world eq_refl Hnd Hfew).
Defined.

(** X17: a profile posted by a student is stored after the existing
    ones, and the profile lookup keeps returning the first profile stored
    for the student: when the student had no profile, [get_profile]
    afterwards returns the new one; when the student already had one,
    [get_profile] still returns the old one, so posting a profile again
    does not replace it. *)
Theorem X17_first_profile_is_the_one_returned
    (profile_data : ProfileData) (current_user : User.t) (w : World) :
  User.role current_user = "student" ->
  exists (p : StudentProfile.t) (w' : World),
    create_profile profile_data current_user w = (Ok p, w')
    /\ profiles w' = (profiles w ++ [p])%list
    /\ StudentProfile.user_id p = User.id current_user
    /\ StudentProfile.resume_text p = None
    /\ StudentProfile.skills p = default [] (pd_skills profile_data)
    /\ (forall old : StudentProfile.t,
          get_profile current_user w = (Ok (Some old), w) ->
          get_profile current_user w' = (Ok (Some old), w'))
    /\ (get_profile current_user w = (Ok None, w) ->
        get_profile current_user w' = (Ok (Some p), w')).
Proof.
  intros Hrole. unfold create_profile, get_profile. rewrite Hrole.
  change (negb (String.eqb "student" "student")) with false. cbv iota.
  eexists _, _. split; [reflexivity|].
  cbn [profiles with_profiles StudentProfile.user_id
         StudentProfile.resume_text StudentProfile.skills].
  repeat (split; [reflexivity|]).
  unfold db_profiles_find_one, db_profiles_insert_one, bind, ret.
  cbn [profiles with_profiles]. split.
  - intros old Hold. injection Hold as Hold.
    rewrite (find_one_app_l _ _ _ _ Hold). reflexivity.
  - intros Hnone. injection Hnone as Hnone.
    rewrite find_one_app_r by exact Hnone.
    cbn [find_one StudentProfile.user_id].
    rewrite String.eqb_refl. reflexivity.
Qed.

(** Student s1 already has a profile, student s2 has none. *)
Lemma X17_witness :
  User.role (Sample.student_user "s1") = "student"
  /\ (exists (p : StudentProfile.t) (w' : World),
        create_profile
          {| pd_roll_number := "CS999"; pd_cgpa := 10; pd_skills := None |}
          (Sample.student_user "s1") Campus.world = (Ok p, w')
        /\ get_profile (Sample.student_user "s1") w'
           = (Ok (Some (Campus.profile "s1" "CS001" (85 # 10)
                          ["java"; "sql"])), w'))
  /\ (exists (p : StudentProfile.t) (w' : World),
        create_profile
          {| pd_roll_number := "CS002"; pd_cgpa := 9; pd_skills := None |}
          (Sample.student_user "s2") Campus.world = (Ok p, w')
        /\ StudentProfile.skills p = []
        /\ get_profile (Sample.student_user "s2") w' = (Ok (Some p), w')).
Proof.
  split; [reflexivity|]. split.
  - destruct (X17_first_profile_is_the_one_returned
                {| pd_roll_number := "CS999"; pd_cgpa := 10;
                   pd_skills := None |}
                (Sample.student_user "s1") Campus.world eq_refl)
      as (p & w' & Hrun & _ & _ & _ & _ & Hold & _).
    exists p, w'. split; [exact Hrun|]. apply Hold. reflexivity.
  - destruct (X17_first_profile_is_the_one_returned
                {| pd_roll_number := "CS002"; pd_cgpa := 9;
                   pd_skills := None |}
                (Sample.student_user "s2") Campus.world eq_refl)
      as (p & w' & Hrun & _ & _ & _ & Hskills & _ & Hnew).
    exists p, w'. split; [exact Hrun|]. split; [exact Hskills|].
    apply Hnew. reflexivity.
Defined.

(* ===================================================================== *)
(** * Statistics and analytics *)
(* ===================================================================== *)

Section DictFacts.

Lemma dict_total_increment (k : string) (d : list (string * nat)) :
  dict_total (dict_increment k d) = S (dict_total d).
Proof.
  induction d as [|[k' v] r IH]; [reflexivity|].
  cbn [dict_increment]. destruct (String.eqb k' k).
  - reflexivity.
  - unfold dict_total in *. cbn [foldr snd]. rewrite IH. lia.
Qed.

Lemma dict_total_foldl {A : Type} (key : A -> string) (l : list A)
    (d : list (string * nat)) :
  dict_total (foldl (fun d s => dict_increment (key s) d) d l)
  = dict_total d + length l.
Proof.
  revert d. induction l as [|x l IH]; intros d; cbn [foldl length]; [lia|].
  rewrite IH, dict_total_increment. lia.
Qed.

Lemma dict_total_perm (d d' : list (string * nat)) :
  d ≡ₚ d' -> dict_total d = dict_total d'.
Proof.
  intros Hp. unfold dict_total.
  induction Hp as [|x k k' Hk IH|x y k|k1 k2 k3 H12 IH12 H23 IH23];
    cbn [foldr]; lia.
Qed.

Lemma dict_get_increment (k k' : string) (d : list (string * nat)) :
  dict_get k (dict_increment k' d)
  = dict_get k d + (if String.eqb k' k then 1 else 0).
Proof.
  unfold dict_get. induction d as [|[k0 v] r IH].
  - cbn [dict_increment find_one fst snd].
    destruct (String.eqb k' k); reflexivity.
  - cbn [dict_increment]. destruct (String.eqb k0 k') eqn:E0.
    + apply String.eqb_eq in E0. subst k0. cbn [find_one fst snd].
      destruct (String.eqb k' k); cbn [fst snd]; lia.
    + cbn [find_one fst snd]. destruct (String.eqb k0 k) eqn:E1.
      * apply String.eqb_eq in E1. subst k0. rewrite String.eqb_sym, E0.
        cbn [fst snd]. lia.
      * exact IH.
Qed.

Lemma dict_get_foldl {A : Type} (key : A -> string) (k : string)
    (l : list A) (d : list (string * nat)) :
  dict_get k (foldl (fun d s => dict_increment (key s) d) d l)
  = dict_get k d + length (List.filter (fun s => String.eqb (key s) k) l).
Proof.
  revert d. induction l as [|x l IH]; intros d; cbn [foldl List.filter];
    [cbn; lia|].
  rewrite IH, dict_get_increment.
  destruct (String.eqb (key x) k); cbn [length]; lia.
Qed.

Lemma dict_keys_increment (k : string) (d : list (string * nat)) :
  fst <$> dict_increment k d
  = if bool_decide (k ∈ fst <$> d) then fst <$> d
    else ((fst <$> d) ++ [k])%list.
Proof.
  induction d as [|[k' v] r IH]; [reflexivity|].
  cbn [dict_increment]. destruct (String.eqb k' k) eqn:E.
  - apply String.eqb_eq in E. subst k'. rewrite !fmap_cons. cbn [fst].
    rewrite bool_decide_eq_true_2 by left. reflexivity.
  - apply String.eqb_neq in E. rewrite !fmap_cons, IH. cbn [fst].
    destruct (bool_decide (k ∈ fst <$> r)) eqn:Er.
    + apply bool_decide_eq_true in Er.
      rewrite bool_decide_eq_true_2 by (right; exact Er). reflexivity.
    + apply bool_decide_eq_false in Er.
      rewrite bool_decide_eq_false_2; [reflexivity|].
      intros Hin. apply elem_of_cons in Hin as [->|Hin]; [congruence|].
      exact (Er Hin).
Qed.

Lemma dict_keys_nodup_increment (k : string) (d : list (string * nat)) :
  NoDup (fst <$> d) -> NoDup (fst <$> dict_increment k d).
Proof.
  intros Hnd. rewrite dict_keys_increment.
  destruct (bool_decide (k ∈ fst <$> d)) eqn:E; [exact Hnd|].
  apply bool_decide_eq_false in E.
  apply NoDup_app. split; [exact Hnd|]. split; [|apply NoDup_singleton].
  intros x Hx Hk. apply list_elem_of_singleton in Hk. subst x. exact (E Hx).
Qed.

Lemma dict_keys_nodup_foldl {A : Type} (key : A -> string) (l : list A)
    (d : list (string * nat)) :
  NoDup (fst <$> d) ->
  NoDup (fst <$> foldl (fun d s => dict_increment (key s) d) d l).
Proof.
  revert d. induction l as [|x l IH]; intros d Hnd; [exact Hnd|].
  cbn [foldl]. apply IH, dict_keys_nodup_increment, Hnd.
Qed.

Lemma dict_keys_fixed_foldl {A : Type} (key : A -> string) (l : list A)
    (d : list (string * nat)) :
  (forall x, key x ∈ fst <$> d) ->
  fst <$> foldl (fun d s => dict_increment (key s) d) d l = fst <$> d.
Proof.
  revert d. induction l as [|x l IH]; intros d Hkeys; [reflexivity|].
  cbn [foldl].
  assert (Hstep : fst <$> dict_increment (key x) d = fst <$> d).
  { rewrite dict_keys_increment, bool_decide_eq_true_2 by apply Hkeys.
    reflexivity. }
  rewrite IH; [exact Hstep|]. intros y. rewrite Hstep. apply Hkeys.
Qed.

Lemma dict_positive_increment (k : string) (d : list (string * nat)) :
  Forall (fun kv => 1 <= snd kv) d ->
  Forall (fun kv => 1 <= snd kv) (dict_increment k d).
Proof.
  induction d as [|[k' v] r IH]; intros H.
  - repeat constructor.
  - apply Forall_cons in H as [Hv Hr]. cbn [dict_increment].
    destruct (String.eqb k' k); constructor; cbn [snd] in *;
      [lia | exact Hr | exact Hv | exact (IH Hr)].
Qed.

Lemma dict_positive_foldl {A : Type} (key : A -> string) (l : list A)
    (d : list (string * nat)) :
  Forall (fun kv => 1 <= snd kv) d ->
  Forall (fun kv => 1 <= snd kv)
    (foldl (fun d s => dict_increment (key s) d) d l).
Proof.
  revert d. induction l as [|x l IH]; intros d H; [exact H|].
  cbn [foldl]. apply IH, dict_positive_increment, H.
Qed.

Lemma dict_get_entry (k : string) (v : nat) (d : list (string * nat)) :
  NoDup (fst <$> d) -> (k, v) ∈ d -> dict_get k d = v.
Proof.
  unfold dict_get. induction d as [|[k' v'] r IH]; intros Hnd Hin;
    [inversion Hin|].
  rewrite fmap_cons in Hnd. apply NoDup_cons in Hnd as [Hfresh Hnd].
  cbn [find_one fst snd].
  apply elem_of_cons in Hin as [Heq|Hin].
  - injection Heq as -> ->. rewrite String.eqb_refl. reflexivity.
  - destruct (String.eqb k' k) eqn:E; [|exact (IH Hnd Hin)].
    apply String.eqb_eq in E. subst k'. exfalso. apply Hfresh.
    apply list_elem_of_fmap. exists (k, v). split; [reflexivity | exact Hin].
Qed.

(** The entries of a counting [dict] built by the loop. *)
Lemma dict_entries_foldl {A : Type} (key : A -> string) (l : list A)
    (d : list (string * nat)) :
  NoDup (fst <$> d) ->
  Forall
    (fun kv =>
       snd kv
       = dict_get (fst kv) d
         + length (List.filter (fun s => String.eqb (key s) (fst kv)) l))
    (foldl (fun d s => dict_increment (key s) d) d l).
Proof.
  intros Hnd. apply Forall_forall. intros [k v] Hin. cbn [fst snd].
  rewrite <- dict_get_foldl. symmetry.
  apply dict_get_entry; [apply dict_keys_nodup_foldl, Hnd | exact Hin].
Qed.

End DictFacts.

Section StatisticsFacts.

Lemma placed_rows_run (department : option string)
    (placed_apps : list Application.t) (w : World) :
  exists rows : list PlacedStudent.t,
    placed_rows department placed_apps w = (Ok rows, w)
    /\ length rows <= length placed_apps.
Proof.
  induction placed_apps as [|a rest IH].
  - exists []. split; [reflexivity | cbn; lia].
  - destruct IH as (rows & Hrun & Hlen).
    cbn [placed_rows]. unfold bind at 1. unfold db_users_find_one.
    destruct (find_one (user_has_id (Application.student_id a)) (users w))
      as [student|].
    + destruct (bool_decide (User.department student = department)).
      * unfold bind, db_profiles_find_one, db_drives_find_one, ret.
        rewrite Hrun. eexists. split; [reflexivity|]. cbn [length]. lia.
      * exists rows. split; [exact Hrun | cbn [length]; lia].
    + exists rows. split; [exact Hrun | cbn [length]; lia].
Qed.

Lemma get_2025_statistics_run (current_user : User.t) (w : World) :
  User.role current_user = "hod" ->
  exists rows : list PlacedStudent.t,
    length rows <= 1000
    /\ get_2025_statistics current_user w
       = (Ok {| Statistics2025.year := 2025;
                Statistics2025.department := User.department current_user;
                Statistics2025.total_students :=
                  length
                    (List.filter
                       (approved_student_in (User.department current_user))
                       (users w));
                Statistics2025.placed_students := length rows;
                Statistics2025.placement_percentage :=
                  Py.round2
                    (percentage_of (length rows)
                       (length
                          (List.filter
                             (approved_student_in
                                (User.department current_user))
                             (users w))));
                Statistics2025.avg_cgpa_placed :=
                  Py.round2
                    match rows with
                    | [] => 0%Q
                    | _ => (sum_truthy_cgpa rows
                            / Py.of_len (length rows))%Q
                    end;
                Statistics2025.placed_students_details := rows;
                Statistics2025.company_distribution :=
                  sort_reverse (fun x => Py.of_len (snd x))
                    (foldl
                       (fun d s => dict_increment (PlacedStudent.company s) d)
                       [] rows);
                Statistics2025.cgpa_distribution :=
                  foldl
                    (fun d s =>
                       dict_increment (cgpa_range (PlacedStudent.cgpa s)) d)
                    cgpa_ranges_init rows |}, w).
Proof.
  intros Hrole.
  destruct (placed_rows_run (User.department current_user)
              (find_to_list is_selected 1000 (applications w)) w)
    as (rows & Hrun & Hlen).
  exists rows. split.
  - etransitivity; [exact Hlen|]. unfold find_to_list.
    rewrite length_take. lia.
  - unfold get_2025_statistics. rewrite Hrole.
    change (negb (String.eqb "hod" "hod")) with false. cbv iota.
    unfold bind. rewrite Hrun. reflexivity.
Qed.

Lemma cgpa_range_is_a_key (c : Q) : cgpa_range c ∈ fst <$> cgpa_ranges_init.
Proof.
  unfold cgpa_range, cgpa_ranges_init.
  repeat (match goal with |- context [Qle_bool ?a ?b] =>
            destruct (Qle_bool a b) end);
    cbn; repeat (first [apply list_elem_of_here | apply list_elem_of_further]).
Qed.

Lemma dict_get_cgpa_ranges_init (k : string) :
  dict_get k cgpa_ranges_init = 0.
Proof.
  unfold dict_get, cgpa_ranges_init. cbn [find_one fst snd].
  repeat (match goal with |- context [String.eqb ?a ?b] =>
            destruct (String.eqb a b); [reflexivity|] end).
  reflexivity.
Qed.

Lemma StronglySorted_weaken {A : Type} (R R' : A -> A -> Prop) (l : list A) :
  (forall x y, R x y -> R' x y) ->
  StronglySorted R l -> StronglySorted R' l.
Proof.
  intros HR Hs. induction Hs as [|x l Hs IH Hx]; constructor; [exact IH|].
  eapply Forall_impl; [exact Hx | apply HR].
Qed.

Lemma of_len_le_inv (m n : nat) : (Py.of_len m <= Py.of_len n)%Q -> m <= n.
Proof. unfold Py.of_len. rewrite <- Zle_Qle. lia. Qed.




End StatisticsFacts.

(** X18: in the 2025 statistics of a head of department, the CGPA
    distribution always lists the five ranges in their fixed order, every
    placed student is counted in exactly one of them (the count of a range
    is the number of placed students whose CGPA falls in it), and the
    counts add up to [placed_students]; at most 1000 students are
    reported, and the state is not changed. *)
Theorem X18_cgpa_distribution_partitions_the_placed_students
    (current_user : User.t) (w : World) :
  User.role current_user = "hod" ->
  exists s : Statistics2025.t,
    get_2025_statistics current_user w = (Ok s, w)
    /\ Statistics2025.placed_students s
       = length (Statistics2025.placed_students_details s)
    /\ Statistics2025.placed_students s <= 1000
    /\ fst <$> Statistics2025.cgpa_distribution s
       = ["9.0-10.0"; "8.0-8.9"; "7.0-7.9"; "6.0-6.9"; "Below 6.0"]
    /\ dict_total (Statistics2025.cgpa_distribution s)
       = Statistics2025.placed_students s
    /\ Forall
         (fun kv =>
            snd kv
            = length
                (List.filter
                   (fun r => String.eqb (cgpa_range (PlacedStudent.cgpa r))
                               (fst kv))
                   (Statistics2025.placed_students_details s)))
         (Statistics2025.cgpa_distribution s).
Proof.
  intros Hrole.
  destruct (get_2025_statistics_run current_user w Hrole)
    as (rows & Hlen & Hrun).
  eexists. split; [exact Hrun|].
  cbn [Statistics2025.placed_students Statistics2025.placed_students_details
         Statistics2025.cgpa_distribution].
  split; [reflexivity|]. split; [exact Hlen|]. split.
  { rewrite dict_keys_fixed_foldl; [reflexivity|].
    intros r. apply cgpa_range_is_a_key. }
  split.
  { rewrite dict_total_foldl. reflexivity. }
  eapply Forall_impl.
  - apply (dict_entries_foldl
             (fun r => cgpa_range (PlacedStudent.cgpa r)) rows
             cgpa_ranges_init).
    apply (bool_decide_unpack (NoDup _)). vm_compute. reflexivity.
  - intros kv Hkv. cbv beta in Hkv.
    rewrite dict_get_cgpa_ranges_init in Hkv. exact Hkv.
Qed.

(** X19: in the 2025 statistics of a head of department, the company
    distribution names every company once, gives for each the number of
    placed students of that company (at least one), is ordered by count
    descending, and its counts add up to [placed_students]. *)
Theorem X19_company_distribution_counts_the_placed_students
    (current_user : User.t) (w : World) :
  User.role current_user = "hod" ->
  exists s : Statistics2025.t,
    get_2025_statistics current_user w = (Ok s, w)
    /\ NoDup (fst <$> Statistics2025.company_distribution s)
    /\ dict_total (Statistics2025.company_distribution s)
       = Statistics2025.placed_students s
    /\ StronglySorted (fun x y => snd y <= snd x)
         (Statistics2025.company_distribution s)
    /\ Forall
         (fun kv =>
            1 <= snd kv
            /\ snd kv
               = length
                   (List.filter
                      (fun r => String.eqb (PlacedStudent.company r) (fst kv))
                      (Statistics2025.placed_students_details s)))
         (Statistics2025.company_distribution s).
Proof.
  intros Hrole.
  destruct (get_2025_statistics_run current_user w Hrole)
    as (rows & Hlen & Hrun).
  eexists. split; [exact Hrun|].
  cbn [Statistics2025.placed_students Statistics2025.placed_students_details
         Statistics2025.company_distribution].
  set (d := foldl (fun d s => dict_increment (PlacedStudent.company s) d)
              [] rows).
  pose proof (sort_reverse_perm (fun x : string * nat => Py.of_len (snd x)) d)
    as Hperm.
  split.
  { rewrite Hperm. apply dict_keys_nodup_foldl. constructor. }
  split.
  { rewrite (dict_total_perm _ _ Hperm). unfold d.
    rewrite dict_total_foldl. reflexivity. }
  split.
  { eapply StronglySorted_weaken; [|apply sort_reverse_sorted].
    intros x y Hxy. unfold desc_by in Hxy. apply of_len_le_inv, Hxy. }
  rewrite Hperm. apply Forall_and. split.
  - apply dict_positive_foldl. constructor.
  - eapply Forall_impl.
    + apply (dict_entries_foldl PlacedStudent.company rows []). constructor.
    + intros kv Hkv. cbv beta in Hkv. exact Hkv.
Qed.


(** Two placed students of the CSE department, with CGPA 8.5 and 6.2,
    both at the same company. *)
Lemma X18_witness :
  User.role Campus.hod = "hod"
  /\ exists s : Statistics2025.t,
       get_2025_statistics Campus.hod Campus.placed_world
       = (Ok s, Campus.placed_world)
       /\ Statistics2025.placed_students s = 2
       /\ Statistics2025.cgpa_distribution s
          = [("9.0-10.0", 0); ("8.0-8.9", 1); ("7.0-7.9", 0);
             ("6.0-6.9", 1); ("Below 6.0", 0)]
       /\ dict_total (Statistics2025.cgpa_distribution s)
          = Statistics2025.placed_students s.
Proof.
  split; [reflexivity|].
  destruct (X18_cgpa_distribution_partitions_the_placed_students
              Campus.hod Campus.placed_world eq_refl)
    as (s & Hrun & _ & _ & _ & Htotal & _).
  exists s. split; [exact Hrun|].
  pose proof (f_equal
                (fun r : Result Statistics2025.t * World =>
                   match fst r with
                   | Ok s => (Statistics2025.placed_students s,
                              Statistics2025.cgpa_distribution s)
                   | Raised _ => (0, [])
                   end) Hrun) as Hs.
  cbn [fst] in Hs. vm_compute in Hs. injection Hs as Hp Hd.
  split; [symmetry; exact Hp|]. split; [symmetry; exact Hd | exact Htotal].
Defined.

(** The same campus: one company with two placed students. *)
Lemma X19_witness :
  User.role Campus.hod = "hod"
  /\ exists s : Statistics2025.t,
       get_2025_statistics Campus.hod Campus.placed_world
       = (Ok s, Campus.placed_world)
       /\ Statistics2025.company_distribution s = [("Acme", 2)]
       /\ dict_total (Statistics2025.company_distribution s)
          = Statistics2025.placed_students s.
Proof.
  split; [reflexivity|].
  destruct (X19_company_distribution_counts_the_placed_students
              Campus.hod Campus.placed_world eq_refl)
    as (s & Hrun & _ & Htotal & _).
  exists s. split; [exact Hrun|].
  pose proof (f_equal
                (fun r : Result Statistics2025.t * World =>
                   match fst r with
                   | Ok s => Statistics2025.company_distribution s
                   | Raised _ => []
                   end) Hrun) as Hs.
  cbn [fst] in Hs. vm_compute in Hs.
  split; [symmetry; exact Hs | exact Htotal].
Defined.


Section AnalyticsFacts.

Lemma owner_in_department (o : option User.t) (dept : string) :
  bool_decide (User.department <$> o = Some (Some dept))
  = match o with
    | Some student => bool_decide (User.department student = Some dept)
    | None => false
    end.
Proof.
  destruct o as [student|].
  - apply bool_decide_ext. split.
    + intros H. injection H as H. exact H.
    + intros H. cbn. rewrite H. reflexivity.
  - apply bool_decide_eq_false_2. discriminate.
Qed.

Lemma count_dept_placed_eq (dept : string) (all_placed : list Application.t)
    (w : World) :
  forall n : nat,
    count_dept_placed dept all_placed n w
    = (Ok (n + length
                 (List.filter
                    (fun a => bool_decide
                                (owner_department w a = Some (Some dept)))
                    all_placed)), w).
Proof.
  induction all_placed as [|a rest IH]; intros n.
  - cbn. rewrite Nat.add_0_r. reflexivity.
  - cbn [count_dept_placed List.filter]. unfold bind at 1.
    unfold db_users_find_one, owner_department at 1.
    rewrite owner_in_department.
    destruct (find_one (user_has_id (Application.student_id a)) (users w))
      as [student|]; [|apply IH].
    destruct (bool_decide (User.department student = Some dept));
      [|apply IH].
    rewrite IH. cbn [length]. f_equal. f_equal. lia.
Qed.

Lemma dept_stats_loop_eq (depts : list string) (w : World) :
  forall acc : list DeptStat.t,
    dept_stats_loop depts acc w
    = (Ok (acc ++ (dept_stat w <$> depts))%list, w).
Proof.
  induction depts as [|dept rest IH]; intros acc.
  - cbn. rewrite app_nil_r. reflexivity.
  - cbn [dept_stats_loop]. unfold bind. rewrite count_dept_placed_eq.
    rewrite IH, <- app_assoc. reflexivity.
Qed.

Lemma get_analytics_eq (current_user : User.t) (w : World) :
  User.role current_user = "tpo" ->
  get_analytics current_user w
  = (Ok {| Analytics.total_drives := length (drives w);
           Analytics.total_applications := length (applications w);
           Analytics.total_students :=
             length (List.filter approved_student (users w));
           Analytics.placed_students :=
             length (List.filter is_selected (applications w));
           Analytics.placement_rate :=
             Py.round2
               (percentage_of
                  (length (List.filter is_selected (applications w)))
                  (length (List.filter approved_student (users w))));
           Analytics.department_stats := dept_stat w <$> departments |}, w).
Proof.
  intros Hrole. unfold get_analytics. rewrite Hrole.
  change (negb (String.eqb "tpo" "tpo")) with false. cbv iota.
  unfold bind. rewrite dept_stats_loop_eq. reflexivity.
Qed.

(** Filters on pairwise different keys select disjoint parts of a list. *)
Lemma disjoint_filters_length {A : Type} (key : A -> option (option string))
    (ds : list string) (l : list A) :
  NoDup ds ->
  sum_list
    ((fun d => length
                 (List.filter
                    (fun a => bool_decide (key a = Some (Some d))) l))
       <$> ds)
  <= length l.
Proof.
  intros Hnd. induction l as [|a l IH].
  - cbn [List.filter length]. induction ds as [|d ds IHd]; [reflexivity|].
    rewrite fmap_cons. cbn [sum_list_with id]. apply NoDup_cons in Hnd as [_ Hnd].
    specialize (IHd Hnd). lia.
  - assert (Hone : sum_list
                     ((fun d => if bool_decide (key a = Some (Some d))
                                then 1 else 0) <$> ds) <= 1).
    { clear IH. induction ds as [|d ds IHd]; [cbn; lia|].
      apply NoDup_cons in Hnd as [Hfresh Hnd]. rewrite fmap_cons.
      cbn [sum_list_with id]. destruct (bool_decide (key a = Some (Some d))) eqn:E.
      - apply bool_decide_eq_true in E.
        assert (Hzero : sum_list
                          ((fun d0 => if bool_decide (key a = Some (Some d0))
                                      then 1 else 0) <$> ds) = 0).
        { clear IHd Hnd. induction ds as [|d' ds IHd']; [reflexivity|].
          rewrite fmap_cons. cbn [sum_list_with id].
          rewrite bool_decide_eq_false_2.
          - apply IHd'. intros Hin. apply Hfresh. right. exact Hin.
          - intros E'. rewrite E in E'. injection E' as ->.
            apply Hfresh. left. }
        lia.
      - specialize (IHd Hnd). lia. }
    assert (Hsplit : sum_list
                       ((fun d => length
                                    (List.filter
                                       (fun a0 => bool_decide
                                                    (key a0 = Some (Some d)))
                                       (a :: l))) <$> ds)
                     = sum_list
                         ((fun d => if bool_decide (key a = Some (Some d))
                                    then 1 else 0) <$> ds)
                       + sum_list
                           ((fun d => length
                                        (List.filter
                                           (fun a0 => bool_decide
                                                        (key a0
                                                         = Some (Some d)))
                                           l)) <$> ds)).
    { clear. induction ds as [|d ds IHd]; [reflexivity|].
      rewrite !fmap_cons. cbn [sum_list_with id]. rewrite IHd.
      cbn [List.filter].
      destruct (bool_decide (key a = Some (Some d))); cbn [length]; lia. }
    rewrite Hsplit. cbn [length]. lia.
Qed.

End AnalyticsFacts.

(** X21: the analytics of the placement office list the five departments
    in their fixed order and never over-count: the placed students over
    all department rows are at most [placed_students], the students over
    all department rows are at most [total_students], and no row reports
    more than 1000 placed students; the route changes nothing. *)
Theorem X21_department_rows_never_overcount
    (current_user : User.t) (w : World) :
  User.role current_user = "tpo" ->
  exists s : Analytics.t,
    get_analytics current_user w = (Ok s, w)
    /\ DeptStat.department <$> Analytics.department_stats s
       = ["CSE"; "ECE"; "EEE"; "MECH"; "CIVIL"]
    /\ sum_list (DeptStat.placed <$> Analytics.department_stats s)
       <= Analytics.placed_students s
    /\ sum_list (DeptStat.total <$> Analytics.department_stats s)
       <= Analytics.total_students s
    /\ Forall (fun d => DeptStat.placed d <= 1000)
         (Analytics.department_stats s).
Proof.
  intros Hrole. eexists. split; [apply get_analytics_eq, Hrole|].
  cbn [Analytics.department_stats Analytics.placed_students
         Analytics.total_students].
  assert (Hnd : NoDup departments)
    by (apply (bool_decide_unpack (NoDup _)); vm_compute; reflexivity).
  split; [reflexivity|]. split; [|split].
  - rewrite <- list_fmap_compose.
    etransitivity;
      [apply (disjoint_filters_length (owner_department w) departments
                (find_to_list is_selected 1000 (applications w)) Hnd)|].
    unfold find_to_list. rewrite length_take. lia.
  - rewrite <- list_fmap_compose.
    etransitivity;
      [|apply (disjoint_filters_length
                 (fun u => Some (User.department u)) departments
                 (List.filter approved_student (users w)) Hnd)].
    apply Nat.eq_le_incl. f_equal. apply list_fmap_ext.
    intros _ d _. cbn. f_equal.
    clear. induction (users w) as [|u l IH]; [reflexivity|].
    cbn [List.filter]. unfold approved_student_in, approved_student in *.
    destruct (String.eqb (User.role u) "student"); cbn [andb];
      [|exact IH].
    destruct (User.is_approved u); cbn [andb List.filter].
    + rewrite andb_true_r.
      destruct (bool_decide (User.department u = Some d)) eqn:E.
      * apply bool_decide_eq_true in E.
        rewrite bool_decide_eq_true_2 by congruence. rewrite IH. reflexivity.
      * apply bool_decide_eq_false in E.
        rewrite bool_decide_eq_false_2 by congruence. exact IH.
    + rewrite andb_false_r. exact IH.
  - apply Forall_fmap, Forall_forall. intros d _. cbn.
    etransitivity; [apply filter_length_le|].
    unfold find_to_list. rewrite length_take. lia.
Qed.

(** The campus with two placed students. *)
Lemma X21_witness :
  User.role Sample.tpo = "tpo"
  /\ exists s : Analytics.t,
       get_analytics Sample.tpo Campus.placed_world
       = (Ok s, Campus.placed_world)
       /\ DeptStat.placed <$> Analytics.department_stats s = [2; 0; 0; 0; 0]
       /\ Analytics.placed_students s = 2
       /\ sum_list (DeptStat.placed <$> Analytics.department_stats s)
          <= Analytics.placed_students s.
Proof.
  split; [reflexivity|].
  destruct (X21_department_rows_never_overcount Sample.tpo
              Campus.placed_world eq_refl)
    as (s & Hrun & _ & Hplaced & _).
  exists s. split; [exact Hrun|].
  pose proof (f_equal
                (fun r : Result Analytics.t * World =>
                   match fst r with
                   | Ok s => (DeptStat.placed <$> Analytics.department_stats s,
                              Analytics.placed_students s)
                   | Raised _ => ([], 0)
                   end) Hrun) as Hs.
  cbn [fst] in Hs. vm_compute in Hs. injection Hs as Hd Hp.
  split; [symmetry; exact Hd|]. split; [symmetry; exact Hp | exact Hplaced].
Defined.

(* ===================================================================== *)
(** * Parsing a resume *)
(* ===================================================================== *)

Section StrFacts.

Lemma split_nonempty (sep : ascii) (s : string) : Str.split sep s <> [].
Proof.
  destruct s as [|c r]; cbn [Str.split]; [discriminate|].
  destruct (Ascii.eqb c sep); [discriminate|].
  destruct (Str.split sep r); discriminate.
Qed.

Lemma split_app (sep : ascii) (a b : string) :
  Str.split sep (a ++ String sep b)
  = (Str.split sep a ++ Str.split sep b)%list.
Proof.
  induction a as [|c r IH].
  - change ("" ++ String sep b) with (String sep b).
    cbn [Str.split]. rewrite Ascii.eqb_refl. reflexivity.
  - change (String c r ++ String sep b) with (String c (r ++ String sep b)).
    cbn [Str.split]. destruct (Ascii.eqb c sep).
    + rewrite IH. reflexivity.
    + rewrite IH. pose proof (split_nonempty sep r) as Hne.
      destruct (Str.split sep r) as [|piece pieces]; [congruence|].
      reflexivity.
Qed.

Lemma prefix_app_l (a b s : string) :
  String.prefix (a ++ b) s = true -> String.prefix a s = true.
Proof.
  revert s. induction a as [|c r IH]; intros s H;
    [destruct s; reflexivity|].
  change (String c r ++ b) with (String c (r ++ b)) in H.
  destruct s as [|c' s']; [discriminate|].
  cbn [String.prefix] in *.
  destruct (ascii_dec c c'); [apply IH, H | discriminate].
Qed.

Lemma contains_app_l (a b s : string) :
  Str.contains (a ++ b) s = true -> Str.contains a s = true.
Proof.
  induction s as [|c r IH]; cbn [Str.contains]; intros H.
  - apply orb_true_iff in H as [H|H]; [|discriminate].
    rewrite (prefix_app_l _ _ _ H). reflexivity.
  - apply orb_true_iff in H as [H|H].
    + rewrite (prefix_app_l _ _ _ H). reflexivity.
    + rewrite (IH H). apply orb_true_r.
Qed.

End StrFacts.

Section ParseFacts.
Variable strip : string -> string.

Ltac first_characters line :=
  unfold Str.startswith;
  destruct line as [|? [|? ?]]; cbn [String.prefix];
  repeat match goal with
    | |- context [ascii_dec ?a ?b] => destruct (ascii_dec a b)
    end;
  subst; try discriminate; try reflexivity; congruence.

Lemma education_not_skills (line : string) :
  Str.startswith "EDUCATION:" line = true ->
  Str.startswith "SKILLS:" line = false.
Proof. first_characters line. Qed.

Lemma experience_not_skills (line : string) :
  Str.startswith "EXPERIENCE:" line = true ->
  Str.startswith "SKILLS:" line = false.
Proof. first_characters line. Qed.

Lemma experience_not_education (line : string) :
  Str.startswith "EXPERIENCE:" line = true ->
  Str.startswith "EDUCATION:" line = false.
Proof. first_characters line. Qed.

Lemma summary_not_skills (line : string) :
  Str.startswith "SUMMARY:" line = true ->
  Str.startswith "SKILLS:" line = false.
Proof. first_characters line. Qed.

Lemma summary_not_education (line : string) :
  Str.startswith "SUMMARY:" line = true ->
  Str.startswith "EDUCATION:" line = false.
Proof. first_characters line. Qed.

Lemma summary_not_experience (line : string) :
  Str.startswith "SUMMARY:" line = true ->
  Str.startswith "EXPERIENCE:" line = false.
Proof. first_characters line. Qed.

(** A field that a line sets exactly when the line starts with [key], to
    a value that depends on the line only, takes its value from the last
    such line. *)
Lemma last_line_wins {V : Type} (get : Parsed -> V) (key : string)
    (value : string -> V) (lines : list string) :
  (forall st line, Str.startswith key line = true ->
                   get (parse_line strip st line) = value line) ->
  (forall st line, Str.startswith key line = false ->
                   get (parse_line strip st line) = get st) ->
  forall st st0 : Parsed,
    get (foldl (parse_line strip) st lines)
    = if existsb (Str.startswith key) lines
      then get (foldl (parse_line strip) st0 lines)
      else get st.
Proof.
  intros Hset Hkeep. induction lines as [|line rest IH]; intros st st0;
    [reflexivity|].
  cbn [foldl existsb].
  pose proof (IH (parse_line strip st line) (parse_line strip st0 line))
    as H1.
  pose proof (IH (parse_line strip st0 line) st0) as H2.
  destruct (existsb (Str.startswith key) rest) eqn:Erest.
  - rewrite H1, orb_true_r. reflexivity.
  - rewrite H1, orb_false_r.
    destruct (Str.startswith key line) eqn:Eline.
    + rewrite H2, !Hset by exact Eline. reflexivity.
    + apply Hkeep, Eline.
Qed.

Lemma parse_response_app (r1 r2 : string) :
  parse_response strip (r1 ++ String (ascii_of_nat 10) r2)
  = foldl (parse_line strip) (parse_response strip r1)
      (Str.split (ascii_of_nat 10) r2).
Proof.
  unfold parse_response. rewrite split_app, foldl_app. reflexivity.
Qed.

Lemma parse_line_skills_nonempty (st : Parsed) (line : string) :
  Forall (fun s => s <> "") (p_skills st) ->
  Forall (fun s => s <> "") (p_skills (parse_line strip st line)).
Proof.
  intros H. unfold parse_line.
  destruct (Str.startswith "SKILLS:" line).
  - cbn [p_skills]. unfold parse_skills. apply Forall_forall.
    intros s Hs. apply list_elem_of_In, filter_In in Hs as [_ Hs].
    intros ->. discriminate Hs.
  - repeat match goal with
      | |- context [Str.startswith ?k line] =>
          destruct (Str.startswith k line)
      end; exact H.
Qed.

End ParseFacts.

(** X22: no skill [parse_resume_with_ai] returns is the empty string,
    whether the skills come from the answer of the language model or from
    the keyword fallback, and whatever that answer is. *)
Theorem X22_no_empty_skill_is_extracted
    (strip lower : string -> string) (text : string)
    (response : option string) :
  Forall (fun s => s <> "")
    (ResumeData.skills (parse_resume_with_ai strip lower text response))
  /\ ResumeData.text (parse_resume_with_ai strip lower text response) = text.
Proof.
  split; [|destruct response; reflexivity].
  destruct response as [response|]; cbn [parse_resume_with_ai
                                          ResumeData.skills].
  - unfold parse_response.
    assert (H : forall lines st,
               Forall (fun s => s <> "") (p_skills st) ->
               Forall (fun s => s <> "")
                 (p_skills (foldl (parse_line strip) st lines))).
    { induction lines as [|line rest IH]; intros st Hst; [exact Hst|].
      cbn [foldl]. apply IH, parse_line_skills_nonempty, Hst. }
    apply H. constructor.
  - apply Forall_forall. intros s Hs.
    apply list_elem_of_In, filter_In in Hs as [Hs _].
    assert (Hall : Forall (fun s => s <> "") common_skills)
      by (unfold common_skills; repeat constructor; discriminate).
    rewrite Forall_forall in Hall. apply Hall, list_elem_of_In, Hs.
Qed.

(** X23: when the answer of the language model repeats a section, the
    last occurrence wins, separately for each of the four sections: for an
    answer made of two parts joined by a line break, each field comes from
    the second part if one of its lines starts with the field's key, and
    from the first part otherwise. *)
Theorem X23_last_section_line_wins
    (strip : string -> string) (r1 r2 : string) :
  p_skills (parse_response strip (r1 ++ String (ascii_of_nat 10) r2))
  = (if has_line "SKILLS:" r2 then p_skills (parse_response strip r2)
     else p_skills (parse_response strip r1))
  /\ p_education (parse_response strip (r1 ++ String (ascii_of_nat 10) r2))
     = (if has_line "EDUCATION:" r2
        then p_education (parse_response strip r2)
        else p_education (parse_response strip r1))
  /\ p_experience (parse_response strip (r1 ++ String (ascii_of_nat 10) r2))
     = (if has_line "EXPERIENCE:" r2
        then p_experience (parse_response strip r2)
        else p_experience (parse_response strip r1))
  /\ p_summary (parse_response strip (r1 ++ String (ascii_of_nat 10) r2))
     = (if has_line "SUMMARY:" r2
        then p_summary (parse_response strip r2)
        else p_summary (parse_response strip r1)).
Proof.
  rewrite parse_response_app. unfold has_line.
  unfold parse_response at 2 4 6 8.
  split; [|split; [|split]].
  - apply (last_line_wins strip p_skills "SKILLS:" (parse_skills strip)).
    + intros st line H. unfold parse_line. rewrite H. reflexivity.
    + intros st line H. unfold parse_line. rewrite H.
      repeat match goal with
        | |- context [Str.startswith ?k line] =>
            destruct (Str.startswith k line)
        end; reflexivity.
  - apply (last_line_wins strip p_education "EDUCATION:"
             (fun line => strip (Str.remove "EDUCATION:" line))).
    + intros st line H. unfold parse_line.
      rewrite (education_not_skills line H), H. reflexivity.
    + intros st line H. unfold parse_line. rewrite H.
      repeat match goal with
        | |- context [Str.startswith ?k line] =>
            destruct (Str.startswith k line)
        end; reflexivity.
  - apply (last_line_wins strip p_experience "EXPERIENCE:"
             (fun line => strip (Str.remove "EXPERIENCE:" line))).
    + intros st line H. unfold parse_line.
      rewrite (experience_not_skills line H),
        (experience_not_education line H), H. reflexivity.
    + intros st line H. unfold parse_line. rewrite H.
      repeat match goal with
        | |- context [Str.startswith ?k line] =>
            destruct (Str.startswith k line)
        end; reflexivity.
  - apply (last_line_wins strip p_summary "SUMMARY:"
             (fun line => strip (Str.remove "SUMMARY:" line))).
    + intros st line H. unfold parse_line.
      rewrite (summary_not_skills line H), (summary_not_education line H),
        (summary_not_experience line H), H. reflexivity.
    + intros st line H. unfold parse_line. rewrite H.
      repeat match goal with
        | |- context [Str.startswith ?k line] =>
            destruct (Str.startswith k line)
        end; reflexivity.
Qed.

Lemma fallback_skills_eq (strip lower : string -> string) (text : string) :
  ResumeData.skills (parse_resume_with_ai strip lower text None)
  = List.filter (fun skill => Str.contains (lower skill) (lower text))
      common_skills.
Proof. reflexivity. Qed.

(** X24: the keyword fallback matches substrings, so a resume credited
    with "JavaScript" is always credited with "Java" as well, as soon as
    the lower-cased "JavaScript" starts with the lower-cased "Java". *)
Theorem X24_fallback_credits_java_for_javascript
    (strip lower : string -> string) (text : string) :
  (exists rest : string, lower "JavaScript" = lower "Java" ++ rest) ->
  "JavaScript" ∈ ResumeData.skills (parse_resume_with_ai strip lower text None)
  -> "Java" ∈ ResumeData.skills (parse_resume_with_ai strip lower text None).
Proof.
  intros [rest Hlower] Hjs. rewrite fallback_skills_eq in *.
  apply list_elem_of_In in Hjs. apply filter_In in Hjs as [_ Hjs].
  apply list_elem_of_In. apply filter_In. split.
  - unfold common_skills. right. left. reflexivity.
  - rewrite Hlower in Hjs. exact (contains_app_l _ _ _ Hjs).
Qed.

(** A resume that mentions JavaScript only. *)
Lemma X24_witness :
  (exists rest : string,
     Py.lower_ascii "JavaScript" = Py.lower_ascii "Java" ++ rest)
  /\ ResumeData.skills
       (parse_resume_with_ai strip_ascii Py.lower_ascii
          "Built dashboards in JavaScript." None)
     = ["Java"; "JavaScript"]
  /\ "Java" ∈ ResumeData.skills
                (parse_resume_with_ai strip_ascii Py.lower_ascii
                   "Built dashboards in JavaScript." None).
Proof.
  assert (Hlower : exists rest : string,
             Py.lower_ascii "JavaScript" = Py.lower_ascii "Java" ++ rest)
    by (exists "script"; reflexivity).
  split; [exact Hlower|]. split; [vm_compute; reflexivity|].
  apply (X24_fallback_credits_java_for_javascript strip_ascii Py.lower_ascii
           "Built dashboards in JavaScript." Hlower).
  vm_compute. right. left.
Defined.

(* ===================================================================== *)
(** * Further properties of the ranking and of repeated identifiers *)
(* ===================================================================== *)

(** X25: [get_drive_applications] never changes the state and shows
    nothing but the requested drive: a caller who is neither placement
    officer nor head of department is refused with status 403; otherwise
    at most 1000 entries are returned, each one a stored application of
    that drive together with the user record and the profile stored for
    its student. *)
Theorem X25_ranking_shows_the_requested_drive_only
    (drive_id : string) (current_user : User.t) (w : World) :
  snd (get_drive_applications drive_id current_user w) = w
  /\ (User.role current_user <> "tpo" -> User.role current_user <> "hod" ->
      fst (get_drive_applications drive_id current_user w)
      = Raised {| status_code := 403;
                  detail := "Only TPO/HOD can view applications" |})
  /\ (User.role current_user = "tpo" \/ User.role current_user = "hod" ->
      exists out : list EnrichedApplication,
        fst (get_drive_applications drive_id current_user w) = Ok out
        /\ length out <= 1000
        /\ Forall
             (fun x =>
                Application.drive_id (app x) = drive_id
                /\ app x ∈ applications w
                /\ student x
                   = find_one (user_has_id (Application.student_id (app x)))
                       (users w)
                /\ profile x
                   = find_one
                       (fun p => String.eqb (StudentProfile.user_id p)
                                   (Application.student_id (app x)))
                       (profiles w)) out).
Proof.
  destruct (String.eqb (User.role current_user) "tpo") eqn:Etpo;
    [|destruct (String.eqb (User.role current_user) "hod") eqn:Ehod].
  1, 2: assert (Hrole : User.role current_user = "tpo"
                        \/ User.role current_user = "hod")
      by (first [left; apply String.eqb_eq; assumption
                | right; apply String.eqb_eq; assumption]);
    rewrite (get_drive_applications_eq drive_id current_user w Hrole);
    cbn [fst snd]; (split; [reflexivity|]);
    (split; [intros H1 H2; destruct Hrole; contradiction|]); intros _;
    eexists; (split; [reflexivity|]);
    (split;
     [rewrite (Permutation_length (sort_reverse_perm sort_key _)),
        length_fmap; unfold fetched, find_to_list; rewrite length_take; lia|]);
    rewrite (sort_reverse_perm sort_key); apply Forall_fmap, Forall_forall;
    intros a Ha; unfold fetched, find_to_list in Ha;
    apply elem_of_take in Ha as (k & Ha & _);
    apply list_elem_of_lookup_2 in Ha;
    apply list_elem_of_In, filter_In in Ha as [Hin Hp]; cbn;
    (split; [apply String.eqb_eq, Hp|]);
    (split; [apply list_elem_of_In, Hin|]); split; reflexivity.
  unfold get_drive_applications. rewrite Etpo, Ehod. cbn.
  split; [reflexivity|]. split; [reflexivity|].
  intros [H|H]; rewrite H in *; discriminate.
Qed.

(** The placement officer looks at the second drive of the sample. *)
Lemma X25_witness :
  (User.role Sample.tpo = "tpo" \/ User.role Sample.tpo = "hod")
  /\ exists out : list EnrichedApplication,
       fst (get_drive_applications "d2" Sample.tpo Sample.world) = Ok out
       /\ length out = 2
       /\ Forall (fun x => Application.drive_id (app x) = "d2") out.
Proof.
  assert (Hrole : User.role Sample.tpo = "tpo" \/ User.role Sample.tpo = "hod")
    by (left; reflexivity).
  split; [exact Hrole|].
  destruct (proj2 (proj2 (X25_ranking_shows_the_requested_drive_only
                            "d2" Sample.tpo Sample.world)) Hrole)
    as (out & Hout & _ & Hall).
  exists out. split; [exact Hout|]. split.
  - cbn in Hout. injection Hout as <-. reflexivity.
  - eapply Forall_impl; [exact Hall|]. intros x (H & _). exact H.
Defined.

(** X26: after a successful [apply_to_drive], the ranking of the drive
    holds the applications it held before together with the new one, and
    is again ordered by score descending, provided fewer than 1000
    applications of the drive were stored before. *)
Theorem X26_new_application_enters_the_ranking
    (tfidf_cosine : string -> string -> option Q) (lower : string -> string)
    (utcnow_iso : nat -> string) (new_id drive_id : string)
    (student officer : User.t) (w w' : World) (a : Application.t) :
  apply_to_drive tfidf_cosine lower utcnow_iso new_id drive_id student w
  = (Ok a, w') ->
  User.role officer = "tpo" \/ User.role officer = "hod" ->
  length
    (List.filter (fun a => String.eqb (Application.drive_id a) drive_id)
       (applications w)) < 1000 ->
  exists out out' : list EnrichedApplication,
    get_drive_applications drive_id officer w = (Ok out, w)
    /\ get_drive_applications drive_id officer w' = (Ok out', w')
    /\ app <$> out' ≡ₚ a :: (app <$> out)
    /\ StronglySorted (desc_by sort_key) out'.
Proof.
  intros Hrun Hrole Hfew.
  assert (Hrefused : forall P : Prop,
             (User.role student <> "student"
              \/ find_one (application_of drive_id (User.id student))
                   (applications w) <> None
              \/ find_one (fun p => String.eqb (StudentProfile.user_id p)
                                      (User.id student)) (profiles w)
                 = None
              \/ find_one (drive_has_id drive_id) (drives w) = None) -> P).
  { intros P H.
    destruct (apply_to_drive_refused tfidf_cosine lower utcnow_iso new_id
                drive_id student w H) as (e & He).
    rewrite He in Hrun. discriminate. }
  destruct (String.eqb (User.role student) "student") eqn:Erole;
    [|apply Hrefused; left; intros E; rewrite E in Erole; discriminate].
  destruct (find_one (application_of drive_id (User.id student))
              (applications w)) eqn:Eex;
    [apply Hrefused; right; left; discriminate|].
  destruct (find_one (fun p => String.eqb (StudentProfile.user_id p)
                                 (User.id student)) (profiles w))
    as [profile|] eqn:Ep;
    [|apply Hrefused; right; right; left; reflexivity].
  destruct (find_one (drive_has_id drive_id) (drives w)) as [drive|] eqn:Ed;
    [|apply Hrefused; right; right; right; reflexivity].
  clear Hrefused. apply String.eqb_eq in Erole.
  rewrite (apply_to_drive_ok tfidf_cosine lower utcnow_iso new_id drive_id
             student w profile drive Erole Eex Ep Ed) in Hrun.
  injection Hrun as <- <-.
  eexists _, _.
  split; [apply get_drive_applications_eq, Hrole|].
  split; [apply get_drive_applications_eq, Hrole|].
  split; [|apply sort_reverse_sorted].
  rewrite !sort_reverse_perm, !app_enriched.
  unfold fetched, find_to_list. cbn [applications].
  rewrite List.filter_app. cbn [List.filter Application.new
                                  Application.drive_id].
  rewrite String.eqb_refl.
  rewrite !take_ge by (rewrite ?length_app; cbn [length]; lia).
  symmetry. apply Permutation_cons_append.
Qed.

(** Student s3 applies to the second drive of the campus. *)
Lemma X26_witness :
  exists (a : Application.t) (w' : World)
         (out out' : list EnrichedApplication),
    apply_to_drive Campus.tfidf_cosine Py.lower_ascii Sample.utcnow_iso
      "a7" "d2" (Sample.student_user "s3") Campus.world = (Ok a, w')
    /\ get_drive_applications "d2" Sample.tpo Campus.world
       = (Ok out, Campus.world)
    /\ get_drive_applications "d2" Sample.tpo w' = (Ok out', w')
    /\ length out = 2
    /\ app <$> out' ≡ₚ a :: (app <$> out).
Proof.
  pose proof (apply_to_drive_ok Campus.tfidf_cosine Py.lower_ascii
                Sample.utcnow_iso "a7" "d2" (Sample.student_user "s3")
                Campus.world
                (Campus.profile "s3" "CS003" (62 # 10) ["Python"; "Java"])
                (Sample.drive "d2") eq_refl eq_refl eq_refl eq_refl) as Hrun.
  assert (Hrole : User.role Sample.tpo = "tpo" \/ User.role Sample.tpo = "hod")
    by (left; reflexivity).
  assert (Hfew : length
                   (List.filter
                      (fun a => String.eqb (Application.drive_id a) "d2")
                      (applications Campus.world)) < 1000)
    by (vm_compute; lia).
  destruct (X26_new_application_enters_the_ranking Campus.tfidf_cosine
              Py.lower_ascii Sample.utcnow_iso "a7" "d2"
              (Sample.student_user "s3") Sample.tpo Campus.world _ _
              Hrun Hrole Hfew)
    as (out & out' & Hbefore & Hafter & Hperm & _).
  eexists _, _, out, out'. split; [exact Hrun|]. split; [exact Hbefore|].
  split; [exact Hafter|]. split; [|exact Hperm].
  rewrite get_drive_applications_eq in Hbefore by exact Hrole.
  injection Hbefore as <-. reflexivity.
Defined.

Section ReadingFacts.

Variable utcnow_iso : nat -> string.

(** The clock readings at which the first loop of [select_for_round]
    advances one stored application: one per occurrence of its identifier,
    all made during the loop, each later than the one before. *)
Lemma select_loop_readings (next_round : string) (ids : list string) :
  forall (w : World) (acc : list (string * string)) (j : string)
         (a : Application.t),
    find_one (application_has_id j) (applications w) = Some a ->
    exists ks : list nat,
      length ks = occurrences j ids
      /\ Forall
           (fun k =>
              clock w <= k
              < clock (snd (select_loop utcnow_iso ids next_round acc w)))
           ks
      /\ StronglySorted lt ks
      /\ find_one (application_has_id j)
           (applications (snd (select_loop utcnow_iso ids next_round acc w)))
         = Some (advance_at utcnow_iso next_round ks a).
Proof.
  induction ids as [|i rest IH]; intros w acc j a Ha.
  - exists []. repeat split; [constructor | constructor | exact Ha].
  - rewrite select_loop_cons, occurrences_cons.
    destruct (find_one (application_has_id i) (applications w)) as [b|] eqn:Ei.
    + set (acc1 := match find_one _ (users w) with
                   | Some s => _ | None => _ end).
      destruct (select_loop_spec utcnow_iso next_round rest
                  (advanced_world utcnow_iso i next_round w) acc1)
        as (acc' & w' & Hrun & _ & _ & _ & _ & Hc & _).
      cbn [advanced_world clock] in Hc.
      destruct (String.eqb i j) eqn:Eij.
      * destruct (IH (advanced_world utcnow_iso i next_round w) acc1 j
                    (advance next_round (utcnow_iso (clock w)) a))
          as (ks & Hlen & Hrange & Hsorted & Hfind).
        { cbn [advanced_world applications].
          rewrite find_one_update_one by apply advance_id.
          rewrite Eij, Ha. reflexivity. }
        rewrite Hrun in Hrange, Hfind |- *.
        cbn [advanced_world clock snd] in Hrange, Hfind |- *.
        exists (clock w :: ks). split; [simpl; lia|].
        split.
        { constructor; [lia|].
          eapply Forall_impl; [exact Hrange|]. simpl. intros; lia. }
        split; [|exact Hfind].
        constructor; [exact Hsorted|].
        eapply Forall_impl; [exact Hrange|]. simpl. intros; lia.
      * destruct (IH (advanced_world utcnow_iso i next_round w) acc1 j a)
          as (ks & Hlen & Hrange & Hsorted & Hfind).
        { cbn [advanced_world applications].
          rewrite find_one_update_one by apply advance_id.
          rewrite Eij. exact Ha. }
        rewrite Hrun in Hrange, Hfind |- *.
        cbn [advanced_world clock snd] in Hrange, Hfind |- *.
        exists ks. split; [exact Hlen|].
        split; [|split; [exact Hsorted | exact Hfind]].
        eapply Forall_impl; [exact Hrange|]. simpl. intros; lia.
    + destruct (String.eqb i j) eqn:Eij.
      * apply String.eqb_eq in Eij. subst j. congruence.
      * apply IH, Ha.
Qed.

End ReadingFacts.

(** X27: an identifier that occurs several times in the batch of an
    advance request is advanced once per occurrence: the stored
    application gets one history record for each occurrence, all for the
    target round, each stamped with a reading of the clock made during the
    request, and appended in the order of these readings, every reading
    later than the one before; the application ends in the target round.
    An application not named in the batch is left exactly as it was. *)
Theorem X27_one_record_per_occurrence
    (utcnow_iso : nat -> string) (send_email : Email -> option string)
    (application_ids : list string) (next_round drive_id : string)
    (current_user : User.t) (w : World) (drive : Drive.t)
    (i : string) (a : Application.t) :
  User.role current_user = "tpo" ->
  find_one (drive_has_id drive_id) (drives w) = Some drive ->
  find_one (application_has_id i) (applications w) = Some a ->
  exists (resp : SelectResponse) (w' : World) (ks : list nat)
         (a' : Application.t),
    select_for_round utcnow_iso send_email application_ids next_round
      drive_id current_user w = (Ok resp, w')
    /\ length ks = occurrences i application_ids
    /\ Forall (fun k => clock w <= k < clock w') ks
    /\ StronglySorted lt ks
    /\ find_one (application_has_id i) (applications w') = Some a'
    /\ Application.round_history a'
       = (Application.round_history a
          ++ ((fun k => {| round := next_round; selected_at := utcnow_iso k |})
                <$> ks))%list
    /\ length (Application.round_history a')
       = length (Application.round_history a) + occurrences i application_ids
    /\ (i ∈ application_ids -> Application.current_round a' = next_round)
    /\ (i ∉ application_ids -> a' = a).
Proof.
  intros Hrole Hdrive Ha.
  destruct (select_for_round_spec utcnow_iso send_email application_ids
              next_round drive_id current_user w drive Hrole Hdrive)
    as (acc & w1 & w' & Hloop & Hrun & Happs & Hclock).
  destruct (select_loop_readings utcnow_iso next_round application_ids w []
              i a Ha) as (ks & Hlen & Hrange & Hsorted & Hfind).
  rewrite Hloop in Hrange, Hfind. cbn [snd] in Hrange, Hfind.
  eexists _, w', ks, _. split; [exact Hrun|]. split; [exact Hlen|].
  rewrite Happs, Hclock.
  split; [exact Hrange|]. split; [exact Hsorted|]. split; [exact Hfind|].
  split; [apply advance_at_round_history|].
  split; [rewrite advance_at_round_history, length_app, length_fmap, Hlen;
          reflexivity|].
  split.
  - intros Hi. apply advance_at_current_round.
    apply occurrences_pos in Hi.
    destruct ks; [simpl in Hlen; lia | discriminate].
  - intros Hi. destruct ks as [|k ks]; [reflexivity|].
    exfalso. apply Hi, occurrences_pos. simpl in Hlen. lia.
Qed.

(** The identifier a1 named twice in one batch: two records are appended,
    stamped with two readings of the clock, the first before the
    second. *)
Lemma X27_witness :
  User.role Sample.tpo = "tpo"
  /\ find_one (drive_has_id "d1") (drives Sample.world)
     = Some (Sample.drive "d1")
  /\ find_one (application_has_id "a1") (applications Sample.world)
     = Some Sample.a1
  /\ occurrences "a1" ["a1"; "a2"; "a1"] = 2
  /\ exists (resp : SelectResponse) (w' : World) (k1 k2 : nat)
            (a' : Application.t),
       select_for_round Sample.utcnow_iso Sample.send_email
         ["a1"; "a2"; "a1"] "HR" "d1" Sample.tpo Sample.world = (Ok resp, w')
       /\ k1 < k2 < clock w'
       /\ find_one (application_has_id "a1") (applications w') = Some a'
       /\ Application.round_history a'
          = [{| round := "HR"; selected_at := Sample.utcnow_iso k1 |};
             {| round := "HR"; selected_at := Sample.utcnow_iso k2 |}].
Proof.
  do 4 (split; [reflexivity|]).
  destruct (X27_one_record_per_occurrence Sample.utcnow_iso Sample.send_email
              ["a1"; "a2"; "a1"] "HR" "d1" Sample.tpo Sample.world
              (Sample.drive "d1") "a1" Sample.a1 eq_refl eq_refl eq_refl)
    as (resp & w' & ks & a' & Hrun & Hlen & Hrange & Hsorted & Hfind & Hhist
        & _).
  destruct ks as [|k1 [|k2 [|k3 ks]]]; try discriminate Hlen.
  exists resp, w', k1, k2, a'. split; [exact Hrun|].
  split.
  - apply StronglySorted_inv in Hsorted as [_ Hlt].
    apply Forall_inv in Hlt.
    apply Forall_inv_tail, Forall_inv in Hrange. lia.
  - split; [exact Hfind | exact Hhist].
Defined.

Section PlacedRowsFacts.

Lemma placed_rows_members (department : option string)
    (placed_apps : list Application.t) (w : World) :
  exists rows : list PlacedStudent.t,
    placed_rows department placed_apps w = (Ok rows, w)
    /\ Forall
         (fun r =>
            exists (a : Application.t) (u : User.t),
              a ∈ placed_apps
              /\ find_one (user_has_id (Application.student_id a)) (users w)
                 = Some u
              /\ User.department u = department
              /\ PlacedStudent.student_id r = User.id u
              /\ PlacedStudent.name r = User.name u
              /\ PlacedStudent.email r = User.email u
              /\ PlacedStudent.ai_score r
                 = default 0%Q (Application.ai_score a)) rows.
Proof.
  induction placed_apps as [|a rest IH].
  - exists []. split; [reflexivity | constructor].
  - destruct IH as (rows & Hrun & Hall).
    assert (Hall' : Forall
                      (fun r =>
                         exists (a0 : Application.t) (u : User.t),
                           a0 ∈ a :: rest
                           /\ find_one
                                (user_has_id (Application.student_id a0))
                                (users w) = Some u
                           /\ User.department u = department
                           /\ PlacedStudent.student_id r = User.id u
                           /\ PlacedStudent.name r = User.name u
                           /\ PlacedStudent.email r = User.email u
                           /\ PlacedStudent.ai_score r
                              = default 0%Q (Application.ai_score a0)) rows).
    { eapply Forall_impl; [exact Hall|].
      intros r (a0 & u & Hin & Hrest). exists a0, u.
      split; [right; exact Hin | exact Hrest]. }
    cbn [placed_rows]. unfold bind at 1. unfold db_users_find_one.
    destruct (find_one (user_has_id (Application.student_id a)) (users w))
      as [u|] eqn:Eu; [|exists rows; split; assumption].
    destruct (bool_decide (User.department u = department)) eqn:Ed;
      [|exists rows; split; assumption].
    apply bool_decide_eq_true in Ed.
    unfold bind, db_profiles_find_one, db_drives_find_one, ret.
    rewrite Hrun. eexists. split; [reflexivity|].
    constructor; [|exact Hall'].
    exists a, u. cbn. repeat split; try assumption. left.
Qed.

Lemma get_2025_statistics_details (current_user : User.t) (w : World)
    (rows : list PlacedStudent.t) :
  User.role current_user = "hod" ->
  placed_rows (User.department current_user)
    (find_to_list is_selected 1000 (applications w)) w = (Ok rows, w) ->
  exists s : Statistics2025.t,
    get_2025_statistics current_user w = (Ok s, w)
    /\ Statistics2025.placed_students_details s = rows
    /\ Statistics2025.department s = User.department current_user.
Proof.
  intros Hrole Hrun. unfold get_2025_statistics. rewrite Hrole.
  change (negb (String.eqb "hod" "hod")) with false. cbv iota.
  unfold bind. rewrite Hrun. eexists. split; [reflexivity|].
  split; reflexivity.
Qed.

End PlacedRowsFacts.

(** X28: the 2025 statistics of a head of department report no student
    of another department: every entry of [placed_students_details]
    carries the identifier, name and e-mail address of a stored user of
    the caller's department who owns a stored application in the round
    "Selected", and the score of that application. *)
Theorem X28_statistics_stay_in_the_department
    (current_user : User.t) (w : World) :
  User.role current_user = "hod" ->
  exists s : Statistics2025.t,
    get_2025_statistics current_user w = (Ok s, w)
    /\ Statistics2025.department s = User.department current_user
    /\ Forall
         (fun r =>
            exists (a : Application.t) (u : User.t),
              a ∈ applications w
              /\ Application.current_round a = "Selected"
              /\ find_one (user_has_id (Application.student_id a)) (users w)
                 = Some u
              /\ User.department u = User.department current_user
              /\ PlacedStudent.student_id r = User.id u
              /\ PlacedStudent.name r = User.name u
              /\ PlacedStudent.email r = User.email u
              /\ PlacedStudent.ai_score r
                 = default 0%Q (Application.ai_score a))
         (Statistics2025.placed_students_details s).
Proof.
  intros Hrole.
  destruct (placed_rows_members (User.department current_user)
              (find_to_list is_selected 1000 (applications w)) w)
    as (rows & Hrun & Hall).
  destruct (get_2025_statistics_details current_user w rows Hrole Hrun)
    as (s & Hs & Hdetails & Hdept).
  exists s. split; [exact Hs|]. split; [exact Hdept|].
  rewrite Hdetails. eapply Forall_impl; [exact Hall|].
  intros r (a & u & Hin & Hrest). exists a, u.
  unfold find_to_list in Hin. apply elem_of_take in Hin as (k & Hin & _).
  apply list_elem_of_lookup_2 in Hin.
  apply list_elem_of_In, filter_In in Hin as [Hin Hsel].
  split; [apply list_elem_of_In, Hin|].
  split; [apply String.eqb_eq, Hsel | exact Hrest].
Qed.

(** The head of ECE sees none of the two placed CSE students. *)
Lemma X28_witness :
  User.role
    {| User.id := "u-hod-ece"; User.email := "hod.ece@college.edu";
       User.name := "Head of ECE"; User.role := "hod";
       User.department := Some "ECE"; User.is_approved := true |} = "hod"
  /\ exists s : Statistics2025.t,
       get_2025_statistics
         {| User.id := "u-hod-ece"; User.email := "hod.ece@college.edu";
            User.name := "Head of ECE"; User.role := "hod";
            User.department := Some "ECE"; User.is_approved := true |}
         Campus.placed_world = (Ok s, Campus.placed_world)
       /\ Statistics2025.department s = Some "ECE"
       /\ Statistics2025.placed_students_details s = [].
Proof.
  split; [reflexivity|].
  destruct (X28_statistics_stay_in_the_department
              {| User.id := "u-hod-ece"; User.email := "hod.ece@college.edu";
                 User.name := "Head of ECE"; User.role := "hod";
                 User.department := Some "ECE"; User.is_approved := true |}
              Campus.placed_world eq_refl)
    as (s & Hrun & Hdept & _).
  exists s. split; [exact Hrun|]. split; [exact Hdept|].
  pose proof (f_equal
                (fun r : Result Statistics2025.t * World =>
                   match fst r with
                   | Ok s => Statistics2025.placed_students_details s
                   | Raised _ => []
                   end) Hrun) as Hs.
  cbn [fst] in Hs. vm_compute in Hs. symmetry. exact Hs.
Defined.
